(** * VSIX Downloader: a shallow embedding of the browser extension and of
      the stand-alone scripts, with the properties of its specification.

    Sources embedded here:
    - [browser-extension/content/content.js]  (class [VSIXDownloader]),
    - the popup script                         (class [PopupManager]),
    - the background service worker           ([validateDownloadRequest],
      [handleDownloadRequest], [initiateDownload], [sanitizeFilename],
      [handleMessage], [handleSettingsUpdate], [handleDownloadChanged]),
    - [downloadVSIX-legacy-with-progress.js] and the enhanced script
      ([getFileName], [ExtensionManager.extractMetadata]).

    A JavaScript string is a sequence of UTF-16 code units; it is modelled
    as a list of numbers.  Exceptions are modelled by the [result] type,
    asynchronous timers by explicit traces of the timers that are armed. *)

From Stdlib Require Import List NArith Arith Bool Lia String Ascii.
From Stdlib Require DecimalString.
From Equations Require Import Equations.
Import ListNotations.

Set Implicit Arguments.
Set Warnings "-register-all".


(* ===================================================================== *)
(** ** JavaScript strings and exceptions *)
(* ===================================================================== *)

Module JS.

Local Open Scope N_scope.

Definition code_unit := N.
Definition jsstring := list code_unit.

(** An ASCII literal of the source, as code units. *)
Definition lit (s : string) : jsstring :=
  List.map N_of_ascii (list_ascii_of_string s).
Arguments lit s%_string.

(** Equality of strings, [===] on two strings. *)
Fixpoint str_eqb (a b : jsstring) : bool :=
  match a, b with
  | [], [] => true
  | x :: a', y :: b' => N.eqb x y && str_eqb a' b'
  | _, _ => false
  end.

(** Truthiness of a string: only the empty string is falsy. *)
Definition truthy (s : jsstring) : bool :=
  match s with [] => false | _ :: _ => true end.

(** The error values the modelled code can throw. *)
Inductive error : Type :=
| URIError
| SyntaxError
| TypeError
| Error (message : jsstring).

(** A computation either returns normally or throws. *)
Inductive result (A : Type) : Type :=
| Ok (a : A)
| Throw (e : error).
Arguments Ok {A} a.
Arguments Throw {A} e.

Definition bind {A B} (m : result A) (k : A -> result B) : result B :=
  match m with
  | Ok a => k a
  | Throw e => Throw e
  end.

(** [try { m } catch (e) { h e }] *)
Definition try_catch {A} (m : result A) (h : error -> result A) : result A :=
  match m with
  | Ok a => Ok a
  | Throw e => h e
  end.

Definition code (a : ascii) : code_unit := N_of_ascii a.

Definition in_range (lo hi c : N) : bool := N.leb lo c && N.leb c hi.

Definition is_digit (c : code_unit) : bool := in_range 48 57 c.
Definition is_upper (c : code_unit) : bool := in_range 65 90 c.
Definition is_lower (c : code_unit) : bool := in_range 97 122 c.

(** [\w]: ASCII letters, digits and the underscore. *)
Definition is_word (c : code_unit) : bool :=
  is_digit c || is_upper c || is_lower c || N.eqb c 95.

(** [\s], which is also the set [String.prototype.trim] strips: the
    WhiteSpace and LineTerminator code points of ECMAScript. *)
Definition is_space (c : code_unit) : bool :=
  in_range 9 13 c || N.eqb c 32 || N.eqb c 160 || N.eqb c 5760
  || in_range 8192 8202 c || N.eqb c 8232 || N.eqb c 8233
  || N.eqb c 8239 || N.eqb c 8287 || N.eqb c 12288 || N.eqb c 65279.

Fixpoint drop_space (s : jsstring) : jsstring :=
  match s with
  | [] => []
  | c :: r => if is_space c then drop_space r else s
  end.

(** [s.trim()] *)
Definition trim (s : jsstring) : jsstring :=
  rev (drop_space (rev (drop_space s))).

(** [s.endsWith(suffix)] *)
Definition endsWith (s suffix : jsstring) : bool :=
  str_eqb (skipn (List.length s - List.length suffix)%nat s) suffix
  && Nat.leb (List.length suffix) (List.length s).

(** [s.substring(a, b)] for [a <= b]; [substring_from] is the one-argument
    form. *)
Definition substring (a b : nat) (s : jsstring) : jsstring :=
  firstn (b - a)%nat (skipn a s).
Definition substring_from (a : nat) (s : jsstring) : jsstring := skipn a s.

(** [s.lastIndexOf(c)] for a one-character needle: [None] stands for -1. *)
Fixpoint lastIndexOf (c : code_unit) (s : jsstring) : option nat :=
  match s with
  | [] => None
  | x :: r =>
      match lastIndexOf c r with
      | Some i => Some (S i)
      | None => if N.eqb x c then Some 0%nat else None
      end
  end.

(** [s.split(c)] for a one-character separator: never the empty array. *)
Fixpoint split (c : code_unit) (s : jsstring) : list jsstring :=
  match s with
  | [] => [[]]
  | x :: r =>
      if N.eqb x c then [] :: split c r
      else match split c r with
           | p :: ps => (x :: p) :: ps
           | [] => [[x]]
           end
  end.

(** [parts.join(sep)] *)
Fixpoint join (sep : jsstring) (parts : list jsstring) : jsstring :=
  match parts with
  | [] => []
  | [p] => p
  | p :: ps => p ++ sep ++ join sep ps
  end.

(** [parts.slice(1)] *)
Definition slice1 (parts : list jsstring) : list jsstring :=
  skipn 1%nat parts.

(** *** [encodeURIComponent] *)

(** The characters left as they are: letters, digits and [-_.!~*'()]. *)
Definition uriUnescaped (c : code_unit) : bool :=
  is_upper c || is_lower c || is_digit c
  || N.eqb c 45 || N.eqb c 95 || N.eqb c 46 || N.eqb c 33
  || N.eqb c 126 || N.eqb c 42 || N.eqb c 39 || N.eqb c 40 || N.eqb c 41.

Definition is_lead (c : code_unit) : bool := in_range 55296 56319 c.
Definition is_trail (c : code_unit) : bool := in_range 56320 57343 c.

(** The code point of a surrogate pair. *)
Definition code_point (hi lo : code_unit) : N :=
  ((hi - 55296) * 1024 + (lo - 56320) + 65536)%N.

(** UTF-8 octets of a code point. *)
Definition utf8 (cp : N) : list N :=
  if N.ltb cp 128 then [cp]
  else if N.ltb cp 2048 then
    [192 + cp / 64; 128 + cp mod 64]%N
  else if N.ltb cp 65536 then
    [224 + cp / 4096; 128 + (cp / 64) mod 64; 128 + cp mod 64]%N
  else
    [240 + cp / 262144; 128 + (cp / 4096) mod 64;
     128 + (cp / 64) mod 64; 128 + cp mod 64]%N.

Definition hex_digit (d : N) : code_unit :=
  if N.ltb d 10 then (48 + d)%N else (55 + d)%N.

(** ["%XX"], upper-case hexadecimal. *)
Definition percent (octet : N) : jsstring :=
  [37%N; hex_digit (octet / 16); hex_digit (octet mod 16)].

Definition percent_all (octets : list N) : jsstring :=
  flat_map percent octets.

(** [encodeURIComponent(s)]: throws [URIError] on an unpaired surrogate. *)
Fixpoint encodeURIComponent (s : jsstring) : result jsstring :=
  match s with
  | [] => Ok []
  | c :: r =>
      if uriUnescaped c then
        bind (encodeURIComponent r) (fun t => Ok (c :: t))
      else if is_trail c then Throw URIError
      else if is_lead c then
        match r with
        | lo :: r' =>
            if is_trail lo then
              bind (encodeURIComponent r')
                   (fun t => Ok (percent_all (utf8 (code_point c lo)) ++ t))
            else Throw URIError
        | [] => Throw URIError
        end
      else
        bind (encodeURIComponent r)
             (fun t => Ok (percent_all (utf8 c) ++ t))
  end.

(** A well-formed string: its elements are 16-bit code units and every
    surrogate is paired. *)
Fixpoint well_formed (s : jsstring) : bool :=
  match s with
  | [] => true
  | c :: r =>
      if is_trail c then false
      else if is_lead c then
        match r with
        | lo :: r' => is_trail lo && well_formed r'
        | [] => false
        end
      else N.ltb c 65536 && well_formed r
  end.

End JS.

Import JS.

Declare Scope js_scope.
Delimit Scope js_scope with js.
Notation "x <- m ;; k" := (bind m (fun x => k))
  (at level 61, m at next level, right associativity) : js_scope.
Notation "'$' s" := (lit s) (at level 1, s at level 0, format "'$' s").
Open Scope js_scope.


(* ===================================================================== *)
(** ** The page the content script reads *)
(* ===================================================================== *)

Module DOM.

(** A JavaScript value as far as the scripts inspect one: the result of
    [JSON.parse] or the global [window.__INITIAL_STATE__].  Of a number only
    its truthiness is ever observed ([0] and [NaN] are falsy). *)
Inductive value : Type :=
| VUndefined
| VNull
| VBool (b : bool)
| VNumber (nonzero : bool)
| VString (s : jsstring)
| VArray (items : list value)
| VObject (fields : list (jsstring * value)).

Definition value_truthy (v : value) : bool :=
  match v with
  | VUndefined | VNull => false
  | VBool b => b
  | VNumber nz => nz
  | VString s => truthy s
  | VArray _ | VObject _ => true
  end.

Fixpoint lookup (key : jsstring) (fields : list (jsstring * value)) : value :=
  match fields with
  | [] => VUndefined
  | (k, v) :: r => if str_eqb k key then v else lookup key r
  end.

(** [v.key] for one of the keys the scripts read (none of them is a
    property of a primitive, of an array or of [Object.prototype]):
    a [TypeError] on [null] and [undefined]. *)
Definition get_prop (v : value) (key : jsstring) : result value :=
  match v with
  | VUndefined | VNull => Throw TypeError
  | VObject fields => Ok (lookup key fields)
  | _ => Ok VUndefined
  end.

(** [v?.key] *)
Definition get_prop_opt (v : value) (key : jsstring) : result value :=
  match v with
  | VUndefined | VNull => Ok VUndefined
  | _ => get_prop v key
  end.

(** [new URLSearchParams(location.search)]: the decoded name/value pairs in
    the order of the query string. *)
Definition URLSearchParams := list (jsstring * jsstring).

(** [params.get(name)]: the first value with that name, [None] for [null]. *)
Fixpoint get (params : URLSearchParams) (name : jsstring) : option jsstring :=
  match params with
  | [] => None
  | (k, v) :: r => if str_eqb k name then Some v else get r name
  end.

(** What one run of the extractor can observe of the page. *)
Record Page : Type := {
  (** [window.location.search], parsed *)
  search : URLSearchParams;
  (** [JSON.parse(script.textContent)] for every script matched by
      [script[type="application/ld+json"], script[type="application/json"]],
      in document order *)
  json_scripts : list (result value);
  (** [document.querySelectorAll(selector)]: the [textContent] of each
      matched element, in document order *)
  querySelectorAll : jsstring -> list jsstring;
  (** [window.__INITIAL_STATE__] *)
  initial_state : value
}.

(** [document.querySelector(selector)] *)
Definition querySelector (page : Page) (selector : jsstring)
  : option jsstring :=
  hd_error (querySelectorAll page selector).

End DOM.

Import DOM.

(* ===================================================================== *)
(** ** content.js: class VSIXDownloader *)
(* ===================================================================== *)

Module Content.

Local Open Scope N_scope.

(** [this.extensionData] *)
Record ExtensionData : Type := {
  version : jsstring;
  publisher : jsstring;
  identifier : jsstring;
  name : jsstring
}.

Definition empty_data : ExtensionData :=
  {| version := []; publisher := []; identifier := []; name := [] |}.

Definition set_version (v : jsstring) (d : ExtensionData) : ExtensionData :=
  {| version := v; publisher := publisher d;
     identifier := identifier d; name := name d |}.
Definition set_publisher (v : jsstring) (d : ExtensionData) : ExtensionData :=
  {| version := version d; publisher := v;
     identifier := identifier d; name := name d |}.
Definition set_identifier (v : jsstring) (d : ExtensionData) : ExtensionData :=
  {| version := version d; publisher := publisher d;
     identifier := v; name := name d |}.
Definition set_name (v : jsstring) (d : ExtensionData) : ExtensionData :=
  {| version := version d; publisher := publisher d;
     identifier := identifier d; name := v |}.

(** The methods that read and write [this.extensionData] and may throw:
    the data survives a throw. *)
Definition M (A : Type) : Type := ExtensionData -> result A * ExtensionData.

Definition ret {A} (a : A) : M A := fun d => (Ok a, d).
Definition lift {A} (r : result A) : M A := fun d => (r, d).
Definition modify (f : ExtensionData -> ExtensionData) : M unit :=
  fun d => (Ok tt, f d).

Definition mbind {A B} (m : M A) (k : A -> M B) : M B :=
  fun d =>
    match m d with
    | (Ok a, d') => k a d'
    | (Throw e, d') => (Throw e, d')
    end.

(** [try { m } catch (error) { h }] *)
Definition mtry {A} (m : M A) (h : error -> M A) : M A :=
  fun d =>
    match m d with
    | (Ok a, d') => (Ok a, d')
    | (Throw e, d') => h e d'
    end.

Declare Scope m_scope.
Delimit Scope m_scope with M.
Notation "x <-- m ;; k" := (mbind m (fun x => k))
  (at level 61, m at next level, right associativity) : m_scope.
Notation "m ;;; k" := (mbind m (fun _ => k))
  (at level 61, right associativity) : m_scope.

(** [m] returns normally, whatever the data. *)
Definition returns {A} (m : M A) : Prop :=
  forall d, exists a d', m d = (Ok a, d').

(** Every run of [m] takes the data along the relation [step]. *)
Definition follows {A} (step : ExtensionData -> ExtensionData -> Prop)
  (m : M A) : Prop :=
  forall d r d', m d = (r, d') -> step d d'.

(** [hasValidData()] *)
Definition hasValidData (d : ExtensionData) : bool :=
  truthy (identifier d) && truthy (version d) && truthy (publisher d).

(** *** The version patterns *)

Fixpoint skip_digits (s : jsstring) : jsstring :=
  match s with
  | [] => []
  | c :: r => if is_digit c then skip_digits r else s
  end.

Fixpoint take_digits (s : jsstring) : jsstring :=
  match s with
  | [] => []
  | c :: r => if is_digit c then c :: take_digits r else []
  end.

(** [\d+], greedy: the digits and what follows them. *)
Definition digits1 (s : jsstring) : option (jsstring * jsstring) :=
  match s with
  | c :: r => if is_digit c then Some (take_digits s, skip_digits s) else None
  | [] => None
  end.

Definition expect (c : code_unit) (s : jsstring) : option jsstring :=
  match s with
  | x :: r => if N.eqb x c then Some r else None
  | [] => None
  end.

(** [\d+\.\d+\.\d+] at the start of [s]: the match and what follows it. *)
Definition three_numbers (s : jsstring) : option (jsstring * jsstring) :=
  match digits1 s with
  | None => None
  | Some (a, r1) =>
    match expect (code ".") r1 with
    | None => None
    | Some r2 =>
      match digits1 r2 with
      | None => None
      | Some (b, r3) =>
        match expect (code ".") r3 with
        | None => None
        | Some r4 =>
          match digits1 r4 with
          | None => None
          | Some (c, r5) =>
              Some (a ++ [code "."] ++ b ++ [code "."] ++ c, r5)
          end
        end
      end
    end
  end.

(** [isValidVersion(version)], for a string: [/^\d+\.\d+\.\d+/.test] *)
Definition isValidVersion (version : jsstring) : bool :=
  match three_numbers version with
  | Some _ => true
  | None => false
  end.

Definition is_word_opt (c : option code_unit) : bool :=
  match c with
  | Some x => is_word x
  | None => false
  end.

(** [\b] between two neighbouring positions. *)
Definition word_boundary (prev next : option code_unit) : bool :=
  xorb (is_word_opt prev) (is_word_opt next).

(** [/\b(\d+\.\d+\.\d+(?:\.\d+)?)\b/] tried at one position, [prev] being
    the character before it: the captured group.  The optional fourth
    number is tried first; when the closing [\b] fails after it the match
    falls back to three numbers. *)
Definition match_version_at (prev : option code_unit) (s : jsstring)
  : option jsstring :=
  if negb (word_boundary prev (hd_error s)) then None else
  match three_numbers s with
  | None => None
  | Some (m, r) =>
      let three :=
        if word_boundary (Some (last m 0)) (hd_error r) then Some m
        else None in
      match expect (code ".") r with
      | None => three
      | Some r' =>
          match digits1 r' with
          | None => three
          | Some (d, r'') =>
              if word_boundary (Some (last d 0)) (hd_error r'')
              then Some (m ++ [code "."] ++ d)
              else three
          end
      end
  end.

(** [text.match(/\b(\d+\.\d+\.\d+(?:\.\d+)?)\b/)]: the group of the
    leftmost match, [None] for [null]. *)
Fixpoint search_version (prev : option code_unit) (s : jsstring)
  : option jsstring :=
  match match_version_at prev s with
  | Some v => Some v
  | None =>
      match s with
      | [] => None
      | c :: r => search_version (Some c) r
      end
  end.

Definition version_match (text : jsstring) : option jsstring :=
  search_version None text.

(** Case folding of [/.../i] for an ASCII pattern: only the ASCII letters
    fold onto ASCII letters. *)
Definition fold_case (c : code_unit) : code_unit :=
  if is_upper c then c + 32 else c.

Fixpoint starts_with_ci (pat s : jsstring) : bool :=
  match pat, s with
  | [], _ => true
  | p :: pat', c :: s' => N.eqb (fold_case c) p && starts_with_ci pat' s'
  | _ :: _, [] => false
  end.

(** [/version/i.test(text)] *)
Fixpoint mentions_version (text : jsstring) : bool :=
  starts_with_ci ($"version") text
  || match text with
     | [] => false
     | _ :: r => mentions_version r
     end.

(** *** Extraction *)

Definition is_markup (c : code_unit) : bool :=
  N.eqb c (code "<") || N.eqb c (code ">") || N.eqb c 34
  || N.eqb c (code "'") || N.eqb c (code "&").

(** [sanitizeText(text)], for a string: every character of the class
    [<], [>], double quote, single quote, [&] is removed, then [trim()]. *)
Definition sanitizeText (text : jsstring) : jsstring :=
  trim (filter (fun c => negb (is_markup c)) text).

(** [extractFromURL()] *)
Definition extractFromURL (page : Page) : M unit :=
  mtry
    (match get (search page) ($"itemName") with
     | None => ret tt
     | Some itemName =>
         if negb (truthy itemName) then ret tt
         else
           (modify (set_identifier (sanitizeText itemName)) ;;;
            let parts := split (code ".") itemName in
            if Nat.leb 2 (List.length parts) then
              modify (set_publisher (sanitizeText (nth 0 parts []))) ;;;
              modify (set_name
                        (sanitizeText (join ($".") (slice1 parts))))
            else ret tt)%M
     end)
    (fun _ => ret tt).

(** [a || b] on values, [b] being evaluated only when [a] is falsy. *)
Definition or_else (a : result value) (b : result value) : result value :=
  x <- a ;; if value_truthy x then Ok x else b.

(** [data.softwareVersion || data.version || data.Version ||
     (data.offers && data.offers.version)] *)
Definition structured_version (data : value) : result value :=
  or_else (get_prop data ($"softwareVersion"))
    (or_else (get_prop data ($"version"))
       (or_else (get_prop data ($"Version"))
          (offers <- get_prop data ($"offers") ;;
           if value_truthy offers then get_prop offers ($"version")
           else Ok offers))).

(** [if (version && this.isValidVersion(version))
       { this.extensionData.version = version; return true; }]:
    the boolean tells whether the function returned.  [isValidVersion]
    refuses what is not a string ([typeof version !== 'string']). *)
Definition accept_version (v : value) : M bool :=
  match v with
  | VString s =>
      if truthy s && isValidVersion s
      then (modify (set_version s) ;;; ret true)%M
      else ret false
  | _ => ret false
  end.

(** The loop over the scripts of [extractVersionFromStructuredData]. *)
Fixpoint scan_scripts (scripts : list (result value)) : M bool :=
  match scripts with
  | [] => ret false
  | parsed :: rest =>
      (returned <--
         mtry (data <-- lift parsed ;;
               v <-- lift (structured_version data) ;;
               accept_version v)
              (fun _ => ret false) ;;
       if (returned : bool) then ret true else scan_scripts rest)%M
  end.

(** [extractVersionFromStructuredData()] *)
Definition extractVersionFromStructuredData (page : Page) : M bool :=
  mtry (scan_scripts (json_scripts page)) (fun _ => ret false).

Definition quote : code_unit := 34.

(** The selector [[class*="v"]]. *)
Definition class_has (v : jsstring) : jsstring :=
  $"[class*=" ++ [quote] ++ v ++ [quote] ++ $"]".

Definition version_selectors : list jsstring :=
  [ class_has ($"version-text");
    class_has ($"version-number");
    class_has ($"extension-version");
    $".version";
    $".ux-table-metadata td";
    $".metadata-table td";
    $"table.metadata td";
    class_has ($"metadata") ++ $" " ++ class_has ($"version");
    class_has ($"details") ++ $" " ++ class_has ($"version") ].

(** The inner loop over the elements of one selector. *)
Fixpoint first_version (texts : list jsstring) : option jsstring :=
  match texts with
  | [] => None
  | text :: rest =>
      match version_match (trim text) with
      | Some v => Some v
      | None => first_version rest
      end
  end.

Fixpoint scan_selectors (page : Page) (selectors : list jsstring) : M bool :=
  match selectors with
  | [] => ret false
  | selector :: rest =>
      (returned <--
         mtry (match first_version (querySelectorAll page selector) with
               | Some v => modify (set_version v) ;;; ret true
               | None => ret false
               end)
              (fun _ => ret false) ;;
       if (returned : bool) then ret true else scan_selectors page rest)%M
  end.

(** The fallback loop over [td, dd, span]. *)
Fixpoint first_labelled_version (texts : list jsstring) : option jsstring :=
  match texts with
  | [] => None
  | text :: rest =>
      if mentions_version (trim text) then
        match version_match (trim text) with
        | Some v => Some v
        | None => first_labelled_version rest
        end
      else first_labelled_version rest
  end.

(** [extractVersionFromDOM()] *)
Definition extractVersionFromDOM (page : Page) : M bool :=
  (returned <-- scan_selectors page version_selectors ;;
   if (returned : bool) then ret true
   else
     match first_labelled_version
             (querySelectorAll page ($"td, dd, span")) with
     | Some v => modify (set_version v) ;;; ret true
     | None => ret false
     end)%M.

(** [state.extension?.version || state.item?.version ||
     state.data?.version] *)
Definition state_version (state : value) : result value :=
  or_else (e <- get_prop state ($"extension") ;;
           get_prop_opt e ($"version"))
    (or_else (i <- get_prop state ($"item") ;; get_prop_opt i ($"version"))
       (d <- get_prop state ($"data") ;; get_prop_opt d ($"version"))).

(** [extractVersionFromPageData()] *)
Definition extractVersionFromPageData (page : Page) : M bool :=
  mtry
    (if value_truthy (initial_state page) then
       (v <-- lift (state_version (initial_state page)) ;;
        accept_version v)%M
     else ret false)
    (fun _ => ret false).

(** [extractVersion()] *)
Definition extractVersion (page : Page) : M unit :=
  (found <-- extractVersionFromStructuredData page ;;
   if (found : bool) then ret tt
   else
     found <-- extractVersionFromDOM page ;;
     if (found : bool) then ret tt
     else
       found <-- extractVersionFromPageData page ;;
       ret tt)%M.

(** [extractMetadata()]; the final [console.warn] has no effect on the
    data. *)
Definition extractMetadata (page : Page) : M unit :=
  (extractFromURL page ;;;
   extractVersion page ;;;
   ret tt)%M.

(** *** Downloads *)

(** The message [downloadFile] hands to [chrome.runtime.sendMessage]. *)
Record Message : Type := {
  action : jsstring;
  url : jsstring;
  filename : jsstring
}.

(** [downloadFile(publisher, extension, version, type)]: the message sent
    to the background worker.  The template literal evaluates its
    [encodeURIComponent] calls from left to right. *)
Definition downloadFile (publisher extension version type : jsstring)
  : result Message :=
  if str_eqb type ($"vsix") then
    p1 <- encodeURIComponent publisher ;;
    p2 <- encodeURIComponent publisher ;;
    e <- encodeURIComponent extension ;;
    v <- encodeURIComponent version ;;
    Ok {| action := $"download";
          url := $"https://" ++ p1
                 ++ $".gallery.vsassets.io/_apis/public/gallery/publisher/"
                 ++ p2 ++ $"/extension/" ++ e ++ $"/" ++ v
                 ++ $"/assetbyname/Microsoft.VisualStudio.Services.VSIXPackage";
          filename := publisher ++ $"." ++ extension ++ $"-" ++ version
                      ++ $".vsix" |}
  else
    p <- encodeURIComponent publisher ;;
    e <- encodeURIComponent extension ;;
    v <- encodeURIComponent version ;;
    Ok {| action := $"download";
          url := $"https://marketplace.visualstudio.com/_apis/public/gallery/publishers/"
                 ++ p ++ $"/vsextensions/" ++ e ++ $"/" ++ v
                 ++ $"/vspackage";
          filename := publisher ++ $"." ++ extension ++ $"-" ++ version
                      ++ $".vsixpackage" |}.

(** The file name [downloadFile] sends; empty when it throws. *)
Definition filename_of (r : result Message) : jsstring :=
  match r with
  | Ok m => filename m
  | Throw _ => []
  end.

(** The URL [downloadFile] resolves. *)
Definition resolveUrl (publisher extension version kind : jsstring)
  : result jsstring :=
  m <- downloadFile publisher extension version kind ;; Ok (url m).

Definition newline : jsstring := [10].

(** [copyUrls(publisher, extension, version)]: the text written to the
    clipboard. *)
Definition copyUrls (publisher extension version : jsstring)
  : result jsstring :=
  p1 <- encodeURIComponent publisher ;;
  p2 <- encodeURIComponent publisher ;;
  e1 <- encodeURIComponent extension ;;
  v1 <- encodeURIComponent version ;;
  let vsixUrl :=
    $"https://" ++ p1
    ++ $".gallery.vsassets.io/_apis/public/gallery/publisher/"
    ++ p2 ++ $"/extension/" ++ e1 ++ $"/" ++ v1
    ++ $"/assetbyname/Microsoft.VisualStudio.Services.VSIXPackage" in
  p3 <- encodeURIComponent publisher ;;
  e2 <- encodeURIComponent extension ;;
  v2 <- encodeURIComponent version ;;
  let packageUrl :=
    $"https://marketplace.visualstudio.com/_apis/public/gallery/publishers/"
    ++ p3 ++ $"/vsextensions/" ++ e2 ++ $"/" ++ v2 ++ $"/vspackage" in
  Ok ($"VSIX Download URLs for " ++ publisher ++ $"." ++ extension
      ++ $" v" ++ version ++ newline ++ newline ++ $"VSIX URL:" ++ newline
      ++ vsixUrl ++ newline ++ newline ++ $"VSIXPackage URL:" ++ newline
      ++ packageUrl).

(** What a click on a button leads to. *)
Inductive performed : Type :=
| Notification (message : jsstring)
| ClipboardWrite (text : jsstring)
| MessageSent (m : Message).

(** [performAction(action)] *)
Definition performAction (d : ExtensionData) (action : jsstring)
  : result performed :=
  if negb (truthy (publisher d)) || negb (truthy (name d))
     || negb (truthy (version d))
  then Ok (Notification ($"Invalid extension data"))
  else if str_eqb action ($"copy") then
    text <- copyUrls (publisher d) (name d) (version d) ;;
    Ok (ClipboardWrite text)
  else
    m <- downloadFile (publisher d) (name d) (version d) action ;;
    Ok (MessageSent m).

(** [handleButtonClick(action, button)] *)
Definition handleButtonClick (d : ExtensionData) (action : jsstring)
  : result performed :=
  if negb (hasValidData d) then
    Ok (Notification
          ($"Extension data not available. Please refresh the page."))
  else performAction d action.

(** *** The orchestrator *)

(** What the object does that the outside can observe. *)
Inductive event : Type :=
| Extracted                 (** [extractMetadata()] was invoked *)
| TimerArmed (ms : N)       (** [setTimeout(retry, ms)] *)
| ConsoleError.             (** [console.error(...)] *)

(** The fields of a [VSIXDownloader] the orchestrator uses, the one fact
    of the document it writes ([container]: whether the element
    [#vsix-downloader-container] is in the document), and the trace of its
    observable actions, oldest first. *)
Record State : Type := {
  extensionData : ExtensionData;
  observer : bool;
  isProcessing : bool;
  isInjected : bool;
  retryAttempts : nat;
  container : bool;
  log : list event
}.

Definition maxRetries : nat := 5.
Definition retryDelay : N := 1000.

(** The object right after its constructor. *)
Definition initial : State :=
  {| extensionData := empty_data; observer := false; isProcessing := false;
     isInjected := false; retryAttempts := 0; container := false;
     log := [] |}.

Definition with_data (d : ExtensionData) (st : State) : State :=
  {| extensionData := d; observer := observer st;
     isProcessing := isProcessing st; isInjected := isInjected st;
     retryAttempts := retryAttempts st; container := container st;
     log := log st |}.
Definition with_observer (b : bool) (st : State) : State :=
  {| extensionData := extensionData st; observer := b;
     isProcessing := isProcessing st; isInjected := isInjected st;
     retryAttempts := retryAttempts st; container := container st;
     log := log st |}.
Definition with_isProcessing (b : bool) (st : State) : State :=
  {| extensionData := extensionData st; observer := observer st;
     isProcessing := b; isInjected := isInjected st;
     retryAttempts := retryAttempts st; container := container st;
     log := log st |}.
Definition with_retryAttempts (n : nat) (st : State) : State :=
  {| extensionData := extensionData st; observer := observer st;
     isProcessing := isProcessing st; isInjected := isInjected st;
     retryAttempts := n; container := container st;
     log := log st |}.
Definition injected (st : State) : State :=
  {| extensionData := extensionData st; observer := observer st;
     isProcessing := isProcessing st; isInjected := true;
     retryAttempts := retryAttempts st; container := true;
     log := log st |}.
Definition emit (e : event) (st : State) : State :=
  {| extensionData := extensionData st; observer := observer st;
     isProcessing := isProcessing st; isInjected := isInjected st;
     retryAttempts := retryAttempts st; container := container st;
     log := log st ++ [e] |}.

Definition targetSelectors : list jsstring :=
  [ $".ux-item-action-bar";
    $".ux-item-action-group";
    $".item-header .action-buttons";
    $".vscode-install-button-container";
    class_has ($"install-button");
    $".ux-item-header";
    $".item-header";
    $".extension-header";
    $".ux-section-side";
    $".referral-links";
    $".sidebar";
    $".ux-item-details";
    $".item-details";
    $"main" ].

(** [findInjectionTarget()] *)
Fixpoint find_first (page : Page) (selectors : list jsstring)
  : option jsstring :=
  match selectors with
  | [] => None
  | selector :: rest =>
      match querySelector page selector with
      | Some element => Some element
      | None => find_first page rest
      end
  end.

Definition findInjectionTarget (page : Page) : option jsstring :=
  find_first page targetSelectors.

(** [injectDownloadButtons()] *)
Definition injectDownloadButtons (page : Page) (st : State) : State :=
  if isInjected st || container st then st
  else if negb (hasValidData (extensionData st)) then st
  else
    match findInjectionTarget page with
    | None => st
    | Some _ => injected st
    end.

(** The value [chrome.storage.sync.get({ autoInject: true })] resolves to. *)
Record Settings : Type := { autoInject : value }.

(** [checkAutoInject()]; [storage] is the outcome of the read of the
    settings store: [Throw] when the promise is rejected. *)
Definition checkAutoInject (storage : result Settings) (page : Page)
  (st : State) : State :=
  if isInjected st then st
  else
    match storage with
    | Ok settings =>
        if value_truthy (autoInject settings)
        then injectDownloadButtons page st
        else st
    | Throw _ => injectDownloadButtons page (emit ConsoleError st)
    end.

(** [setupDOMObserver()] *)
Definition setupDOMObserver (st : State) : State :=
  if observer st || negb (hasValidData (extensionData st)) then st
  else with_observer true st.

(** The delay of the retry armed once [retryAttempts] was incremented to
    [attempts]: [this.retryDelay * Math.pow(2, this.retryAttempts - 1)]. *)
Definition backoff (attempts : nat) : N :=
  retryDelay * 2 ^ N.of_nat (attempts - 1).

(** [startProcessing()]: the new state and the delay of the retry timer it
    armed, if any. *)
Definition startProcessing (page : Page) (storage : result Settings)
  (st : State) : State * option N :=
  if isProcessing st then (st, None)
  else
    let st := with_isProcessing true st in
    (* try *)
    let '(outcome, d) := extractMetadata page (extensionData st) in
    let st := with_data d (emit Extracted st) in
    let '(st, timer) :=
      match outcome with
      | Throw _ => (emit ConsoleError st, None)
      | Ok _ =>
          if hasValidData (extensionData st) then
            (setupDOMObserver (checkAutoInject storage page st), None)
          else if Nat.ltb (retryAttempts st) maxRetries then
            let st := with_retryAttempts (S (retryAttempts st)) st in
            let delay := backoff (retryAttempts st) in
            (emit (TimerArmed delay) st, Some delay)
          else (st, None)
      end in
    (* finally *)
    let st :=
      if Nat.leb maxRetries (retryAttempts st)
         || hasValidData (extensionData st)
      then with_isProcessing false st
      else st in
    (st, timer).

(** The callback of the retry timer:
    [() => { this.isProcessing = false; this.startProcessing(); }] *)
Definition retry (page : Page) (storage : result Settings) (st : State)
  : State * option N :=
  startProcessing page storage (with_isProcessing false st).

(** One page view with no navigation: the first [startProcessing()], then
    the retry timers as they fire.  [pages k] is the page as the [k]-th
    run of [startProcessing] finds it. *)
Record Config : Type := {
  state : State;
  pending : option N;     (** the delay of the retry timer that is armed *)
  turn : nat              (** how many times [startProcessing] ran *)
}.

Section Orchestrator.

Variable pages : nat -> Page.
Variable storage : result Settings.

Definition boot : Config :=
  let '(st, timer) := startProcessing (pages 0) storage initial in
  {| state := st; pending := timer; turn := 1 |}.

(** The armed timer fires; [None] when no timer is armed: nothing will
    ever run again. *)
Definition fire (c : Config) : option Config :=
  match pending c with
  | None => None
  | Some _ =>
      let '(st, timer) := retry (pages (turn c)) storage (state c) in
      Some {| state := st; pending := timer; turn := S (turn c) |}
  end.

Fixpoint run (fuel : nat) (c : Config) : Config :=
  match fuel with
  | O => c
  | S n =>
      match fire c with
      | Some c' => run n c'
      | None => c
      end
  end.


End Orchestrator.

(** How often the extractor ran, and the delays of the timers armed. *)
Definition extractions (l : list event) : nat :=
  List.length (filter (fun e => match e with Extracted => true | _ => false end) l).

Fixpoint delays (l : list event) : list N :=
  match l with
  | [] => []
  | TimerArmed ms :: r => ms :: delays r
  | _ :: r => delays r
  end.

End Content.

(* ===================================================================== *)
(** ** The popup script: class PopupManager *)
(* ===================================================================== *)

Module Popup.

Local Open Scope N_scope.

(** [this.maxRetries] *)
Definition maxRetries : nat := 3.

Inductive event (R : Type) : Type :=
| Sent (attempt : nat)      (** [chrome.tabs.sendMessage], [attempt]-th call *)
| Timer (ms : N).           (** [setTimeout(..., ms)] *)
Arguments Sent {R} attempt.
Arguments Timer {R} ms.

(** How the promise settles. *)
Inductive settled (R : Type) : Type :=
| Resolved (response : R)
| Rejected (e : error).
Arguments Resolved {R} response.
Arguments Rejected {R} e.

(** [300 * Math.pow(2, attempt - 1)] *)
Definition delay_after (attempt : nat) : N :=
  300 * 2 ^ N.of_nat (attempt - 1).

Section Bridge.

Variable R : Type.

(** The content script of the tab: [answers k] is what the callback of the
    [k]-th [chrome.tabs.sendMessage] receives, [None] when
    [chrome.runtime.lastError] is set. *)
Variable answers : nat -> option R.

(** [sendMessageWithRetry(tabId, message, attempt)] *)
Equations? sendMessageWithRetry (attempt : nat) : settled R * list (event R)
  by wf (maxRetries - attempt)%nat lt :=
  sendMessageWithRetry attempt with answers attempt => {
    | Some response => (Resolved response, [Sent attempt]);
    | None with lt_dec attempt maxRetries => {
        | left _ =>
            let '(outcome, trace) := sendMessageWithRetry (attempt + 1) in
            (outcome, Sent attempt :: Timer (delay_after attempt) :: trace);
        | right _ =>
            (Rejected (Error ($"Content script not responding")),
             [Sent attempt]) } }.
Proof.
  unfold maxRetries in *.
  do 3 (destruct attempt as [|attempt]; cbn; try lia).
Qed.

End Bridge.

Definition sends {R} (l : list (event R)) : nat :=
  List.length
    (filter (fun e => match e with Sent _ => true | _ => false end) l).

Fixpoint timers {R} (l : list (event R)) : list N :=
  match l with
  | [] => []
  | Timer ms :: r => ms :: timers r
  | _ :: r => timers r
  end.

(** The argument of [chrome.downloads.download]. *)
Record DownloadOptions : Type := {
  url : jsstring;
  filename : jsstring;
  saveAs : bool;
  conflictAction : jsstring
}.

Inductive outcome : Type :=
| MissingData
| Failed (e : error)
| Download (options : DownloadOptions).

(** [handleDownload(type, button)], up to the call of the download
    capability; [data] is [this.extensionData]. *)
Definition handleDownload (data : option Content.ExtensionData)
  (type : jsstring) : outcome :=
  match data with
  | None => MissingData
  | Some d =>
      let identifier := Content.identifier d in
      let version := Content.version d in
      if negb (truthy identifier) || negb (truthy version) then MissingData
      else
        let parts := split (code ".") identifier in
        if Nat.ltb (List.length parts) 2 then
          Failed (Error ($"Invalid extension identifier format"))
        else
          let publisher := nth 0 parts [] in
          let extension := join ($".") (slice1 parts) in
          let built :=
            if str_eqb type ($"vsix") then
              p1 <- encodeURIComponent publisher ;;
              p2 <- encodeURIComponent publisher ;;
              e <- encodeURIComponent extension ;;
              v <- encodeURIComponent version ;;
              Ok ($"https://" ++ p1
                  ++ $".gallery.vsassets.io/_apis/public/gallery/publisher/"
                  ++ p2 ++ $"/extension/" ++ e ++ $"/" ++ v
                  ++ $"/assetbyname/Microsoft.VisualStudio.Services.VSIXPackage",
                  identifier ++ $"-" ++ version ++ $".vsix")
            else
              p <- encodeURIComponent publisher ;;
              e <- encodeURIComponent extension ;;
              v <- encodeURIComponent version ;;
              Ok ($"https://marketplace.visualstudio.com/_apis/public/gallery/publishers/"
                  ++ p ++ $"/vsextensions/" ++ e ++ $"/" ++ v
                  ++ $"/vspackage",
                  identifier ++ $"-" ++ version ++ $".vsixpackage") in
          match built with
          | Throw e => Failed e
          | Ok (u, f) =>
              Download {| url := u; filename := f; saveAs := false;
                          conflictAction := $"uniquify" |}
          end
  end.

End Popup.

(* ===================================================================== *)
(** ** The background service worker *)
(* ===================================================================== *)

Module Background.

(** What the worker reads of [new URL(s)]. *)
Record URL : Type := {
  protocol : jsstring;
  hostname : jsstring
}.

(** A message with [action: 'download']. *)
Record Request : Type := {
  url : value;
  filename : value
}.

(** The object [validateDownloadRequest] returns. *)
Inductive Validation : Type :=
| Valid
| Invalid (error : jsstring).

Definition allowedDomains : list jsstring :=
  [ $"marketplace.visualstudio.com"; $"gallery.vsassets.io" ].

(** [hostname === domain || hostname.endsWith('.' + domain)] for some
    allowed domain *)
Definition isAllowedDomain (hostname : jsstring) : bool :=
  existsb (fun domain =>
             str_eqb hostname domain || endsWith hostname ($"." ++ domain))
          allowedDomains.

(** [!v || typeof v !== 'string'] *)
Definition not_a_string (v : value) : bool :=
  negb (value_truthy v)
  || match v with VString _ => false | _ => true end.

Definition string_of (v : value) : jsstring :=
  match v with VString s => s | _ => [] end.

(** [sanitizeFilename(filename)] for a string. *)

Definition is_forbidden (c : code_unit) : bool :=
  N.eqb c (code "<") || N.eqb c (code ">") || N.eqb c (code ":")
  || N.eqb c 34 || N.eqb c (code "|") || N.eqb c (code "?")
  || N.eqb c (code "*").

Definition underscore : code_unit := code "_".

(** The first [replace]: each of the characters Windows forbids in a file
    name becomes an underscore. *)
Definition replace_forbidden (s : jsstring) : jsstring :=
  List.map (fun c => if is_forbidden c then underscore else c) s.

(** [.replace(/\.\./g, '_')]: the matches are found from left to right and
    do not overlap. *)
Fixpoint replace_dotdot (s : jsstring) : jsstring :=
  match s with
  | [] => []
  | a :: t =>
      match t with
      | b :: r =>
          if N.eqb a (code ".") && N.eqb b (code ".")
          then underscore :: replace_dotdot r
          else a :: replace_dotdot t
      | [] => [a]
      end
  end.

(** [.replace(/^\./, '_')] *)
Definition replace_leading_dot (s : jsstring) : jsstring :=
  match s with
  | c :: r => if N.eqb c (code ".") then underscore :: r else s
  | [] => []
  end.

(** [.replace(/\s+/g, '_')]: [in_run] tells that the previous character
    was white space, already replaced. *)
Fixpoint replace_spaces (in_run : bool) (s : jsstring) : jsstring :=
  match s with
  | [] => []
  | c :: r =>
      if is_space c then
        if in_run then replace_spaces true r
        else underscore :: replace_spaces true r
      else c :: replace_spaces false r
  end.

Definition sanitizeFilename (filename : jsstring) : jsstring :=
  let sanitized :=
    trim (replace_spaces false
            (replace_leading_dot
               (replace_dotdot (replace_forbidden filename)))) in
  let sanitized :=
    if negb (endsWith sanitized ($".vsix"))
       && negb (endsWith sanitized ($".vsixpackage"))
    then sanitized ++ $".vsix"
    else sanitized in
  if Nat.ltb 200 (List.length sanitized) then
    let ext :=
      match lastIndexOf (code ".") sanitized with
      | Some i => substring_from i sanitized
      | None => sanitized
      end in
    substring 0 (200 - List.length ext) sanitized ++ ext
  else sanitized.

(** [sanitizeFilename] on any value: [typeof filename !== 'string']
    first. *)
Definition sanitizeFilename_value (filename : value) : jsstring :=
  match filename with
  | VString s => sanitizeFilename s
  | _ => $"download.vsix"
  end.

(** The argument of [chrome.downloads.download]. *)
Record DownloadOptions : Type := {
  options_url : jsstring;
  options_filename : jsstring;
  saveAs : bool;
  conflictAction : jsstring
}.

(** An entry of [state.downloads]. *)
Record Tracked : Type := {
  tracked_url : jsstring;
  tracked_filename : jsstring;
  startTime : N;
  status : jsstring
}.

(** The argument of [sendResponse]. *)
Inductive Response : Type :=
| Success (downloadId : N)
| Failure (error : jsstring).

(** [error.message]; the text of a built-in error is the engine's own and
    is left empty here: the worker only meets errors made with
    [new Error(message)]. *)
Definition message (e : error) : jsstring :=
  match e with
  | Error m => m
  | _ => []
  end.

Section Worker.

(** The platform: the URL parser, the download capability
    [chrome.downloads.download] and the clock [Date.now()]. *)
Variable newURL : jsstring -> result URL.
Variable downloads_download : DownloadOptions -> result N.
Variable now : N.

(** [validateDownloadRequest(request)] *)
Definition validateDownloadRequest (request : Request) : Validation :=
  if not_a_string (url request) then
    Invalid ($"Invalid or missing URL")
  else if not_a_string (filename request) then
    Invalid ($"Invalid or missing filename")
  else
    match newURL (string_of (url request)) with
    | Throw _ => Invalid ($"Malformed URL")
    | Ok urlObj =>
        if negb (isAllowedDomain (hostname urlObj)) then
          Invalid ($"Domain not allowed: " ++ hostname urlObj)
        else if negb (str_eqb (protocol urlObj) ($"https:")) then
          Invalid ($"Only HTTPS URLs are allowed")
        else Valid
    end.

(** [initiateDownload(url, filename)]: its result and the calls of the
    download capability it made. *)
Definition initiateDownload (url : jsstring) (filename : value)
  : result N * list DownloadOptions :=
  let sanitizedFilename := sanitizeFilename_value filename in
  let options :=
    {| options_url := url; options_filename := sanitizedFilename;
       saveAs := false; conflictAction := $"uniquify" |} in
  (try_catch (downloads_download options)
     (fun error => Throw (Error ($"Download failed: " ++ message error))),
   [options]).

(** [handleDownloadRequest(request, sender, sendResponse)]: the response,
    the calls of the download capability, and [state.downloads]. *)
Definition handleDownloadRequest (request : Request)
  (tracked : list (N * Tracked))
  : Response * list DownloadOptions * list (N * Tracked) :=
  match validateDownloadRequest request with
  | Invalid error => (Failure error, [], tracked)
  | Valid =>
      let '(r, calls) :=
        initiateDownload (string_of (url request)) (filename request) in
      match r with
      | Ok downloadId =>
          (Success downloadId, calls,
           (downloadId,
            {| tracked_url := string_of (url request);
               tracked_filename := string_of (filename request);
               startTime := now;
               status := $"in_progress" |}) :: tracked)
      | Throw error =>
          let m := message error in
          (Failure (if truthy m then m else $"Download failed"),
           calls, tracked)
      end
  end.

End Worker.

End Background.

(* ===================================================================== *)
(** ** The stand-alone scripts *)
(* ===================================================================== *)

Module Legacy.

(** [getFileName(type)] of [extensionData] (legacy script) and of
    [ExtensionManager] (enhanced script):
    [`${identifier}_${version}.${type}`] *)
Definition getFileName (identifier version type : jsstring) : jsstring :=
  identifier ++ $"_" ++ version ++ $"." ++ type.

(** [this.data] of the [ExtensionManager] of the enhanced script. *)
Record Data : Type := {
  version : jsstring;
  publisher : jsstring;
  identifier : jsstring;
  name : jsstring;
  displayName : jsstring
}.

Definition empty_data : Data :=
  {| version := []; publisher := []; identifier := []; name := [];
     displayName := [] |}.

(** What the enhanced script reads of the page: the rows of the first
    table that [document.querySelector] finds for a selector, each row as
    the [innerText] of its [td] cells, and the parsed query string. *)
Record Page : Type := {
  table : jsstring -> option (list (list jsstring));
  search : URLSearchParams
}.

(** [Utils.findElement(selectors)] *)
Fixpoint findElement (page : Page) (selectors : list jsstring)
  : option (list (list jsstring)) :=
  match selectors with
  | [] => None
  | selector :: rest =>
      match table page selector with
      | Some rows => Some rows
      | None => findElement page rest
      end
  end.

(** [this.data[metadataMap[key]] = value] for the five labels of
    [metadataMap]; any other label leaves the five fields alone. *)
Definition assign (key value : jsstring) (d : Data) : Data :=
  if str_eqb key ($"Version") then
    {| version := value; publisher := publisher d;
       identifier := identifier d; name := name d;
       displayName := displayName d |}
  else if str_eqb key ($"Publisher") then
    {| version := version d; publisher := value;
       identifier := identifier d; name := name d;
       displayName := displayName d |}
  else if str_eqb key ($"Unique Identifier") then
    {| version := version d; publisher := publisher d;
       identifier := value; name := name d;
       displayName := displayName d |}
  else if str_eqb key ($"Extension Name") then
    {| version := version d; publisher := publisher d;
       identifier := identifier d; name := value;
       displayName := displayName d |}
  else if str_eqb key ($"Display Name") then
    {| version := version d; publisher := publisher d;
       identifier := identifier d; name := name d;
       displayName := value |}
  else d.

(** The body of [rows.forEach]. *)
Definition read_row (d : Data) (cells : list jsstring) : Data :=
  match cells with
  | key :: value :: _ => assign (trim key) (trim value) d
  | _ => d
  end.

(** [Utils.validateExtensionData(data)] *)
Definition validateExtensionData (d : Data) : result bool :=
  let missing :=
    (if truthy (version d) then [] else [$"version"])
    ++ (if truthy (publisher d) then [] else [$"publisher"])
    ++ (if truthy (identifier d) then [] else [$"identifier"]) in
  match missing with
  | [] => Ok true
  | _ => Throw (Error ($"Missing required fields: " ++ join ($", ") missing))
  end.

(** [ExtensionManager.extractMetadata()], from the data [d]. *)
Definition extractMetadata (page : Page) (d : Data) : result Data :=
  match findElement page [$".ux-table-metadata"; $".metadata-table"] with
  | None => Throw (Error ($"Metadata table not found"))
  | Some rows =>
      let d := fold_left read_row rows d in
      let d :=
        if truthy (identifier d) then d
        else
          {| version := version d; publisher := publisher d;
             identifier :=
               match get (search page) ($"itemName") with
               | Some itemName => itemName
               | None => []
               end;
             name := name d; displayName := displayName d |} in
      _ <- validateExtensionData d ;;
      Ok d
  end.

End Legacy.

(* ===================================================================== *)
(** ** The vocabulary of the specification *)
(* ===================================================================== *)

(** The definitions of this module follow the words of the specification,
    not the code; the properties below compare the two. *)
Module Spec.

Local Open Scope N_scope.

Definition cdnHost : jsstring := $"gallery.vsassets.io".
Definition marketplaceHost : jsstring := $"marketplace.visualstudio.com".
Definition vsixAssetName : jsstring :=
  $"Microsoft.VisualStudio.Services.VSIXPackage".

(** The two URL templates, over segments that are already encoded. *)
Definition template_vsix (publisher extensionName version : jsstring)
  : jsstring :=
  $"https://" ++ publisher ++ $"." ++ cdnHost
  ++ $"/_apis/public/gallery/publisher/" ++ publisher
  ++ $"/extension/" ++ extensionName ++ $"/" ++ version
  ++ $"/assetbyname/" ++ vsixAssetName.

Definition template_vsixpackage (publisher extensionName version : jsstring)
  : jsstring :=
  $"https://" ++ marketplaceHost
  ++ $"/_apis/public/gallery/publishers/" ++ publisher
  ++ $"/vsextensions/" ++ extensionName ++ $"/" ++ version
  ++ $"/vspackage".

(** A percent-encoded segment: unreserved characters and [%XX] escapes
    with upper-case hexadecimal digits. *)
Definition is_hex (c : code_unit) : bool :=
  is_digit c || in_range 65 70 c.

Fixpoint percent_encoded (s : jsstring) : bool :=
  match s with
  | [] => true
  | c :: r =>
      if N.eqb c 37 then
        match r with
        | h1 :: h2 :: r' => is_hex h1 && is_hex h2 && percent_encoded r'
        | _ => false
        end
      else uriUnescaped c && percent_encoded r
  end.

(** The parts of [s] before and after its first [c]. *)
Fixpoint before_first (c : code_unit) (s : jsstring) : jsstring :=
  match s with
  | [] => []
  | x :: r => if N.eqb x c then [] else x :: before_first c r
  end.

Fixpoint after_first (c : code_unit) (s : jsstring) : jsstring :=
  match s with
  | [] => []
  | x :: r => if N.eqb x c then r else after_first c r
  end.

(** A string the sanitizer of extracted text leaves as it is: it holds no
    markup character and no white space. *)
Definition plain (s : jsstring) : bool :=
  forallb (fun c => negb (Content.is_markup c) && negb (is_space c)) s.

Definition number (s : jsstring) : Prop :=
  s <> [] /\ Forall (fun c => is_digit c = true) s.

(** [^\d+\.\d+\.\d+]: three numbers separated by dots, then anything. *)
Definition version_shaped (v : jsstring) : Prop :=
  exists a b c rest,
    number a /\ number b /\ number c /\
    v = a ++ [code "."] ++ b ++ [code "."] ++ c ++ rest.

(** [isComplete], as the data model words it. *)
Definition isComplete (d : Content.ExtensionData) : Prop :=
  Content.publisher d <> [] /\ Content.name d <> [] /\
  Content.version d <> [] /\ version_shaped (Content.version d).

(** The doubling schedule: the delay before retry [k], for [k = 1..n]. *)
Definition doubling (base : N) (n : nat) : list N :=
  List.map (fun k => base * 2 ^ N.of_nat (k - 1)) (seq 1 n).


(** The backoff of the message bridge in the words of the specification:
    [300 x 2^attempt]. *)
Definition bridge_backoff (attempt : nat) : N := 300 * 2 ^ N.of_nat attempt.


(** The file name convention: [{identifier}_{version}.{extension}]. *)
Definition filename_convention (identifier version extension : jsstring)
  : jsstring :=
  identifier ++ $"_" ++ version ++ $"." ++ extension.

(** The host is one of the two allowed domains or a subdomain of one. *)
Definition subdomain_of (domain host : jsstring) : Prop :=
  exists label, host = label ++ $"." ++ domain.

Definition host_allowed (host : jsstring) : Prop :=
  host = marketplaceHost \/ host = cdnHost \/
  subdomain_of marketplaceHost host \/ subdomain_of cdnHost host.

(** A request the worker may serve: its URL parses, uses HTTPS, and its
    host is allowed. *)
Definition acceptable (newURL : jsstring -> result Background.URL)
  (request : Background.Request) : Prop :=
  exists s u,
    Background.url request = VString s /\ newURL s = Ok u /\
    Background.protocol u = $"https:" /\
    host_allowed (Background.hostname u).

(** The two errors of the security checks. *)
Definition domain_error (e : jsstring) : Prop :=
  exists host, e = $"Domain not allowed: " ++ host.

Definition protocol_error (e : jsstring) : Prop :=
  e = $"Only HTTPS URLs are allowed".

(** A non-empty string, as a value. *)
Definition text (v : value) (s : jsstring) : Prop :=
  v = VString s /\ s <> [].

(** The string has an occurrence of [..]. *)
Fixpoint has_dotdot (s : jsstring) : bool :=
  match s with
  | a :: (b :: _) as r =>
      (N.eqb a (code ".") && N.eqb b (code ".")) || has_dotdot r
  | _ => false
  end.

(** A page with no source of a version: no structured-data script, no
    element for any selector, no page state. *)
Definition no_version_source (page : Page) : Prop :=
  json_scripts page = [] /\
  (forall selector, querySelectorAll page selector = []) /\
  value_truthy (initial_state page) = false.

(** What one run of the version strategies may do to the descriptor: the
    identifier fields stay, the version stays or becomes a string of the
    version pattern. *)
Definition version_step (d d' : Content.ExtensionData) : Prop :=
  Content.publisher d' = Content.publisher d /\
  Content.identifier d' = Content.identifier d /\
  Content.name d' = Content.name d /\
  (Content.version d' = Content.version d \/
   Content.isValidVersion (Content.version d') = true).

(** What the URL-parameter strategy may do: the version stays. *)
Definition url_step (d d' : Content.ExtensionData) : Prop :=
  Content.version d' = Content.version d.

End Spec.

(* ===================================================================== *)
(** ** A small URL parser for the examples *)
(* ===================================================================== *)

Module Example.

Local Open Scope N_scope.

(** [new URL(s)] on the plain absolute URLs of the examples below,
    [scheme://host/path] with a lower-case host, no credentials and no
    port; anything else is reported as unparsable.  The properties are
    stated for every parser; this one only instantiates them. *)

Fixpoint scheme_end (s : jsstring) : option (jsstring * jsstring) :=
  match s with
  | [] => None
  | c :: r =>
      if N.eqb c (code ":") then Some ([], r)
      else if is_lower c then
        match scheme_end r with
        | Some (sch, rest) => Some (c :: sch, rest)
        | None => None
        end
      else None
  end.

Definition is_host_char (c : code_unit) : bool :=
  is_lower c || is_digit c || N.eqb c (code "-") || N.eqb c (code ".").

Fixpoint host_end (s : jsstring) : option jsstring :=
  match s with
  | [] => Some []
  | c :: r =>
      if N.eqb c (code "/") then Some []
      else if is_host_char c then
        match host_end r with
        | Some h => Some (c :: h)
        | None => None
        end
      else None
  end.

Definition newURL (s : jsstring) : result Background.URL :=
  match scheme_end s with
  | Some (sch, c1 :: c2 :: rest) =>
      if truthy sch && N.eqb c1 (code "/") && N.eqb c2 (code "/") then
        match host_end rest with
        | Some (c :: h) =>
            Ok {| Background.protocol := sch ++ $":";
                  Background.hostname := c :: h |}
        | _ => Throw TypeError
        end
      else Throw TypeError
  | _ => Throw TypeError
  end.

(** A download capability that always starts the download. *)
Definition download_ok (options : Background.DownloadOptions) : result N :=
  Ok 1.

(** A page with nothing to extract. *)
Definition blank : Page :=
  {| search := []; json_scripts := [];
     querySelectorAll := fun _ => []; initial_state := VUndefined |}.

(** A listing page whose address carries [itemName] and nothing else. *)
Definition item_page (itemName : jsstring) : Page :=
  {| search := [($"itemName", itemName)]; json_scripts := [];
     querySelectorAll := fun _ => []; initial_state := VUndefined |}.

(** A listing page with [itemName] in its address and one element of
    class [version]. *)
Definition versioned_page (itemName text : jsstring) : Page :=
  {| search := [($"itemName", itemName)]; json_scripts := [];
     querySelectorAll :=
       fun selector => if str_eqb selector ($".version") then [text] else [];
     initial_state := VUndefined |}.

(** What the extractor finds on [versioned_page "p." "1.0.0"]. *)
Definition nameless : Content.ExtensionData :=
  {| Content.version := $"1.0.0"; Content.publisher := $"p";
     Content.identifier := $"p."; Content.name := [] |}.

(** A page whose structured data is a malformed script, then [null],
    then an object with a version. *)
Definition scripted_page : Page :=
  {| search := []; 
     json_scripts :=
       [ Throw SyntaxError; Ok VNull;
         Ok (VObject [($"version", VString ($"1.2.3"))]) ];
     querySelectorAll := fun _ => []; initial_state := VUndefined |}.

(** A tab whose content script never answers. *)
Definition silent (attempt : nat) : option unit := None.

(** A listing page with an install bar, where the buttons can go. *)
Definition page_with_bar : Page :=
  {| search := [($"itemName", $"ms-python.python")]; json_scripts := [];
     querySelectorAll :=
       fun selector =>
         if str_eqb selector ($".ux-item-action-bar") then [$"Install"]
         else [];
     initial_state := VUndefined |}.

(** The content script once it has extracted [ms-python.python]
    2024.0.0 and before anything is injected. *)
Definition extracted : Content.State :=
  Content.with_data
    {| Content.version := $"2024.0.0"; Content.publisher := $"ms-python";
       Content.identifier := $"ms-python.python";
       Content.name := $"python" |}
    Content.initial.

(** The message the content script sends for [ms-python.python]
    2024.0.0 and kind [vsix]. *)
Definition vsix_message : Content.Message :=
  {| Content.action := $"download";
     Content.url := $"https://ms-python.gallery.vsassets.io/_apis/public/gallery/publisher/ms-python/extension/python/2024.0.0/assetbyname/Microsoft.VisualStudio.Services.VSIXPackage";
     Content.filename := $"ms-python.python-2024.0.0.vsix" |}.

(** The request the worker receives with a message. *)
Definition request_of (m : Content.Message) : Background.Request :=
  {| Background.url := VString (Content.url m);
     Background.filename := VString (Content.filename m) |}.

Definition evil_request : Background.Request :=
  {| Background.url := VString ($"https://evil.com/x.vsix");
     Background.filename := VString ($"x.vsix") |}.

Definition malformed_request : Background.Request :=
  {| Background.url := VString ($"not a url");
     Background.filename := VString ($"x.vsix") |}.

(** A page without a metadata table, for the enhanced script. *)
Definition bare : Legacy.Page :=
  {| Legacy.table := fun _ => None;
     Legacy.search := [($"itemName", $"ms-python.python")] |}.

End Example.

(* ===================================================================== *)
(** ** More of the code: strings, pages, timers, the worker's messages *)
(* ===================================================================== *)

Module Strings.

Local Open Scope N_scope.

(** [s.startsWith(prefix)] *)
Fixpoint startsWith (s prefix : jsstring) : bool :=
  match prefix, s with
  | [], _ => true
  | p :: prefix', c :: s' => N.eqb c p && startsWith s' prefix'
  | _ :: _, [] => false
  end.

(** [s.includes(needle)] *)
Fixpoint includes (s needle : jsstring) : bool :=
  startsWith s needle
  || match s with
     | [] => false
     | _ :: r => includes r needle
     end.

(** The character before the end of [prefix], if any. *)
Definition last_of (prefix : jsstring) : option code_unit :=
  hd_error (rev prefix).

(** Neither the first nor the last character is white space. *)
Definition trimmed (s : jsstring) : bool :=
  match s with
  | [] => true
  | c :: _ => negb (is_space c) && negb (is_space (last s 0))
  end.

End Strings.

(** Vocabulary for what one strategy of the extractor does to the
    descriptor. *)
Module Summary.

Import Content.

(** [m] stores the version [ov] and answers [true], or, when [ov] is
    [None], stores nothing and answers [false]: whatever the descriptor
    held. *)
Definition stores (m : M bool) (ov : option jsstring) : Prop :=
  forall d,
    m d = (Ok (match ov with Some _ => true | None => false end),
           match ov with Some v => set_version v d | None => d end).

(** One strategy: the version it stores depends on the page alone, and is
    a valid one. *)
Definition settles (m : M bool) : Prop :=
  exists ov, stores m ov /\
             forall v, ov = Some v -> isValidVersion v = true.

End Summary.

(** content.js: navigation, the observer's callback, and the calls that
    reach the object in any order *)
Module Navigation.

Import Content.

Local Open Scope N_scope.

(** [isValidPage()], of [window.location.href] *)
Definition isValidPage (href : jsstring) : bool :=
  Strings.includes href ($"marketplace.visualstudio.com/items")
  && Strings.includes href ($"itemName=").

Definition with_container (b : bool) (st : State) : State :=
  {| extensionData := extensionData st; observer := observer st;
     isProcessing := isProcessing st; isInjected := isInjected st;
     retryAttempts := retryAttempts st; container := b;
     log := log st |}.

(** [resetState()]: the container is removed from the document, the
    descriptor and the flags are reset, the observer is disconnected.  No
    timer is cleared. *)
Definition resetState (st : State) : State :=
  {| extensionData := empty_data; observer := false; isProcessing := false;
     isInjected := false; retryAttempts := 0; container := false;
     log := log st |}.

(** [handleNavigation()]: the new state, and whether [startProcessing] was
    scheduled ([debounce('navigation', ..., 500)]). *)
Definition handleNavigation (href : jsstring) (st : State) : State * bool :=
  (resetState st, isValidPage href).

(** The callback the mutation observer debounces:
    [if (!document.getElementById('vsix-downloader-container'))
       this.checkAutoInject();] *)
Definition mutationCallback (storage : result Settings) (page : Page)
  (st : State) : State :=
  if negb (container st) then checkAutoInject storage page st else st.

(** What can reach the object, each with the page and the settings store
    as they are at that moment. *)
Inductive call : Type :=
| Start (page : Page) (storage : result Settings)
    (** [startProcessing()], from a debounced handler *)
| Retry (page : Page) (storage : result Settings)
    (** the callback of a retry timer *)
| Mutation (page : Page) (storage : result Settings)
    (** the debounced callback of the observer *)
| Navigate (href : jsstring)
    (** [handleNavigation()] *)
| Removed.
    (** the page drops the container element *)

Definition perform (st : State) (c : call) : State :=
  match c with
  | Start page storage => fst (startProcessing page storage st)
  | Retry page storage => fst (retry page storage st)
  | Mutation page storage => mutationCallback storage page st
  | Navigate href => fst (handleNavigation href st)
  | Removed => with_container false st
  end.

(** The object after a sequence of calls, from its constructor. *)
Definition history (calls : list call) : State :=
  fold_left perform calls initial.

End Navigation.

(** Invariants of the retry budget. *)
Module Budget.

Import Content.

(** Since the counter was last reset, exactly [retryAttempts] timers were
    armed, on the doubling schedule, and never more than [maxRetries]. *)
Definition within (st : State) : Prop :=
  (retryAttempts st <= maxRetries)%nat /\
  exists older,
    delays (log st) = older ++ Spec.doubling 1000 (retryAttempts st).

(** One page view: every run of [startProcessing] extracted once, every
    timer is on the schedule, and a timer is armed only while the turn
    counter has not overtaken the retry counter. *)
Definition on_schedule (c : Config) : Prop :=
  (retryAttempts (state c) <= maxRetries)%nat /\
  delays (log (state c)) = Spec.doubling 1000 (retryAttempts (state c)) /\
  extractions (log (state c)) = turn c /\
  match pending c with
  | Some _ => turn c = retryAttempts (state c)
  | None => turn c = S (retryAttempts (state c))
  end.

Fixpoint navigates (calls : list Navigation.call) : bool :=
  match calls with
  | [] => false
  | Navigation.Navigate _ :: _ => true
  | _ :: rest => navigates rest
  end.

End Budget.

(** The popup: which tabs it serves, and how it fetches the descriptor
    from the content script. *)
Module Tab.

Import Content.

(** [isMarketplacePage(url)] *)
Definition isMarketplacePage (url : jsstring) : bool :=
  Strings.includes url ($"marketplace.visualstudio.com").

(** [isExtensionPage(url)] *)
Definition isExtensionPage (url : jsstring) : bool :=
  Strings.includes url ($"marketplace.visualstudio.com/items")
  && Strings.includes url ($"itemName=").

(** What the listener of the content script passes to [sendResponse]. *)
Record Response : Type := {
  success : bool;
  data : ExtensionData
}.

(** The listener [setupMessageListener] installs in the content script:
    it answers [getExtensionData] and no other action. *)
Definition onMessage (action : jsstring) (d : ExtensionData)
  : option Response :=
  if str_eqb action ($"getExtensionData")
  then Some {| success := hasValidData d; data := d |}
  else None.

(** The status card of the popup after [fetchExtensionData]. *)
Inductive status : Type :=
| ExtensionDetected
| ExtensionNotDetected
| ContentScriptError.

(** [fetchExtensionData(tabId)]: the new [this.extensionData] and the
    status shown, [None] when the call returns at once because a fetch is
    under way.  A response may be [undefined] ([None]); its [data], an
    object, is truthy. *)
Definition fetchExtensionData (answers : nat -> option (option Response))
  (isLoading : bool) (extensionData : option ExtensionData)
  : option ExtensionData * option status :=
  if isLoading then (extensionData, None)
  else
    match fst (Popup.sendMessageWithRetry answers 1) with
    | Popup.Resolved (Some response) =>
        if success response
        then (Some (data response), Some ExtensionDetected)
        else (extensionData, Some ExtensionNotDetected)
    | Popup.Resolved None => (extensionData, Some ExtensionNotDetected)
    | Popup.Rejected _ => (extensionData, Some ContentScriptError)
    end.

End Tab.

(** File names the worker's sanitizer has nothing to do on. *)
Module Names.

(** No character Windows forbids, no white space, no two dots in a row, no
    leading dot, one of the two extensions, and at most 200 characters. *)
Definition tidy (s : jsstring) : bool :=
  forallb (fun c => negb (Background.is_forbidden c) && negb (is_space c)) s
  && negb (Spec.has_dotdot s)
  && negb (Strings.startsWith s ($"."))
  && (endsWith s ($".vsix") || endsWith s ($".vsixpackage"))
  && Nat.leb (List.length s) 200.

End Names.

(** The background worker as a whole: its state, the messages it answers
    and the download events it follows.  Console output is left out. *)
Module Service.

Import Background.

Local Open Scope N_scope.

(** [state.settings], an object read by key. *)
Definition Settings : Type := list (jsstring * value).

(** The settings the worker starts with. *)
Definition defaults : Settings :=
  [ ($"autoInject", VBool true);
    ($"showNotifications", VBool true);
    ($"downloadLocation", VString ($"default")) ].

(** The key of the [i]-th element of an array: its decimal index. *)
Definition index_key (i : nat) : jsstring :=
  lit (DecimalString.NilEmpty.string_of_uint (Nat.to_uint i)).

(** [typeof v === 'object'] for a truthy [v]. *)
Definition is_object (v : value) : bool :=
  match v with
  | VObject _ | VArray _ => true
  | _ => false
  end.

(** The own properties [Object.assign] copies from a source. *)
Definition properties (source : value) : list (jsstring * value) :=
  match source with
  | VObject fields => fields
  | VArray items =>
      combine (List.map index_key (seq 0 (List.length items))) items
  | _ => []
  end.

(** [Object.assign(target, source)]: a property of the source takes the
    place of the property of the target with the same key. *)
Definition assign (target : Settings) (source : value) : Settings :=
  properties source ++ target.


(** An entry of [state.downloads]: what [handleDownloadRequest] stored,
    and the [error] property [handleDownloadChanged] may add. *)
Record Entry : Type := {
  request : Tracked;
  error : option jsstring
}.

Definition fresh (t : Tracked) : Entry := {| request := t; error := None |}.

Definition with_status (current : jsstring) (e : Entry) : Entry :=
  {| request :=
       {| tracked_url := tracked_url (request e);
          tracked_filename := tracked_filename (request e);
          startTime := startTime (request e);
          status := current |};
     error := error e |}.

Definition with_error (current : jsstring) (e : Entry) : Entry :=
  {| request := request e; error := Some current |}.

Record State : Type := {
  downloads : list (N * Entry);      (** [state.downloads], newest first *)
  settings : Settings                (** [state.settings] *)
}.

Definition initial : State := {| downloads := []; settings := defaults |}.

(** [state.downloads.get(id)] *)
Fixpoint find (id : N) (l : list (N * Entry)) : option Entry :=
  match l with
  | [] => None
  | (k, e) :: r => if N.eqb k id then Some e else find id r
  end.

(** The entry under [id], mutated in place. *)
Fixpoint replace_entry (id : N) (e : Entry) (l : list (N * Entry))
  : list (N * Entry) :=
  match l with
  | [] => []
  | (k, x) :: r =>
      if N.eqb k id then (k, e) :: r else (k, x) :: replace_entry id e r
  end.

(** [state.downloads.delete(id)], the callback of the clean-up timers. *)
Definition cleanup (id : N) (st : State) : State :=
  {| downloads := filter (fun kv => negb (N.eqb (fst kv) id)) (downloads st);
     settings := settings st |}.

(** The change [chrome.downloads.onChanged] reports: the download, the
    new state if the state changed ([delta.state.current]), the new error
    if there is one ([delta.error.current]). *)
Record Delta : Type := {
  id : N;
  state_current : option jsstring;
  error_current : option jsstring
}.

(** What the worker asks of the platform on a download event. *)
Inductive effect : Type :=
| Notification (iconUrl title message : jsstring) (priority : N)
    (** [chrome.notifications.create] *)
| Timer (id : N) (ms : N).
    (** [setTimeout(() => state.downloads.delete(id), ms)] *)

(** [state.settings.showNotifications], as a condition *)
Definition showNotifications (st : State) : bool :=
  value_truthy (lookup ($"showNotifications") (settings st)).

(** [showNotification(title, message, type)] *)
Definition showNotification (st : State) (title message type : jsstring)
  : list effect :=
  if negb (showNotifications st) then []
  else
    let iconUrl :=
      if str_eqb type ($"error") then $"icons/icon-48.png"
      else $"icons/icon-128.png" in
    [ Notification iconUrl
        (if truthy title then title else $"VSIX Downloader Pro")
        (if truthy message then message else [])
        (if str_eqb type ($"error") then 2 else 1) ].

(** [handleDownloadComplete(downloadId, download)] *)
Definition handleDownloadComplete (st : State) (downloadId : N)
  (download : Entry) : list effect :=
  (if showNotifications st then
     showNotification st ($"Download Complete")
       (tracked_filename (request download) ++ $" downloaded successfully")
       ($"success")
   else [])
  ++ [Timer downloadId 60000].

(** [delta.error?.current || 'Unknown error'] *)
Definition errorMsg (delta : Delta) : jsstring :=
  match error_current delta with
  | Some e => if truthy e then e else $"Unknown error"
  | None => $"Unknown error"
  end.

(** [handleDownloadInterrupted(downloadId, download, delta)] *)
Definition handleDownloadInterrupted (st : State) (downloadId : N)
  (download : Entry) (delta : Delta) : list effect :=
  (if showNotifications st then
     showNotification st ($"Download Failed")
       ($"Failed to download " ++ tracked_filename (request download)
        ++ $": " ++ errorMsg delta)
       ($"error")
   else [])
  ++ [Timer downloadId 5000].

(** [handleDownloadChanged(delta)] *)
Definition handleDownloadChanged (delta : Delta) (st : State)
  : State * list effect :=
  match find (id delta) (downloads st) with
  | None => (st, [])
  | Some download =>
      let '(download, effects) :=
        match state_current delta with
        | Some current =>
            let download := with_status current download in
            (download,
             if str_eqb current ($"complete") then
               handleDownloadComplete st (id delta) download
             else if str_eqb current ($"interrupted") then
               handleDownloadInterrupted st (id delta) download delta
             else [])
        | None => (download, [])
        end in
      let download :=
        match error_current delta with
        | Some e => with_error e download
        | None => download
        end in
      ({| downloads := replace_entry (id delta) download (downloads st);
          settings := settings st |},
       effects)
  end.

(** What [sendResponse] is given. *)
Inductive Reply : Type :=
| Downloaded (downloadId : N)
    (** [{ success: true, downloadId }] *)
| Current (settings : Settings)
    (** [{ success: true, settings }] *)
| Failed (error : jsstring).
    (** [{ success: false, error }] *)

(** [request.action] when the message passes
    [!request || typeof request.action !== 'string']. *)
Definition action_of (request : value) : option jsstring :=
  match request with
  | VObject fields =>
      match lookup ($"action") fields with
      | VString a => Some a
      | _ => None
      end
  | _ => None
  end.

(** [request.key] of a message that has an action. *)
Definition field (key : jsstring) (request : value) : value :=
  match request with
  | VObject fields => lookup key fields
  | _ => VUndefined
  end.

(** One message handled: the reply, the value [handleMessage] returns
    (whether the channel stays open), the calls of the download
    capability, the writes to the settings store, and the state. *)
Record Outcome : Type := {
  reply : Reply;
  keep_open : bool;
  calls : list DownloadOptions;
  writes : list value;
  after : State
}.

Section Messages.

Variable newURL : jsstring -> result URL.
Variable downloads_download : DownloadOptions -> result N.
Variable now : N.
(** [chrome.storage.sync.set] *)
Variable storage_set : value -> result unit.

(** [handleSettingsUpdate(request, sendResponse)] *)
Definition handleSettingsUpdate (request : value) (st : State)
  : Reply * list value * State :=
  let given := field ($"settings") request in
  if negb (value_truthy given) || negb (is_object given) then
    (Failed ($"Invalid settings"), [], st)
  else
    let st' :=
      {| downloads := downloads st;
         settings := assign (settings st) given |} in
    match storage_set given with
    | Ok _ => (Current (settings st'), [given], st')
    | Throw e => (Failed (message e), [given], st')
    end.

(** [handleMessage(request, sender, sendResponse)] *)
Definition handleMessage (request : value) (st : State) : Outcome :=
  match action_of request with
  | None =>
      {| reply := Failed ($"Invalid message format"); keep_open := false;
         calls := []; writes := []; after := st |}
  | Some action =>
      if str_eqb action ($"download") then
        let '(response, made, tracked) :=
          handleDownloadRequest newURL downloads_download now
            {| url := field ($"url") request;
               filename := field ($"filename") request |} [] in
        {| reply := match response with
                    | Success downloadId => Downloaded downloadId
                    | Failure e => Failed e
                    end;
           keep_open := true;
           calls := made;
           writes := [];
           after := {| downloads :=
                         List.map (fun kt => (fst kt, fresh (snd kt))) tracked
                         ++ downloads st;
                       settings := settings st |} |}
      else if str_eqb action ($"getSettings") then
        {| reply := Current (settings st); keep_open := false;
           calls := []; writes := []; after := st |}
      else if str_eqb action ($"updateSettings") then
        let '(r, w, st') := handleSettingsUpdate request st in
        {| reply := r; keep_open := true; calls := []; writes := w;
           after := st' |}
      else
        {| reply := Failed ($"Unknown action"); keep_open := false;
           calls := []; writes := []; after := st |}
  end.

End Messages.

(** The message [chrome.runtime.sendMessage] delivers for what the content
    script passes to it. *)
Definition delivered (m : Content.Message) : value :=
  VObject [ ($"action", VString (Content.action m));
            ($"url", VString (Content.url m));
            ($"filename", VString (Content.filename m)) ].

End Service.

(** content.js: [debounce] and the timers it arms *)
Module Debounce.

Section Timers.

(** The callbacks. *)
Variable C : Type.

(** A timer armed by [debounce]: the key, the callback and the delay it
    was armed with. *)
Record Armed : Type := {
  key : jsstring;
  callback : C;
  delay : N
}.

(** The timers of the window that [debounce] armed and that neither fired
    nor were cleared, by id; the id [setTimeout] returns next; and the map
    [this.debounceTimers], from keys to timer ids. *)
Record Timers : Type := {
  armed : list (nat * Armed);
  next : nat;
  debounceTimers : list (jsstring * nat)
}.

Definition empty : Timers :=
  {| armed := []; next := 1; debounceTimers := [] |}.

(** [this.debounceTimers.get(key)] *)
Fixpoint get (k : jsstring) (m : list (jsstring * nat)) : option nat :=
  match m with
  | [] => None
  | (k', id) :: r => if str_eqb k' k then Some id else get k r
  end.

(** [this.debounceTimers.delete(key)] *)
Definition delete (k : jsstring) (m : list (jsstring * nat))
  : list (jsstring * nat) :=
  filter (fun kv => negb (str_eqb (fst kv) k)) m.

(** [this.debounceTimers.set(key, timer)] *)
Definition set (k : jsstring) (id : nat) (m : list (jsstring * nat))
  : list (jsstring * nat) :=
  (k, id) :: delete k m.

(** [clearTimeout(id)] *)
Definition clearTimeout (id : nat) (l : list (nat * Armed))
  : list (nat * Armed) :=
  filter (fun t => negb (Nat.eqb (fst t) id)) l.

(** [debounce(key, callback, delay)] *)
Definition debounce (k : jsstring) (cb : C) (ms : N) (t : Timers)
  : Timers :=
  let still :=
    match get k (debounceTimers t) with
    | Some id => clearTimeout id (armed t)
    | None => armed t
    end in
  let timer := next t in
  {| armed := still ++ [(timer, {| key := k; callback := cb; delay := ms |})];
     next := S timer;
     debounceTimers := set k timer (debounceTimers t) |}.

(** The timer [id] fires: the function [debounce] gave to [setTimeout]
    deletes the key and calls the callback.  [None] when no such timer is
    armed. *)
Definition fire (id : nat) (t : Timers) : option (C * Timers) :=
  match List.find (fun x => Nat.eqb (fst x) id) (armed t) with
  | None => None
  | Some (_, a) =>
      Some (callback a,
            {| armed := clearTimeout id (armed t);
               next := next t;
               debounceTimers := delete (key a) (debounceTimers t) |})
  end.

(** What happens to the timers: a call of [debounce], or a timer firing. *)
Inductive op : Type :=
| Call (k : jsstring) (cb : C) (ms : N)
| Fire (id : nat).

Definition step (t : Timers) (o : op) : Timers :=
  match o with
  | Call k cb ms => debounce k cb ms t
  | Fire id =>
      match fire id t with
      | Some (_, t') => t'
      | None => t
      end
  end.

Definition run (ops : list op) : Timers := fold_left step ops empty.

(** The timers armed under a key. *)
Definition timers_of (k : jsstring) (t : Timers) : list (nat * Armed) :=
  filter (fun x => str_eqb (key (snd x)) k) (armed t).

(** Every armed timer is the one the map holds for its key; the ids in
    the map were all given out already, each to one key. *)
Definition sound (t : Timers) : Prop :=
  (forall id a, In (id, a) (armed t) ->
                get (key a) (debounceTimers t) = Some id) /\
  (forall k id, get k (debounceTimers t) = Some id -> (id < next t)%nat) /\
  (forall k k' id,
     get k (debounceTimers t) = Some id ->
     get k' (debounceTimers t) = Some id -> k = k').

End Timers.

End Debounce.

(** The processing flag of the orchestrator. *)
Module Lock.

Import Content.

(** [isProcessing] is set exactly while a retry timer is armed and the
    retry budget is not yet used up. *)
Definition held (c : Config) : Prop :=
  isProcessing (state c)
  = match pending c with
    | Some _ => Nat.ltb (retryAttempts (state c)) maxRetries
    | None => false
    end.

End Lock.

(** The popup: the check of the active tab and the copy button. *)
Module Card.

Import Content.

(** The status card, by its title. *)
Inductive status : Type :=
| NoActiveTab
| NotAvailable
| NotOnMarketplace
| NotOnExtensionPage
| TabCheckError
| MissingData
| CopyFailed
| UrlsCopied.

(** What [checkCurrentTab] ends with: a status, or the call of
    [fetchExtensionData]. *)
Inductive decision : Type :=
| Shown (s : status)
| Fetch.

(** [checkCurrentTab()]; [query] is the outcome of [chrome.tabs.query]:
    the first tab, if any, with its [url], if the popup may read it. *)
Definition checkCurrentTab (query : result (option (option jsstring)))
  : decision :=
  match query with
  | Throw _ => Shown TabCheckError
  | Ok None => Shown NoActiveTab
  | Ok (Some tab_url) =>
      match tab_url with
      | None => Shown NotAvailable
      | Some url =>
          if negb (truthy url) then Shown NotAvailable
          else if negb (Tab.isMarketplacePage url) then Shown NotOnMarketplace
          else if negb (Tab.isExtensionPage url) then Shown NotOnExtensionPage
          else Fetch
      end
  end.

(** [init()] of the content script on a page with address [href]: whether
    the message listener is installed. *)
Definition listens (href : jsstring) : bool := Navigation.isValidPage href.

(** The text [handleCopyUrl] builds. *)
Definition copy_text (identifier version vsixUrl packageUrl : jsstring)
  : jsstring :=
  $"VSIX Download URLs for " ++ identifier ++ $" v" ++ version
  ++ newline ++ newline ++ $"VSIX URL:" ++ newline ++ vsixUrl
  ++ newline ++ newline ++ $"VSIXPackage URL:" ++ newline ++ packageUrl.

(** [handleCopyUrl(button)]: the status shown and the texts passed to
    [navigator.clipboard.writeText], whose outcome is [writeText]. *)
Definition handleCopyUrl (writeText : jsstring -> result unit)
  (data : option ExtensionData) : status * list jsstring :=
  match data with
  | None => (MissingData, [])
  | Some d =>
      let identifier := Content.identifier d in
      let version := Content.version d in
      if negb (truthy identifier) || negb (truthy version)
      then (MissingData, [])
      else
        let parts := split (code ".") identifier in
        if Nat.ltb (List.length parts) 2 then (CopyFailed, [])
        else
          let publisher := nth 0 parts [] in
          let extension := join ($".") (slice1 parts) in
          let built :=
            p1 <- encodeURIComponent publisher ;;
            p2 <- encodeURIComponent publisher ;;
            e1 <- encodeURIComponent extension ;;
            v1 <- encodeURIComponent version ;;
            let vsixUrl :=
              $"https://" ++ p1
              ++ $".gallery.vsassets.io/_apis/public/gallery/publisher/"
              ++ p2 ++ $"/extension/" ++ e1 ++ $"/" ++ v1
              ++ $"/assetbyname/Microsoft.VisualStudio.Services.VSIXPackage"
            in
            p3 <- encodeURIComponent publisher ;;
            e2 <- encodeURIComponent extension ;;
            v2 <- encodeURIComponent version ;;
            let packageUrl :=
              $"https://marketplace.visualstudio.com/_apis/public/gallery/publishers/"
              ++ p3 ++ $"/vsextensions/" ++ e2 ++ $"/" ++ v2
              ++ $"/vspackage" in
            Ok (copy_text identifier version vsixUrl packageUrl) in
          match built with
          | Throw _ => (CopyFailed, [])
          | Ok text =>
              match writeText text with
              | Ok _ => (UrlsCopied, [text])
              | Throw _ => (CopyFailed, [text])
              end
          end
  end.

End Card.

(** The stand-alone scripts: how they build the download URL. *)
Module Standalone.

Local Open Scope N_scope.

Definition dollar : code_unit := code "$".

(** The replacement text of [String.prototype.replace] for one match of a
    pattern without capture groups: [$$] is a dollar, [$&] the match,
    [$`] the text before it, [$'] the text after it; any other dollar
    stands for itself. *)
Fixpoint expand (matched before after replacement : jsstring) : jsstring :=
  match replacement with
  | [] => []
  | c :: r =>
      if N.eqb c dollar then
        match r with
        | d :: r' =>
            if N.eqb d dollar then
              dollar :: expand matched before after r'
            else if N.eqb d (code "&") then
              matched ++ expand matched before after r'
            else if N.eqb d 96 then
              before ++ expand matched before after r'
            else if N.eqb d (code "'") then
              after ++ expand matched before after r'
            else c :: expand matched before after r
        | [] => [c]
        end
      else c :: expand matched before after r
  end.

(** [s.replace(/pat/g, replacement)] for a pattern that is a literal,
    non-empty text: the matches are taken from left to right and do not
    overlap.  [before] is the text before the current position, reversed;
    [skip] counts the characters of a match that are still to be passed. *)
Fixpoint replace_from (pat replacement : jsstring) (skip : nat)
  (before s : jsstring) : jsstring :=
  match s with
  | [] => []
  | c :: r =>
      match skip with
      | S k => replace_from pat replacement k (c :: before) r
      | O =>
          if Strings.startsWith s pat then
            expand pat (rev before) (skipn (List.length pat) s) replacement
            ++ replace_from pat replacement (List.length pat - 1)
                 (c :: before) r
          else c :: replace_from pat replacement 0 (c :: before) r
      end
  end.

Definition replace_all (pat replacement s : jsstring) : jsstring :=
  replace_from pat replacement 0 [] s.

(** [CONFIG.urls] *)
Definition urls_vsix : jsstring :=
  $"https://${publisher}.gallery.vsassets.io/_apis/public/gallery/publisher/${publisher}/extension/${extension}/${version}/assetbyname/Microsoft.VisualStudio.Services.VSIXPackage".

Definition urls_vsixPackage : jsstring :=
  $"https://marketplace.visualstudio.com/_apis/public/gallery/publishers/${publisher}/vsextensions/${extension}/${version}/vspackage".

(** An element of [const [publisher, extension] = identifier.split('.')]:
    an absent one is [undefined], which [replace] turns into the text
    [undefined]. *)
Definition element (i : nat) (parts : list jsstring) : jsstring :=
  nth i parts ($"undefined").

(** [ExtensionManager.getDownloadUrl(type)] of the enhanced script, for
    the types the script uses ([vsix], [vsixPackage]) and any other type
    that names no member of [Object.prototype]:
    [CONFIG.urls[type] || CONFIG.urls.vsix]. *)
Definition getDownloadUrl (identifier version type : jsstring) : jsstring :=
  let parts := split (code ".") identifier in
  let publisher := element 0 parts in
  let extension := element 1 parts in
  let template :=
    if str_eqb type ($"vsixPackage") then urls_vsixPackage else urls_vsix in
  replace_all ($"${version}") version
    (replace_all ($"${extension}") extension
       (replace_all ($"${publisher}") publisher template)).

(** No dollar, so nothing for [replace] to expand. *)
Definition literal (s : jsstring) : bool :=
  forallb (fun c => negb (N.eqb c dollar)) s.

(** A part of an identifier: no dollar and no dot. *)
Definition part (s : jsstring) : bool :=
  forallb (fun c => negb (N.eqb c dollar) && negb (N.eqb c (code "."))) s.

End Standalone.

(* ===================================================================== *)
(** * Properties *)
(* ===================================================================== *)

(** ** Strings *)

Ltac boolify :=
  repeat match goal with
         | H : _ && _ = true |- _ => apply andb_true_iff in H; destruct H
         | H : _ || _ = false |- _ => apply orb_false_iff in H; destruct H
         | H : negb _ = true |- _ => apply negb_true_iff in H
         | H : negb _ = false |- _ => apply negb_false_iff in H
         | H : N.eqb _ _ = true |- _ => apply N.eqb_eq in H
         | H : N.eqb _ _ = false |- _ => apply N.eqb_neq in H
         | H : N.leb _ _ = true |- _ => apply N.leb_le in H
         | H : N.leb _ _ = false |- _ => apply N.leb_gt in H
         | H : N.ltb _ _ = true |- _ => apply N.ltb_lt in H
         | H : N.ltb _ _ = false |- _ => apply N.ltb_ge in H
         end.

(** Right-associate appends. *)
Ltac app_norm := repeat (rewrite <- app_assoc || (progress (cbn [app]))).

(** Turn character literals into numbers. *)
Ltac literals :=
  repeat match goal with
         | |- context [code ?a] =>
             let v := eval vm_compute in (code a) in change (code a) with v
         | H : context [code ?a] |- _ =>
             let v := eval vm_compute in (code a) in
             change (code a) with v in H
         end.

(** Decide an interval fact about character classes. *)
Ltac class_lia :=
  unfold uriUnescaped, Spec.is_hex, is_word, is_space, is_upper, is_lower,
    is_digit, is_lead, is_trail, in_range, Content.is_markup,
    Background.is_forbidden, Background.underscore, Content.quote in *;
  literals;
  repeat rewrite ?orb_true_iff, ?andb_true_iff, ?orb_false_iff,
    ?andb_false_iff, ?negb_true_iff, ?negb_false_iff, ?N.leb_le, ?N.leb_gt,
    ?N.ltb_lt, ?N.ltb_ge, ?N.eqb_eq, ?N.eqb_neq in *;
  lia.

Lemma str_eqb_eq (a b : jsstring) : str_eqb a b = true <-> a = b.
Proof.
  revert b; induction a as [|x a IH]; intros [|y b]; cbn;
    try (split; [discriminate | discriminate]); try tauto.
  rewrite andb_true_iff, N.eqb_eq, IH.
  split; [intros [-> ->]; reflexivity | intros [= -> ->]; auto].
Qed.

Lemma str_eqb_refl (a : jsstring) : str_eqb a a = true.
Proof. apply str_eqb_eq; reflexivity. Qed.

Lemma truthy_nonempty (s : jsstring) : truthy s = true <-> s <> [].
Proof. destruct s; cbn; split; congruence. Qed.

Lemma div_bound (a b q : N) : (b <> 0 -> a < b * q -> a / b < q)%N.
Proof. intros; apply N.Div0.div_lt_upper_bound; assumption. Qed.

Lemma mod_bound (a b : N) : (b <> 0 -> a mod b < b)%N.
Proof. intros; apply N.mod_upper_bound; assumption. Qed.

Example lit_vsix : $"vsix" = [118; 115; 105; 120]%N.
Proof. reflexivity. Qed.

Example encode_space : encodeURIComponent ($"a b/c") = Ok ($"a%20b%2Fc").
Proof. reflexivity. Qed.

Example encode_eacute : encodeURIComponent [233%N] = Ok ($"%C3%A9").
Proof. reflexivity. Qed.

Example encode_lone : encodeURIComponent [55357%N] = Throw URIError.
Proof. reflexivity. Qed.

Example encode_pair :
  encodeURIComponent [55357%N; 56832%N] = Ok ($"%F0%9F%98%80").
Proof. reflexivity. Qed.

Example split_ex : split (code ".") ($"a.b.c") = [$"a"; $"b"; $"c"].
Proof. reflexivity. Qed.

(** ** Percent-encoding *)

Lemma hex_digit_is_hex (d : N) : (d < 16)%N -> Spec.is_hex (hex_digit d) = true.
Proof.
  intros H; unfold hex_digit.
  destruct (N.ltb_spec d 10); class_lia.
Qed.

Lemma percent_encoded_percent (o : N) (t : jsstring) :
  (o < 256)%N ->
  Spec.percent_encoded (percent o ++ t) = Spec.percent_encoded t.
Proof.
  intros H. cbn.
  rewrite !hex_digit_is_hex; [reflexivity | |].
  - apply mod_bound; lia.
  - apply div_bound; lia.
Qed.

Lemma percent_encoded_percent_all (os : list N) (t : jsstring) :
  Forall (fun o => o < 256)%N os ->
  Spec.percent_encoded (percent_all os ++ t) = Spec.percent_encoded t.
Proof.
  induction 1 as [|o os Ho _ IH]; [reflexivity|].
  unfold percent_all in *; cbn [flat_map].
  rewrite <- app_assoc, percent_encoded_percent by assumption.
  exact IH.
Qed.

Lemma utf8_octets (cp : N) :
  (cp < 1114112)%N -> Forall (fun o => o < 256)%N (utf8 cp).
Proof.
  intros H. unfold utf8.
  pose proof (@div_bound cp 64 32).
  pose proof (@div_bound cp 4096 16).
  pose proof (@div_bound cp 262144 16).
  pose proof (@mod_bound cp 64).
  pose proof (@mod_bound (cp / 64) 64).
  pose proof (@mod_bound (cp / 4096) 64).
  destruct (N.ltb_spec cp 128); [repeat constructor; lia|].
  destruct (N.ltb_spec cp 2048); [repeat constructor; lia|].
  destruct (N.ltb_spec cp 65536); repeat constructor; lia.
Qed.

Lemma code_point_bound (hi lo : code_unit) :
  is_lead hi = true -> is_trail lo = true ->
  (code_point hi lo < 1114112)%N.
Proof.
  unfold is_lead, is_trail, in_range, code_point; intros; boolify; lia.
Qed.

Lemma unescaped_not_percent (c : code_unit) :
  uriUnescaped c = true -> N.eqb c 37 = false.
Proof. intros H. class_lia. Qed.

(** [encodeURIComponent] returns on every well-formed string, and what it
    returns is percent-encoded. *)
Lemma encodeURIComponent_total (n : nat) :
  forall s, (List.length s <= n)%nat -> well_formed s = true ->
  exists t, encodeURIComponent s = Ok t /\ Spec.percent_encoded t = true.
Proof.
  induction n as [|n IH]; intros [|c r] Hlen Hwf; cbn in Hlen;
    try (exists []; split; reflexivity); try lia.
  cbn [encodeURIComponent well_formed] in *.
  destruct (uriUnescaped c) eqn:Hu.
  - assert (Hr : well_formed r = true).
    { destruct (is_trail c) eqn:Ht; [discriminate|].
      destruct (is_lead c) eqn:Hl; [|boolify; assumption].
      exfalso; clear - Hu Hl. class_lia. }
    destruct (IH r ltac:(lia) Hr) as (t & -> & Ht).
    exists (c :: t); split; [reflexivity|].
    cbn. rewrite (unescaped_not_percent _ Hu), Hu. exact Ht.
  - destruct (is_trail c) eqn:Ht; [discriminate|].
    destruct (is_lead c) eqn:Hl.
    + destruct r as [|lo r']; [discriminate|].
      apply andb_true_iff in Hwf; destruct Hwf as [Hlo Hr].
      rewrite Hlo. cbn in Hlen.
      destruct (IH r' ltac:(lia) Hr) as (t & -> & Hte).
      eexists; split; [reflexivity|].
      rewrite percent_encoded_percent_all; [exact Hte|].
      apply utf8_octets, code_point_bound; assumption.
    + apply andb_true_iff in Hwf; destruct Hwf as [Hc Hr].
      destruct (IH r ltac:(lia) Hr) as (t & -> & Hte).
      eexists; split; [reflexivity|].
      rewrite percent_encoded_percent_all; [exact Hte|].
      apply utf8_octets. boolify; lia.
Qed.

Lemma encodeURIComponent_ok (s : jsstring) :
  well_formed s = true ->
  exists t, encodeURIComponent s = Ok t /\ Spec.percent_encoded t = true.
Proof. apply (@encodeURIComponent_total (List.length s)); lia. Qed.

(** A percent-encoded segment holds no [/], so the segments of a resolved
    URL stay apart. *)
Lemma percent_encoded_no_slash (n : nat) :
  forall s, (List.length s <= n)%nat ->
  Spec.percent_encoded s = true -> ~ In (code "/") s.
Proof.
  induction n as [|n IH]; intros [|c r] Hlen He; cbn in Hlen; auto; try lia.
  cbn [Spec.percent_encoded] in He.
  destruct (N.eqb_spec c 37) as [->|Hc].
  - destruct r as [|h1 [|h2 r']]; try discriminate.
    boolify. cbn in Hlen.
    intros [Hin|[Hin|[Hin|Hin]]]; try discriminate.
    + subst h1. discriminate.
    + subst h2. discriminate.
    + revert Hin. apply IH; [lia | assumption].
  - boolify. intros [Hin|Hin].
    + subst c. discriminate.
    + revert Hin. apply IH; [lia | assumption].
Qed.

Lemma segment_has_no_slash (s : jsstring) :
  Spec.percent_encoded s = true -> ~ In (code "/") s.
Proof. apply (@percent_encoded_no_slash (List.length s)); lia. Qed.

(** ** The URL resolver *)

(** The two literal templates of [downloadFile] are the templates of the
    specification, with its constant hosts and asset name. *)
Lemma template_vsix_literal (p e v : jsstring) :
  $"https://" ++ p
  ++ $".gallery.vsassets.io/_apis/public/gallery/publisher/"
  ++ p ++ $"/extension/" ++ e ++ $"/" ++ v
  ++ $"/assetbyname/Microsoft.VisualStudio.Services.VSIXPackage"
  = Spec.template_vsix p e v.
Proof.
  unfold Spec.template_vsix, Spec.cdnHost, Spec.vsixAssetName.
  cbn. rewrite <- ?app_assoc. reflexivity.
Qed.

Lemma template_vsixpackage_literal (p e v : jsstring) :
  $"https://marketplace.visualstudio.com/_apis/public/gallery/publishers/"
  ++ p ++ $"/vsextensions/" ++ e ++ $"/" ++ v ++ $"/vspackage"
  = Spec.template_vsixpackage p e v.
Proof.
  unfold Spec.template_vsixpackage, Spec.marketplaceHost.
  cbn. rewrite <- ?app_assoc. reflexivity.
Qed.

(** C1.  For every publisher, extension name and version, the URL
    [downloadFile] resolves for kind [vsix] is exactly the CDN template
    and the one for kind [vsixpackage] exactly the marketplace template,
    over the three segments percent-encoded by [encodeURIComponent], each
    on its own; the hosts and the asset name are the fixed constants of the
    templates.  The encoding, and so the URL, exists for every well-formed
    string, and an encoded segment holds only unreserved characters and
    [%XX] escapes. *)
Theorem resolveUrl_templates (p e v : jsstring) :
  Content.resolveUrl p e v ($"vsix")
  = (p' <- encodeURIComponent p ;;
     e' <- encodeURIComponent e ;;
     v' <- encodeURIComponent v ;;
     Ok (Spec.template_vsix p' e' v')) /\
  Content.resolveUrl p e v ($"vsixpackage")
  = (p' <- encodeURIComponent p ;;
     e' <- encodeURIComponent e ;;
     v' <- encodeURIComponent v ;;
     Ok (Spec.template_vsixpackage p' e' v')) /\
  (well_formed p = true -> well_formed e = true -> well_formed v = true ->
   exists p' e' v',
     encodeURIComponent p = Ok p' /\
     encodeURIComponent e = Ok e' /\
     encodeURIComponent v = Ok v' /\
     Spec.percent_encoded p' = true /\
     Spec.percent_encoded e' = true /\
     Spec.percent_encoded v' = true /\
     Content.resolveUrl p e v ($"vsix")
     = Ok (Spec.template_vsix p' e' v') /\
     Content.resolveUrl p e v ($"vsixpackage")
     = Ok (Spec.template_vsixpackage p' e' v')).
Proof.
  assert (H1 : Content.resolveUrl p e v ($"vsix")
               = (p' <- encodeURIComponent p ;;
                  e' <- encodeURIComponent e ;;
                  v' <- encodeURIComponent v ;;
                  Ok (Spec.template_vsix p' e' v'))).
  { unfold Content.resolveUrl, Content.downloadFile.
    rewrite str_eqb_refl.
    destruct (encodeURIComponent p) as [p'|]; [|reflexivity].
    destruct (encodeURIComponent e) as [e'|]; [|reflexivity].
    destruct (encodeURIComponent v) as [v'|]; [|reflexivity].
    cbn [bind Content.url]. rewrite template_vsix_literal. reflexivity. }
  assert (H2 : Content.resolveUrl p e v ($"vsixpackage")
               = (p' <- encodeURIComponent p ;;
                  e' <- encodeURIComponent e ;;
                  v' <- encodeURIComponent v ;;
                  Ok (Spec.template_vsixpackage p' e' v'))).
  { unfold Content.resolveUrl, Content.downloadFile.
    replace (str_eqb ($"vsixpackage") ($"vsix")) with false by reflexivity.
    destruct (encodeURIComponent p) as [p'|]; [|reflexivity].
    destruct (encodeURIComponent e) as [e'|]; [|reflexivity].
    destruct (encodeURIComponent v) as [v'|]; [|reflexivity].
    cbn [bind Content.url]. rewrite template_vsixpackage_literal.
    reflexivity. }
  split; [exact H1|]. split; [exact H2|].
  intros Hp He Hv.
  destruct (encodeURIComponent_ok _ Hp) as (p' & Ep & Pp).
  destruct (encodeURIComponent_ok _ He) as (e' & Ee & Pe).
  destruct (encodeURIComponent_ok _ Hv) as (v' & Ev & Pv).
  exists p', e', v'. rewrite H1, H2, Ep, Ee, Ev.
  repeat (split; [first [assumption | reflexivity]|]). reflexivity.
Qed.

Lemma resolveUrl_templates_witness :
  exists p' e' v',
    encodeURIComponent ($"ms-python") = Ok p' /\
    encodeURIComponent ($"python") = Ok e' /\
    encodeURIComponent ($"2024.0.0") = Ok v' /\
    Spec.percent_encoded p' = true /\
    Spec.percent_encoded e' = true /\
    Spec.percent_encoded v' = true /\
    Content.resolveUrl ($"ms-python") ($"python") ($"2024.0.0") ($"vsix")
    = Ok (Spec.template_vsix p' e' v') /\
    Content.resolveUrl ($"ms-python") ($"python") ($"2024.0.0")
      ($"vsixpackage")
    = Ok (Spec.template_vsixpackage p' e' v').
Proof.
  apply (@resolveUrl_templates ($"ms-python") ($"python") ($"2024.0.0"));
    reflexivity.
Defined.

(** The scenario of the specification, end to end. *)
Example resolveUrl_ms_python :
  Content.resolveUrl ($"ms-python") ($"python") ($"2024.0.0") ($"vsix")
  = Ok ($"https://ms-python.gallery.vsassets.io/_apis/public/gallery/publisher/ms-python/extension/python/2024.0.0/assetbyname/Microsoft.VisualStudio.Services.VSIXPackage").
Proof. reflexivity. Qed.

(** A segment with reserved characters is escaped, each on its own. *)
Example resolveUrl_escapes :
  Content.resolveUrl ($"a b") ($"c/d") ($"1.0.0+x") ($"vsixpackage")
  = Ok ($"https://marketplace.visualstudio.com/_apis/public/gallery/publishers/a%20b/vsextensions/c%2Fd/1.0.0%2Bx/vspackage").
Proof. reflexivity. Qed.

(** An unpaired surrogate makes [encodeURIComponent], and so the
    resolver, throw. *)
Example resolveUrl_unpaired :
  Content.resolveUrl ($"p") ($"e") ($"1.0.0" ++ [55296%N]) ($"vsix")
  = Throw URIError.
Proof. reflexivity. Qed.

(** The popup resolves the same two URLs from the identifier. *)
Lemma popup_resolves_alike (d : Content.ExtensionData) (kind : jsstring)
  (o : Popup.DownloadOptions) :
  Popup.handleDownload (Some d) kind = Popup.Download o ->
  Content.resolveUrl
    (nth 0 (split (code ".") (Content.identifier d)) [])
    (join ($".") (slice1 (split (code ".") (Content.identifier d))))
    (Content.version d) kind
  = Ok (Popup.url o).
Proof.
  unfold Popup.handleDownload, Content.resolveUrl, Content.downloadFile.
  destruct (negb (truthy (Content.identifier d))
            || negb (truthy (Content.version d))); [discriminate|].
  destruct (Nat.ltb _ 2); [discriminate|].
  destruct (str_eqb kind ($"vsix"));
    destruct (encodeURIComponent (nth 0 _ _)); cbn; try discriminate;
    destruct (encodeURIComponent (join _ _)); cbn; try discriminate;
    destruct (encodeURIComponent (Content.version d)); cbn;
    try discriminate; intros [= <-]; reflexivity.
Qed.

(** ** The URL-parameter strategy *)

Lemma split_nonempty (c : code_unit) (s : jsstring) : split c s <> [].
Proof.
  induction s as [|x r IH]; cbn; [discriminate|].
  destruct (N.eqb x c); [discriminate|].
  destruct (split c r); [contradiction | discriminate].
Qed.

(** [split] cuts at the first separator. *)
Lemma split_first (c : code_unit) (s : jsstring) :
  In c s ->
  split c s = Spec.before_first c s :: split c (Spec.after_first c s).
Proof.
  induction s as [|x r IH]; cbn; [contradiction|].
  intros Hin. destruct (N.eqb_spec x c) as [->|Hx]; [reflexivity|].
  destruct Hin as [Hin|Hin]; [contradiction|].
  rewrite (IH Hin). reflexivity.
Qed.

(** [join] undoes [split]. *)
Lemma join_split (c : code_unit) (s : jsstring) : join [c] (split c s) = s.
Proof.
  induction s as [|x r IH]; cbn; [reflexivity|].
  destruct (N.eqb_spec x c) as [->|Hx].
  - pose proof (split_nonempty c r) as Hne.
    destruct (split c r) as [|q qs]; [contradiction|].
    cbn [join app] in *. rewrite IH. reflexivity.
  - pose proof (split_nonempty c r) as Hne.
    destruct (split c r) as [|q qs]; [contradiction|].
    destruct qs; cbn [join app] in *; rewrite <- IH; reflexivity.
Qed.

Lemma before_after_first (c : code_unit) (s : jsstring) :
  In c s ->
  s = Spec.before_first c s ++ [c] ++ Spec.after_first c s.
Proof.
  induction s as [|x r IH]; cbn; [contradiction|].
  intros Hin. destruct (N.eqb_spec x c) as [->|Hx]; [reflexivity|].
  destruct Hin as [Hin|Hin]; [contradiction|].
  cbn. f_equal. exact (IH Hin).
Qed.

Lemma before_first_free (c : code_unit) (s : jsstring) :
  ~ In c (Spec.before_first c s).
Proof.
  induction s as [|x r IH]; cbn; [tauto|].
  destruct (N.eqb_spec x c) as [->|Hx]; cbn; [tauto|].
  intros [H|H]; [congruence | contradiction].
Qed.

Lemma drop_space_plain (s : jsstring) :
  forallb (fun c => negb (is_space c)) s = true -> drop_space s = s.
Proof.
  destruct s as [|c r]; cbn; [reflexivity|].
  intros H; apply andb_true_iff in H; destruct H as [H _].
  apply negb_true_iff in H. rewrite H. reflexivity.
Qed.

Lemma trim_plain (s : jsstring) :
  forallb (fun c => negb (is_space c)) s = true -> trim s = s.
Proof.
  intros H. unfold trim. rewrite (drop_space_plain _ H).
  rewrite drop_space_plain, rev_involutive; [reflexivity|].
  rewrite forallb_forall in *. intros x Hx. apply H, in_rev, Hx.
Qed.

(** The sanitizer of extracted text leaves a plain string as it is. *)
Lemma sanitizeText_plain (s : jsstring) :
  Spec.plain s = true -> Content.sanitizeText s = s.
Proof.
  unfold Spec.plain, Content.sanitizeText. intros H.
  assert (Hf : filter (fun c => negb (Content.is_markup c)) s = s).
  { apply forallb_filter_id. rewrite forallb_forall in *.
    intros x Hx. specialize (H x Hx).
    apply andb_true_iff in H. tauto. }
  rewrite Hf. apply trim_plain.
  rewrite forallb_forall in *. intros x Hx. specialize (H x Hx).
  apply andb_true_iff in H. tauto.
Qed.

Lemma plain_app (a b : jsstring) :
  Spec.plain (a ++ b) = Spec.plain a && Spec.plain b.
Proof. apply forallb_app. Qed.

(** C2, as the code has it.  When the [itemName] parameter is present and
    holds a dot, the URL-parameter strategy cuts it at its first dot and
    stores the sanitized pieces: the publisher is the sanitized part before
    the first dot, the extension name the sanitized remainder after it
    (further dots included), the identifier the sanitized parameter value;
    the version is left alone and nothing is thrown.  A plain value (no
    markup character, no white space) is stored verbatim. *)
Theorem extractFromURL_itemName (page : Page) (d : Content.ExtensionData)
  (itemName : jsstring) :
  get (search page) ($"itemName") = Some itemName ->
  In (code ".") itemName ->
  itemName = Spec.before_first (code ".") itemName ++ $"."
             ++ Spec.after_first (code ".") itemName /\
  ~ In (code ".") (Spec.before_first (code ".") itemName) /\
  exists d',
    Content.extractFromURL page d = (Ok tt, d') /\
    Content.publisher d'
    = Content.sanitizeText (Spec.before_first (code ".") itemName) /\
    Content.name d'
    = Content.sanitizeText (Spec.after_first (code ".") itemName) /\
    Content.identifier d' = Content.sanitizeText itemName /\
    Content.version d' = Content.version d /\
    (Spec.plain itemName = true ->
     Content.publisher d' = Spec.before_first (code ".") itemName /\
     Content.name d' = Spec.after_first (code ".") itemName /\
     Content.identifier d' = itemName).
Proof.
  intros Hget Hdot.
  pose proof (before_after_first _ _ Hdot) as Hcut.
  split; [exact Hcut|]. split; [apply before_first_free|].
  assert (Hne : truthy itemName = true) by (destruct itemName; [contradiction | reflexivity]).
  unfold Content.extractFromURL, Content.mtry, Content.mbind,
    Content.modify, Content.ret.
  rewrite Hget, Hne. cbn [negb].
  rewrite (split_first _ _ Hdot).
  assert (Hlen : Nat.leb 2 (List.length
                   (Spec.before_first (code ".") itemName
                    :: split (code ".") (Spec.after_first (code ".") itemName)))
                 = true).
  { pose proof (split_nonempty (code ".")
                  (Spec.after_first (code ".") itemName)) as Hrest.
    destruct (split (code ".") (Spec.after_first (code ".") itemName));
      [contradiction | reflexivity]. }
  rewrite Hlen. unfold slice1. cbn [nth skipn].
  change ($".") with [code "."]. rewrite join_split.
  eexists; split; [reflexivity|]. cbn.
  repeat (split; [reflexivity|]).
  intros Hplain. rewrite Hcut in Hplain at 1.
  rewrite !plain_app in Hplain.
  apply andb_true_iff in Hplain; destruct Hplain as [Hb Ha].
  apply andb_true_iff in Ha; destruct Ha as [_ Ha].
  rewrite !sanitizeText_plain; auto.
  rewrite Hcut at 1. rewrite !plain_app, Hb, Ha. reflexivity.
Qed.

Lemma extractFromURL_itemName_witness :
  $"ms-dotnettools.vscode.csharp"
  = Spec.before_first (code ".") ($"ms-dotnettools.vscode.csharp") ++ $"."
    ++ Spec.after_first (code ".") ($"ms-dotnettools.vscode.csharp") /\
  ~ In (code ".")
      (Spec.before_first (code ".") ($"ms-dotnettools.vscode.csharp")) /\
  exists d',
    Content.extractFromURL
      (Example.item_page ($"ms-dotnettools.vscode.csharp"))
      Content.empty_data = (Ok tt, d') /\
    Content.publisher d'
    = Content.sanitizeText
        (Spec.before_first (code ".") ($"ms-dotnettools.vscode.csharp")) /\
    Content.name d'
    = Content.sanitizeText
        (Spec.after_first (code ".") ($"ms-dotnettools.vscode.csharp")) /\
    Content.identifier d'
    = Content.sanitizeText ($"ms-dotnettools.vscode.csharp") /\
    Content.version d' = Content.version Content.empty_data /\
    (Spec.plain ($"ms-dotnettools.vscode.csharp") = true ->
     Content.publisher d'
     = Spec.before_first (code ".") ($"ms-dotnettools.vscode.csharp") /\
     Content.name d'
     = Spec.after_first (code ".") ($"ms-dotnettools.vscode.csharp") /\
     Content.identifier d' = $"ms-dotnettools.vscode.csharp").
Proof.
  apply (@extractFromURL_itemName
           (Example.item_page ($"ms-dotnettools.vscode.csharp"))
           Content.empty_data ($"ms-dotnettools.vscode.csharp")).
  - reflexivity.
  - vm_compute. tauto.
Defined.

(** The instance the specification names. *)
Example extractFromURL_publisher_ext :
  Content.extractFromURL (Example.item_page ($"publisher.ext"))
    Content.empty_data
  = (Ok tt,
     {| Content.version := [];
        Content.publisher := $"publisher";
        Content.identifier := $"publisher.ext";
        Content.name := $"ext" |}).
Proof. reflexivity. Qed.

(** The remainder keeps its own dots. *)
Example extractFromURL_remainder :
  Content.name
    (snd (Content.extractFromURL
            (Example.item_page ($"ms-dotnettools.vscode.csharp"))
            Content.empty_data))
  = $"vscode.csharp".
Proof. reflexivity. Qed.

(** C2 as stated fails: the identifier is not the parameter value verbatim
    when that value holds a character the sanitizer removes.  For the
    address [?itemName=a%27b.c] the parameter value is [a'b.c] and the
    identifier stored is [ab.c]. *)
Lemma identifier_not_verbatim :
  Content.identifier
    (snd (Content.extractFromURL (Example.item_page ($"a'b.c"))
            Content.empty_data)) = $"ab.c" /\
  Content.identifier
    (snd (Content.extractFromURL (Example.item_page ($"a'b.c"))
            Content.empty_data)) <> $"a'b.c".
Proof. split; [reflexivity | discriminate]. Qed.

(** ** Versions and completeness *)

Lemma take_skip_digits (s : jsstring) :
  s = Content.take_digits s ++ Content.skip_digits s.
Proof.
  induction s as [|c r IH]; cbn; [reflexivity|].
  destruct (is_digit c); cbn; [f_equal; exact IH | reflexivity].
Qed.

Lemma take_digits_all (s : jsstring) :
  Forall (fun c => is_digit c = true) (Content.take_digits s).
Proof.
  induction s as [|c r IH]; cbn; [constructor|].
  destruct (is_digit c) eqn:Hc; constructor; assumption.
Qed.

Lemma digits1_number (s a r : jsstring) :
  Content.digits1 s = Some (a, r) -> Spec.number a /\ s = a ++ r.
Proof.
  unfold Content.digits1. destruct s as [|c t]; [discriminate|].
  destruct (is_digit c) eqn:Hc; [|discriminate].
  intros [= <- <-]. split; [split|].
  - cbn. rewrite Hc. discriminate.
  - apply (take_digits_all (c :: t)).
  - apply (take_skip_digits (c :: t)).
Qed.

Lemma expect_cons (c : code_unit) (s r : jsstring) :
  Content.expect c s = Some r -> s = c :: r.
Proof.
  destruct s as [|x t]; cbn; [discriminate|].
  destruct (N.eqb_spec x c); [intros [= ->]; subst; reflexivity | discriminate].
Qed.

(** What [\d+\.\d+\.\d+] matches at the start of a string. *)
Lemma three_numbers_shape (s m r : jsstring) :
  Content.three_numbers s = Some (m, r) ->
  exists a b c,
    Spec.number a /\ Spec.number b /\ Spec.number c /\
    m = a ++ [code "."] ++ b ++ [code "."] ++ c /\ s = m ++ r.
Proof.
  unfold Content.three_numbers.
  destruct (Content.digits1 s) as [[a r1]|] eqn:H1; [|discriminate].
  destruct (Content.expect (code ".") r1) as [r2|] eqn:E1; [|discriminate].
  destruct (Content.digits1 r2) as [[b r3]|] eqn:H2; [|discriminate].
  destruct (Content.expect (code ".") r3) as [r4|] eqn:E2; [|discriminate].
  destruct (Content.digits1 r4) as [[c r5]|] eqn:H3; [|discriminate].
  intros [= <- <-].
  apply digits1_number in H1, H2, H3.
  apply expect_cons in E1, E2.
  destruct H1 as [Na ->], H2 as [Nb ->], H3 as [Nc ->]. subst r1 r3.
  exists a, b, c. repeat (split; [assumption|]).
  split; [reflexivity|].
  app_norm. reflexivity.
Qed.

Lemma digits_then (a rest : jsstring) (x : code_unit) :
  Forall (fun c => is_digit c = true) a -> is_digit x = false ->
  Content.take_digits (a ++ x :: rest) = a /\
  Content.skip_digits (a ++ x :: rest) = x :: rest.
Proof.
  intros Ha Hx. induction Ha as [|c a Hc _ [IH1 IH2]]; cbn.
  - rewrite Hx. split; reflexivity.
  - rewrite Hc. rewrite IH1, IH2. split; reflexivity.
Qed.

Lemma digits1_then (a rest : jsstring) (x : code_unit) :
  Spec.number a -> is_digit x = false ->
  Content.digits1 (a ++ x :: rest) = Some (a, x :: rest).
Proof.
  intros [Hne Ha] Hx.
  destruct (@digits_then a rest x Ha Hx) as [H1 H2].
  unfold Content.digits1. rewrite H1, H2.
  destruct a as [|c a']; [contradiction|].
  inversion Ha as [|? ? Hc _]; subst. cbn. rewrite Hc. reflexivity.
Qed.

Lemma digits1_some (a rest : jsstring) :
  Spec.number a -> exists m r, Content.digits1 (a ++ rest) = Some (m, r).
Proof.
  intros [Hne Ha]. destruct a as [|c a']; [contradiction|].
  inversion Ha as [|? ? Hc _]; subst.
  unfold Content.digits1. cbn [app]. rewrite Hc. eauto.
Qed.

Lemma dot_not_digit : is_digit (code ".") = false.
Proof. reflexivity. Qed.

(** [isValidVersion] decides the pattern [^\d+\.\d+\.\d+]. *)
Lemma isValidVersion_shaped (v : jsstring) :
  Content.isValidVersion v = true <-> Spec.version_shaped v.
Proof.
  unfold Content.isValidVersion, Spec.version_shaped. split.
  - destruct (Content.three_numbers v) as [[m r]|] eqn:H; [|discriminate].
    intros _. apply three_numbers_shape in H.
    destruct H as (a & b & c & Na & Nb & Nc & -> & ->).
    exists a, b, c, r. repeat (split; [assumption|]).
    app_norm. reflexivity.
  - intros (a & b & c & rest & Na & Nb & Nc & ->).
    unfold Content.three_numbers. cbn [app].
    rewrite (@digits1_then a _ _ Na dot_not_digit).
    cbn [Content.expect]. rewrite N.eqb_refl.
    rewrite (@digits1_then b _ _ Nb dot_not_digit).
    cbn [Content.expect]. rewrite N.eqb_refl.
    destruct (@digits1_some c rest Nc) as (m & r & ->). reflexivity.
Qed.

(** C3, as the code has it.  [hasValidData] is true exactly when the
    identifier, the version and the publisher are all non-empty. *)
Theorem hasValidData_iff (d : Content.ExtensionData) :
  Content.hasValidData d = true <->
  Content.identifier d <> [] /\ Content.version d <> [] /\
  Content.publisher d <> [].
Proof.
  unfold Content.hasValidData.
  rewrite !andb_true_iff, !truthy_nonempty. tauto.
Qed.

(** C3 as stated fails.  For the address [?itemName=p.] and a page that
    shows version 1.0.0 the extractor leaves the extension name empty, and
    [hasValidData] holds all the same: the descriptor counts as complete
    although it is not complete in the words of the data model. *)
Lemma hasValidData_without_name :
  Content.extractMetadata (Example.versioned_page ($"p.") ($"1.0.0"))
    Content.empty_data = (Ok tt, Example.nameless) /\
  Content.hasValidData Example.nameless = true /\
  ~ Spec.isComplete Example.nameless.
Proof.
  split; [reflexivity|]. split; [reflexivity|].
  intros (_ & Hname & _). apply Hname. reflexivity.
Qed.

(** ** The extractor never throws *)

Section Monad.

Import Content.

Lemma returns_ret {A} (a : A) : returns (ret a).
Proof. intros d; exists a, d; reflexivity. Qed.

Lemma returns_modify (f : ExtensionData -> ExtensionData) :
  returns (modify f).
Proof. intros d; exists tt, (f d); reflexivity. Qed.

Lemma returns_bind {A B} (m : M A) (k : A -> M B) :
  returns m -> (forall a, returns (k a)) -> returns (mbind m k).
Proof.
  intros Hm Hk d. unfold mbind.
  destruct (Hm d) as (a & d1 & ->). apply Hk.
Qed.

(** A [try] whose handler returns does return, whatever its body does. *)
Lemma returns_mtry {A} (m : M A) (h : error -> M A) :
  (forall e, returns (h e)) -> returns (mtry m h).
Proof.
  intros Hh d. unfold mtry.
  destruct (m d) as [[a|e] d1]; [exists a, d1; reflexivity | apply Hh].
Qed.

Section Follows.

Variable step : ExtensionData -> ExtensionData -> Prop.
Hypothesis step_refl : forall d, step d d.
Hypothesis step_trans : forall a b c, step a b -> step b c -> step a c.

Lemma follows_ret {A} (a : A) : follows step (ret a).
Proof. intros d r d' [= _ <-]. apply step_refl. Qed.

Lemma follows_lift {A} (x : result A) : follows step (lift x).
Proof. intros d r d' [= _ <-]. apply step_refl. Qed.

Lemma follows_bind {A B} (m : M A) (k : A -> M B) :
  follows step m -> (forall a, follows step (k a)) ->
  follows step (mbind m k).
Proof.
  intros Hm Hk d r d'. unfold mbind.
  destruct (m d) as [[a|e] d1] eqn:E.
  - intros H. eapply step_trans; [eapply Hm, E | eapply Hk, H].
  - intros [= _ <-]. eapply Hm, E.
Qed.

Lemma follows_mtry {A} (m : M A) (h : error -> M A) :
  follows step m -> (forall e, follows step (h e)) ->
  follows step (mtry m h).
Proof.
  intros Hm Hh d r d'. unfold mtry.
  destruct (m d) as [[a|e] d1] eqn:E.
  - intros [= _ <-]. eapply Hm, E.
  - intros H. eapply step_trans; [eapply Hm, E | eapply Hh, H].
Qed.

End Follows.

End Monad.

Lemma version_step_refl (d : Content.ExtensionData) : Spec.version_step d d.
Proof. unfold Spec.version_step; tauto. Qed.

Lemma version_step_trans (a b c : Content.ExtensionData) :
  Spec.version_step a b -> Spec.version_step b c -> Spec.version_step a c.
Proof.
  unfold Spec.version_step.
  intros (-> & -> & -> & H1) (-> & -> & -> & H2).
  repeat (split; [reflexivity|]).
  destruct H2 as [->|H2]; [exact H1 | right; exact H2].
Qed.

Lemma set_version_step (v : jsstring) :
  Content.isValidVersion v = true ->
  Content.follows Spec.version_step (Content.modify (Content.set_version v)).
Proof.
  intros Hv d r d' [= _ <-]. unfold Spec.version_step; cbn. tauto.
Qed.

(** The group the version pattern captures is a version. *)
Lemma match_version_at_valid (prev : option code_unit) (s v : jsstring) :
  Content.match_version_at prev s = Some v ->
  Content.isValidVersion v = true.
Proof.
  unfold Content.match_version_at.
  destruct (negb _); [discriminate|].
  destruct (Content.three_numbers s) as [[m r]|] eqn:H3; [|discriminate].
  apply three_numbers_shape in H3.
  destruct H3 as (a & b & c & Na & Nb & Nc & Hm & _).
  assert (Vm : Content.isValidVersion m = true).
  { apply isValidVersion_shaped. exists a, b, c, [].
    repeat (split; [assumption|]). rewrite Hm. app_norm.
    rewrite app_nil_r. reflexivity. }
  assert (Vd : forall d, Content.isValidVersion (m ++ [code "."] ++ d) = true).
  { intros d. apply isValidVersion_shaped. exists a, b, c, ([code "."] ++ d).
    repeat (split; [assumption|]). rewrite Hm. app_norm. reflexivity. }
  cbv zeta.
  destruct (Content.word_boundary (Some (last m 0%N)) (hd_error r));
    destruct (Content.expect (code ".") r) as [r'|];
    try destruct (Content.digits1 r') as [[d r'']|];
    try destruct (Content.word_boundary (Some (last d 0%N)) (hd_error r''));
    try discriminate; intros [= <-]; first [exact Vm | exact (Vd _)].
Qed.

Lemma search_version_valid (s : jsstring) :
  forall prev v,
  Content.search_version prev s = Some v ->
  Content.isValidVersion v = true.
Proof.
  induction s as [|c r IH]; intros prev v; cbn [Content.search_version];
    destruct (Content.match_version_at prev _) as [w|] eqn:Hm;
    try discriminate;
    try (intros [= <-]; eapply match_version_at_valid, Hm).
  apply IH.
Qed.

Lemma first_version_valid (texts : list jsstring) (v : jsstring) :
  Content.first_version texts = Some v -> Content.isValidVersion v = true.
Proof.
  induction texts as [|t ts IH]; cbn; [discriminate|].
  destruct (Content.version_match (trim t)) as [w|] eqn:Hm; [|exact IH].
  intros [= <-]. eapply search_version_valid, Hm.
Qed.

Lemma first_labelled_version_valid (texts : list jsstring) (v : jsstring) :
  Content.first_labelled_version texts = Some v ->
  Content.isValidVersion v = true.
Proof.
  induction texts as [|t ts IH]; cbn; [discriminate|].
  destruct (Content.mentions_version (trim t)); [|exact IH].
  destruct (Content.version_match (trim t)) as [w|] eqn:Hm; [|exact IH].
  intros [= <-]. eapply search_version_valid, Hm.
Qed.

Section Extractor.

Import Content.

Variable page : Page.

Let vret {A} (a : A) : follows Spec.version_step (ret a) :=
  @follows_ret _ version_step_refl A a.
Let vlift {A} (x : result A) : follows Spec.version_step (lift x) :=
  @follows_lift _ version_step_refl A x.
Let vbind {A B} (m : M A) (k : A -> M B) :=
  @follows_bind _ version_step_trans A B m k.
Let vtry {A} (m : M A) (h : error -> M A) :=
  @follows_mtry _ version_step_trans A m h.

Lemma extractFromURL_returns : returns (extractFromURL page).
Proof. apply returns_mtry. intros _. apply returns_ret. Qed.

Lemma extractFromURL_keeps_version :
  follows Spec.url_step (extractFromURL page).
Proof.
  intros d r d'.
  unfold extractFromURL, mtry, mbind, modify, ret, Spec.url_step.
  destruct (get (search page) ($"itemName")) as [itemName|];
    [|intros [= _ <-]; reflexivity].
  destruct (negb (truthy itemName)); [intros [= _ <-]; reflexivity|].
  destruct (Nat.leb 2 _); intros [= _ <-]; reflexivity.
Qed.

Lemma extractFromURL_absent (d : ExtensionData) :
  get (search page) ($"itemName") = None ->
  extractFromURL page d = (Ok tt, d).
Proof. intros H. unfold extractFromURL, mtry. rewrite H. reflexivity. Qed.

Lemma accept_version_returns (v : value) : returns (accept_version v).
Proof.
  unfold accept_version. destruct v; try apply returns_ret.
  destruct (truthy s && isValidVersion s); [|apply returns_ret].
  apply returns_bind; [apply returns_modify | intros; apply returns_ret].
Qed.

Lemma accept_version_step (v : value) :
  follows Spec.version_step (accept_version v).
Proof.
  unfold accept_version. destruct v; try apply vret.
  destruct (truthy s) eqn:Ht; cbn [andb]; [|apply vret].
  destruct (isValidVersion s) eqn:Hv; [|apply vret].
  apply vbind; [apply set_version_step, Hv | intros; apply vret].
Qed.

Lemma scan_scripts_returns (scripts : list (result value)) :
  returns (scan_scripts scripts).
Proof.
  induction scripts as [|parsed rest IH]; cbn [scan_scripts];
    [apply returns_ret|].
  apply returns_bind.
  - apply returns_mtry. intros; apply returns_ret.
  - intros [|]; [apply returns_ret | exact IH].
Qed.

Lemma scan_scripts_step (scripts : list (result value)) :
  follows Spec.version_step (scan_scripts scripts).
Proof.
  induction scripts as [|parsed rest IH]; cbn [scan_scripts];
    [apply vret|].
  apply vbind.
  - apply vtry; [|intros; apply vret].
    apply vbind; [apply vlift|]. intros data.
    apply vbind; [apply vlift|]. intros v. apply accept_version_step.
  - intros [|]; [apply vret | exact IH].
Qed.

Lemma structured_returns : returns (extractVersionFromStructuredData page).
Proof. apply returns_mtry. intros; apply returns_ret. Qed.

Lemma structured_step :
  follows Spec.version_step (extractVersionFromStructuredData page).
Proof. apply vtry; [apply scan_scripts_step | intros; apply vret]. Qed.

Lemma scan_selectors_returns (selectors : list jsstring) :
  returns (scan_selectors page selectors).
Proof.
  induction selectors as [|selector rest IH]; cbn [scan_selectors];
    [apply returns_ret|].
  apply returns_bind.
  - apply returns_mtry. intros; apply returns_ret.
  - intros [|]; [apply returns_ret | exact IH].
Qed.

Lemma scan_selectors_step (selectors : list jsstring) :
  follows Spec.version_step (scan_selectors page selectors).
Proof.
  induction selectors as [|selector rest IH]; cbn [scan_selectors];
    [apply vret|].
  apply vbind.
  - apply vtry; [|intros; apply vret].
    destruct (first_version _) as [v|] eqn:Hf; [|apply vret].
    apply vbind; [|intros; apply vret].
    eapply set_version_step, first_version_valid, Hf.
  - intros [|]; [apply vret | exact IH].
Qed.

Lemma dom_returns : returns (extractVersionFromDOM page).
Proof.
  apply returns_bind; [apply scan_selectors_returns|].
  intros [|]; [apply returns_ret|].
  destruct (first_labelled_version _); [|apply returns_ret].
  apply returns_bind; [apply returns_modify | intros; apply returns_ret].
Qed.

Lemma dom_step : follows Spec.version_step (extractVersionFromDOM page).
Proof.
  apply vbind; [apply scan_selectors_step|].
  intros [|]; [apply vret|].
  destruct (first_labelled_version _) as [v|] eqn:Hf; [|apply vret].
  apply vbind; [|intros; apply vret].
  eapply set_version_step, first_labelled_version_valid, Hf.
Qed.

Lemma page_data_returns : returns (extractVersionFromPageData page).
Proof. apply returns_mtry. intros; apply returns_ret. Qed.

Lemma page_data_step :
  follows Spec.version_step (extractVersionFromPageData page).
Proof.
  apply vtry; [|intros; apply vret].
  destruct (value_truthy _); [|apply vret].
  apply vbind; [apply vlift | intros; apply accept_version_step].
Qed.

Lemma extractVersion_returns : returns (extractVersion page).
Proof.
  apply returns_bind; [apply structured_returns|].
  intros [|]; [apply returns_ret|].
  apply returns_bind; [apply dom_returns|].
  intros [|]; [apply returns_ret|].
  apply returns_bind; [apply page_data_returns | intros; apply returns_ret].
Qed.

Lemma extractVersion_step : follows Spec.version_step (extractVersion page).
Proof.
  apply vbind; [apply structured_step|].
  intros [|]; [apply vret|].
  apply vbind; [apply dom_step|].
  intros [|]; [apply vret|].
  apply vbind; [apply page_data_step | intros; apply vret].
Qed.

(** With no source of a version on the page the version strategies leave
    the descriptor as it is. *)
Lemma extractVersion_absent (d : ExtensionData) :
  Spec.no_version_source page -> extractVersion page d = (Ok tt, d).
Proof.
  intros (Hs & Hq & Hi).
  unfold extractVersion, extractVersionFromStructuredData,
    extractVersionFromDOM, extractVersionFromPageData, mbind, mtry.
  rewrite Hs, Hi, Hq. cbn [scan_scripts ret first_labelled_version].
  assert (Hscan : forall sels, scan_selectors page sels d = (Ok false, d)).
  { induction sels as [|sel rest IH]; [reflexivity|].
    cbn [scan_selectors]. unfold mbind, mtry. rewrite Hq.
    cbn [first_version ret]. exact IH. }
  rewrite Hscan. reflexivity.
Qed.

(** [extractMetadata] returns normally on every page. *)
Lemma extractMetadata_returns (d : ExtensionData) :
  exists d', extractMetadata page d = (Ok tt, d').
Proof.
  assert (H : returns (extractMetadata page)).
  { apply returns_bind; [apply extractFromURL_returns|]. intros _.
    apply returns_bind; [apply extractVersion_returns|]. intros _.
    apply returns_ret. }
  destruct (H d) as ([] & d' & E). exists d'. exact E.
Qed.

End Extractor.

(** C8.  On every page and from every descriptor, [extractMetadata]
    returns normally: no exception reaches its caller.  Data that is absent
    leaves the fields as they were (empty, for a fresh descriptor): with no
    [itemName] the identifier, publisher and name are untouched; with no
    source of a version the version is untouched; and whatever the page
    holds, the version is either untouched or a string of the version
    pattern, so malformed data is never stored. *)
Theorem extractMetadata_never_throws (page : Page)
  (d : Content.ExtensionData) :
  exists d',
    Content.extractMetadata page d = (Ok tt, d') /\
    (Content.version d' = Content.version d \/
     Content.isValidVersion (Content.version d') = true) /\
    (get (search page) ($"itemName") = None ->
     Content.identifier d' = Content.identifier d /\
     Content.publisher d' = Content.publisher d /\
     Content.name d' = Content.name d) /\
    (Spec.no_version_source page ->
     Content.version d' = Content.version d) /\
    (get (search page) ($"itemName") = None ->
     Content.identifier d = [] -> Content.hasValidData d' = false).
Proof.
  destruct (extractFromURL_returns page d) as ([] & d1 & E1).
  destruct (extractVersion_returns page d1) as ([] & d2 & E2).
  pose proof (@extractFromURL_keeps_version page _ _ _ E1) as U.
  pose proof (@extractVersion_step page _ _ _ E2) as (Vp & Vi & Vn & Vv).
  unfold Spec.url_step in U.
  exists d2. unfold Content.extractMetadata, Content.mbind.
  rewrite E1, E2. split; [reflexivity|].
  split; [rewrite <- U; exact Vv|].
  assert (Habs : get (search page) ($"itemName") = None -> d1 = d).
  { intros H. rewrite (@extractFromURL_absent page d H) in E1. congruence. }
  split; [intros H; rewrite (Habs H) in *; auto|].
  split.
  - intros H. rewrite (@extractVersion_absent page d1 H) in E2.
    injection E2 as <-. exact U.
  - intros H Hid. rewrite (Habs H) in *.
    unfold Content.hasValidData. rewrite Vi, Hid. reflexivity.
Qed.

Lemma extractMetadata_never_throws_witness :
  exists d',
    Content.extractMetadata Example.blank Content.empty_data = (Ok tt, d') /\
    (Content.version d' = Content.version Content.empty_data \/
     Content.isValidVersion (Content.version d') = true) /\
    (get (search Example.blank) ($"itemName") = None ->
     Content.identifier d' = Content.identifier Content.empty_data /\
     Content.publisher d' = Content.publisher Content.empty_data /\
     Content.name d' = Content.name Content.empty_data) /\
    (Spec.no_version_source Example.blank ->
     Content.version d' = Content.version Content.empty_data) /\
    (get (search Example.blank) ($"itemName") = None ->
     Content.identifier Content.empty_data = [] ->
     Content.hasValidData d' = false).
Proof.
  apply (@extractMetadata_never_throws Example.blank Content.empty_data).
Defined.

(** A page with nothing to extract leaves the fresh descriptor empty. *)
Example extractMetadata_blank :
  Content.extractMetadata Example.blank Content.empty_data
  = (Ok tt, Content.empty_data).
Proof. reflexivity. Qed.

(** A script that is not JSON and a script that is [null] are skipped,
    the [SyntaxError] and the [TypeError] being caught. *)
Example extractMetadata_scripted :
  Content.extractMetadata Example.scripted_page Content.empty_data
  = (Ok tt, Content.set_version ($"1.2.3") Content.empty_data).
Proof. reflexivity. Qed.

(** The enhanced stand-alone script is built the other way: its
    [ExtensionManager.extractMetadata] reports a missing table, and missing
    fields, by throwing to its caller [init], which catches. *)
Example enhanced_extractMetadata_throws :
  Legacy.extractMetadata Example.bare Legacy.empty_data
  = Throw (Error ($"Metadata table not found")).
Proof. reflexivity. Qed.

(** The scenario of the specification: the listing of [ms-python.python]
    with a version element yields a complete descriptor. *)
Example extractMetadata_ms_python :
  Content.extractMetadata
    (Example.versioned_page ($"ms-python.python") ($"Version 2024.0.0"))
    Content.empty_data
  = (Ok tt,
     {| Content.version := $"2024.0.0";
        Content.publisher := $"ms-python";
        Content.identifier := $"ms-python.python";
        Content.name := $"python" |}).
Proof. reflexivity. Qed.

(** ** The retry bound of the orchestrator *)

Section Retries.

Import Content.

Variable pages : nat -> Page.
Variable storage : result Settings.


Hypothesis never_complete :
  forall k d,
    hasValidData d = false ->
    hasValidData (snd (extractMetadata (pages k) d)) = false.



Lemma run_quiescent (fuel : nat) (c : Config) :
  pending c = None -> run pages storage fuel c = c.
Proof.
  intros H. destruct fuel; cbn; [reflexivity|].
  unfold fire. rewrite H. reflexivity.
Qed.

Lemma run_add (n m : nat) (c : Config) :
  run pages storage (n + m) c = run pages storage m (run pages storage n c).
Proof.
  revert c; induction n as [|n IH]; intros c; cbn [Nat.add run];
    [reflexivity|].
  destruct (fire pages storage c) as [c'|] eqn:Hf; [apply IH|].
  symmetry. apply run_quiescent.
  unfold fire in Hf. destruct (pending c); [|reflexivity].
  destruct (retry _ _ _); discriminate.
Qed.

End Retries.



(** While a cycle is active a further [startProcessing()], such as the one
    of the [load] handler, does nothing. *)
Lemma startProcessing_reentrant (page : Page)
  (storage : result Content.Settings) (st : Content.State) :
  Content.isProcessing st = true ->
  Content.startProcessing page storage st = (st, None).
Proof. intros H. unfold Content.startProcessing. rewrite H. reflexivity. Qed.

(** A page that completes the descriptor at the third look is not retried
    any further. *)
Example retry_until_complete :
  Content.log
    (Content.state
       (Content.run
          (fun k => if Nat.ltb k 2 then Example.item_page ($"p.e")
                    else Example.versioned_page ($"p.e") ($"1.0.0"))
          (Ok {| Content.autoInject := VBool false |}) 9
          (Content.boot
             (fun k => if Nat.ltb k 2 then Example.item_page ($"p.e")
                       else Example.versioned_page ($"p.e") ($"1.0.0"))
             (Ok {| Content.autoInject := VBool false |}))))
  = [ Content.Extracted; Content.TimerArmed 1000;
      Content.Extracted; Content.TimerArmed 2000; Content.Extracted ].
Proof. reflexivity. Qed.

(** ** The settings store *)




(** With the setting off and the store answering, nothing is injected. *)
Example checkAutoInject_off :
  Content.checkAutoInject (Ok {| Content.autoInject := VBool false |})
    Example.page_with_bar Example.extracted = Example.extracted.
Proof. reflexivity. Qed.

(** ** The message bridge *)

Section BridgeFacts.

Variable R : Type.
Variable answers : nat -> option R.

Lemma send_answered (attempt : nat) (response : R) :
  answers attempt = Some response ->
  Popup.sendMessageWithRetry answers attempt
  = (Popup.Resolved response, [Popup.Sent attempt]).
Proof.
  intros H. rewrite Popup.sendMessageWithRetry_equation_1, H.
  reflexivity.
Qed.

Lemma send_retried (attempt : nat) :
  answers attempt = None -> (attempt < Popup.maxRetries)%nat ->
  Popup.sendMessageWithRetry answers attempt
  = (let '(outcome, trace) :=
       Popup.sendMessageWithRetry answers (attempt + 1) in
     (outcome,
      Popup.Sent attempt :: Popup.Timer (Popup.delay_after attempt) :: trace)).
Proof.
  intros H Hlt. rewrite Popup.sendMessageWithRetry_equation_1, H.
  rewrite Popup.sendMessageWithRetry_clause_1_equation_2.
  destruct (Compare_dec.lt_dec attempt Popup.maxRetries) as [l|n];
    [|contradiction].
  apply Popup.sendMessageWithRetry_clause_1_clause_2_equation_1.
Qed.

Lemma send_given_up (attempt : nat) :
  answers attempt = None -> (Popup.maxRetries <= attempt)%nat ->
  Popup.sendMessageWithRetry answers attempt
  = (Popup.Rejected (Error ($"Content script not responding")),
     [Popup.Sent attempt]).
Proof.
  intros H Hge. rewrite Popup.sendMessageWithRetry_equation_1, H.
  rewrite Popup.sendMessageWithRetry_clause_1_equation_2.
  destruct (Compare_dec.lt_dec attempt Popup.maxRetries) as [l|n];
    [lia|].
  apply Popup.sendMessageWithRetry_clause_1_clause_2_equation_2.
Qed.

(** The five ways a call that starts at attempt 1 can go. *)
Lemma send_cases :
  (exists r, answers 1%nat = Some r /\
     Popup.sendMessageWithRetry answers 1
     = (Popup.Resolved r, [Popup.Sent 1])) \/
  (exists r, answers 1%nat = None /\ answers 2%nat = Some r /\
     Popup.sendMessageWithRetry answers 1
     = (Popup.Resolved r,
        [Popup.Sent 1; Popup.Timer 300; Popup.Sent 2])) \/
  (exists r, answers 1%nat = None /\ answers 2%nat = None /\
     answers 3%nat = Some r /\
     Popup.sendMessageWithRetry answers 1
     = (Popup.Resolved r,
        [Popup.Sent 1; Popup.Timer 300; Popup.Sent 2; Popup.Timer 600;
         Popup.Sent 3])) \/
  (answers 1%nat = None /\ answers 2%nat = None /\ answers 3%nat = None /\
   Popup.sendMessageWithRetry answers 1
   = (Popup.Rejected (Error ($"Content script not responding")),
      [Popup.Sent 1; Popup.Timer 300; Popup.Sent 2; Popup.Timer 600;
       Popup.Sent 3])).
Proof.
  destruct (answers 1%nat) as [r1|] eqn:A1.
  { left. exists r1. split; [reflexivity|]. apply send_answered, A1. }
  right. rewrite (send_retried A1) by (unfold Popup.maxRetries; lia).
  cbn [Nat.add].
  destruct (answers 2%nat) as [r2|] eqn:A2.
  { left. exists r2. rewrite (send_answered A2). auto. }
  right. rewrite (send_retried A2) by (unfold Popup.maxRetries; lia).
  cbn [Nat.add].
  destruct (answers 3%nat) as [r3|] eqn:A3.
  { left. exists r3. rewrite (send_answered A3). auto. }
  right. rewrite (send_given_up A3) by (unfold Popup.maxRetries; lia).
  auto.
Qed.

End BridgeFacts.

(** C9, as the code has it.  A call of the message bridge makes at most 3
    attempts.  The timer armed after the failed attempt number [k]
    (counted from 1, as the code counts) has delay [300 * 2^(k-1)]: 300
    after the first attempt, 600 after the second.  When the tab never
    answers, the third failed attempt rejects the call with an error
    and nothing more is sent. *)
Theorem message_bridge_retries (R : Type) (answers : nat -> option R) :
  (Popup.sends (snd (Popup.sendMessageWithRetry answers 1))
   <= Popup.maxRetries)%nat /\
  Popup.timers (snd (Popup.sendMessageWithRetry answers 1))
  = List.map (fun k => 300 * 2 ^ N.of_nat (k - 1))%N
      (seq 1 (Popup.sends (snd (Popup.sendMessageWithRetry answers 1)) - 1)) /\
  ((forall k, answers k = None) ->
   Popup.sendMessageWithRetry answers 1
   = (Popup.Rejected (Error ($"Content script not responding")),
      [Popup.Sent 1; Popup.Timer 300; Popup.Sent 2; Popup.Timer 600;
       Popup.Sent 3])).
Proof.
  destruct (send_cases answers)
    as [(r & A1 & E)|[(r & A1 & A2 & E)|[(r & A1 & A2 & A3 & E)
       |(A1 & A2 & A3 & E)]]];
    rewrite E; (split; [cbv; lia|]); (split; [reflexivity|]);
    intros H; try (rewrite H in *; discriminate); reflexivity.
Qed.

Lemma message_bridge_retries_witness :
  Popup.sendMessageWithRetry Example.silent 1
  = (Popup.Rejected (Error ($"Content script not responding")),
     [Popup.Sent 1; Popup.Timer 300; Popup.Sent 2; Popup.Timer 600;
      Popup.Sent 3]).
Proof.
  apply (@message_bridge_retries unit Example.silent).
  intros k. reflexivity.
Defined.

(** C9 as stated fails on the exponent: with the attempts counted from 1
    the delays [300 x 2^attempt] would be 600 and 1200, and the timers the
    code arms are 300 and 600. *)
Lemma bridge_backoff_differs :
  Popup.timers (snd (Popup.sendMessageWithRetry Example.silent 1))
  = [300; 600]%N /\
  List.map Spec.bridge_backoff [1; 2]%nat = [600; 1200]%N /\
  Popup.timers (snd (Popup.sendMessageWithRetry Example.silent 1))
  <> List.map Spec.bridge_backoff [1; 2]%nat.
Proof. repeat split; try reflexivity. discriminate. Qed.

(** ** File names *)

(** C5, as the code has it.  The browser extension joins the identifier and
    the version with a hyphen: the content script hands
    [{publisher}.{extensionName}-{version}] with the extension [.vsix] for
    kind [vsix] and [.vsixpackage] otherwise to the background worker, and
    the popup hands [{identifier}-{version}] with the same extensions to the
    download capability.  The underscore convention
    [{identifier}_{version}.{type}] is the one of [getFileName] in the
    stand-alone scripts. *)
Theorem download_filenames (publisher extension version : jsstring) :
  well_formed publisher = true -> well_formed extension = true ->
  well_formed version = true ->
  (exists m,
     Content.downloadFile publisher extension version ($"vsix") = Ok m /\
     Content.filename m
     = publisher ++ $"." ++ extension ++ $"-" ++ version ++ $".vsix") /\
  (exists m,
     Content.downloadFile publisher extension version ($"vsixpackage")
     = Ok m /\
     Content.filename m
     = publisher ++ $"." ++ extension ++ $"-" ++ version
       ++ $".vsixpackage") /\
  (forall d kind o,
     Popup.handleDownload (Some d) kind = Popup.Download o ->
     Popup.filename o
     = Content.identifier d ++ $"-" ++ Content.version d
       ++ (if str_eqb kind ($"vsix") then $".vsix" else $".vsixpackage")) /\
  (forall identifier kind,
     Legacy.getFileName identifier version kind
     = Spec.filename_convention identifier version kind).
Proof.
  intros Hp He Hv.
  destruct (encodeURIComponent_ok _ Hp) as (p' & Ep & _).
  destruct (encodeURIComponent_ok _ He) as (e' & Ee & _).
  destruct (encodeURIComponent_ok _ Hv) as (v' & Ev & _).
  unfold Content.downloadFile.
  rewrite str_eqb_refl.
  replace (str_eqb ($"vsixpackage") ($"vsix")) with false by reflexivity.
  rewrite Ep, Ee, Ev. cbn [bind].
  split; [eexists; split; reflexivity|].
  split; [eexists; split; reflexivity|].
  split; [|reflexivity].
  intros d kind o. unfold Popup.handleDownload.
  destruct (negb (truthy (Content.identifier d))
            || negb (truthy (Content.version d))); [discriminate|].
  destruct (Nat.ltb _ 2); [discriminate|].
  destruct (str_eqb kind ($"vsix"));
    destruct (encodeURIComponent (nth 0 _ _)); cbn [bind]; try discriminate;
    destruct (encodeURIComponent (join _ _)); cbn [bind]; try discriminate;
    destruct (encodeURIComponent (Content.version d)); cbn [bind];
    try discriminate; intros [= <-]; reflexivity.
Qed.

Lemma download_filenames_witness :
  exists m,
    Content.downloadFile ($"ms-python") ($"python") ($"2024.0.0") ($"vsix")
    = Ok m /\
    Content.filename m
    = $"ms-python" ++ $"." ++ $"python" ++ $"-" ++ $"2024.0.0" ++ $".vsix".
Proof.
  apply (@download_filenames ($"ms-python") ($"python") ($"2024.0.0"));
    reflexivity.
Defined.

(** C5 as stated fails.  For the complete descriptor of
    [ms-python.python] 2024.0.0 a click on the [vsix] button sends the file
    name [ms-python.python-2024.0.0.vsix], with a hyphen, and this is the
    name the background worker hands to the download capability; the
    underscore convention gives [ms-python.python_2024.0.0.vsix]. *)
Lemma filename_has_hyphen :
  Content.hasValidData (Content.extensionData Example.extracted) = true /\
  Content.handleButtonClick (Content.extensionData Example.extracted)
    ($"vsix")
  = Ok (Content.MessageSent Example.vsix_message) /\
  List.map Background.options_filename
    (snd (fst (Background.handleDownloadRequest Example.newURL
                 Example.download_ok 0
                 (Example.request_of Example.vsix_message) [])))
  = [ $"ms-python.python-2024.0.0.vsix" ] /\
  Spec.filename_convention ($"ms-python.python") ($"2024.0.0") ($"vsix")
  = $"ms-python.python_2024.0.0.vsix" /\
  Content.filename Example.vsix_message
  <> Spec.filename_convention
       (Content.identifier (Content.extensionData Example.extracted))
       (Content.version (Content.extensionData Example.extracted))
       ($"vsix").
Proof.
  repeat split; try reflexivity. discriminate.
Qed.

(** ** The checks of the background worker *)

Lemma endsWith_spec (s suffix : jsstring) :
  endsWith s suffix = true <-> exists prefix, s = prefix ++ suffix.
Proof.
  unfold endsWith. rewrite andb_true_iff, str_eqb_eq, Nat.leb_le. split.
  - intros [H _]. exists (firstn (List.length s - List.length suffix) s).
    rewrite <- H. symmetry.
    rewrite length_skipn.
    replace (List.length s - (List.length s - (List.length s - List.length suffix)))%nat
      with (List.length s - List.length suffix)%nat by lia.
    apply firstn_skipn.
  - intros [prefix ->]. rewrite length_app. split; [|lia].
    replace (List.length prefix + List.length suffix - List.length suffix)%nat
      with (List.length prefix + 0)%nat by lia.
    rewrite skipn_app, Nat.add_comm, skipn_all2 by lia.
    replace (0 + List.length prefix - List.length prefix)%nat with 0%nat
      by lia.
    reflexivity.
Qed.

(** [isAllowedDomain] decides the allow-list of the specification. *)
Lemma isAllowedDomain_spec (host : jsstring) :
  Background.isAllowedDomain host = true <-> Spec.host_allowed host.
Proof.
  unfold Background.isAllowedDomain, Background.allowedDomains,
    Spec.host_allowed, Spec.subdomain_of, Spec.marketplaceHost,
    Spec.cdnHost.
  cbn [existsb]. rewrite !orb_true_iff, !str_eqb_eq, !endsWith_spec.
  split.
  - intros [[H|H]|[[H|H]|H]]; auto; discriminate.
  - intros [H|[H|[H|H]]]; auto.
Qed.

Section WorkerFacts.

Variable newURL : jsstring -> result Background.URL.
Variable downloads_download : Background.DownloadOptions -> result N.
Variable now : N.

Lemma not_a_string_false (v : value) :
  Background.not_a_string v = false -> exists s, Spec.text v s.
Proof.
  unfold Background.not_a_string, Spec.text.
  destruct v; cbn; rewrite ?orb_true_r; try discriminate.
  destruct s; [discriminate|]. eexists; split; [reflexivity | discriminate].
Qed.

Lemma not_a_string_text (v : value) (s : jsstring) :
  Spec.text v s -> Background.not_a_string v = false.
Proof. intros [-> H]. destruct s; [contradiction | reflexivity]. Qed.

(** A request that passes the validation is acceptable. *)
Lemma validate_valid (request : Background.Request) :
  Background.validateDownloadRequest newURL request = Background.Valid ->
  Spec.acceptable newURL request.
Proof.
  unfold Background.validateDownloadRequest, Spec.acceptable.
  destruct (Background.not_a_string (Background.url request)) eqn:Hu;
    [discriminate|].
  destruct (Background.not_a_string (Background.filename request));
    [discriminate|].
  apply not_a_string_false in Hu. destruct Hu as (s & Hs & _).
  rewrite Hs. cbn [Background.string_of].
  destruct (newURL s) as [u|] eqn:Hparse; [|discriminate].
  destruct (Background.isAllowedDomain (Background.hostname u)) eqn:Hd;
    cbn [negb]; [|discriminate].
  destruct (str_eqb (Background.protocol u) ($"https:")) eqn:Hp;
    cbn [negb]; [|discriminate].
  intros _. exists s, u.
  apply str_eqb_eq in Hp. apply isAllowedDomain_spec in Hd. auto.
Qed.

(** A request that fails the validation is answered with its error, and
    neither the download capability nor the tracker is touched. *)
Lemma handle_invalid (request : Background.Request)
  (tracked : list (N * Background.Tracked)) (e : jsstring) :
  Background.validateDownloadRequest newURL request = Background.Invalid e ->
  Background.handleDownloadRequest newURL downloads_download now request
    tracked
  = (Background.Failure e, [], tracked).
Proof.
  intros H. unfold Background.handleDownloadRequest. rewrite H. reflexivity.
Qed.

End WorkerFacts.

(** C6, as the code has it.  Every download request is validated before
    the download capability is called.  Unless its URL parses, uses HTTPS
    and has an allowed host (one of the two domains or a subdomain of
    one), the request is answered with an error and the capability is not
    called.  With a text URL and a text file name, the error is the
    domain error when the URL parses and its host is not allowed, the
    protocol error when the host is allowed and the scheme is not HTTPS,
    and the malformed-URL error when the URL does not parse.  In
    particular a URL whose host is [evil.com] never reaches the
    capability. *)
Theorem download_is_validated
  (newURL : jsstring -> result Background.URL)
  (downloads_download : Background.DownloadOptions -> result N) (now : N)
  (request : Background.Request) (tracked : list (N * Background.Tracked))
  (response : Background.Response) (calls : list Background.DownloadOptions)
  (tracked' : list (N * Background.Tracked)) :
  Background.handleDownloadRequest newURL downloads_download now request
    tracked = (response, calls, tracked') ->
  (~ Spec.acceptable newURL request ->
   calls = [] /\ tracked' = tracked /\
   exists e, response = Background.Failure e) /\
  (forall s f u,
     Spec.text (Background.url request) s ->
     Spec.text (Background.filename request) f ->
     newURL s = Ok u ->
     (~ Spec.host_allowed (Background.hostname u) ->
      response
      = Background.Failure
          ($"Domain not allowed: " ++ Background.hostname u) /\
      calls = []) /\
     (Spec.host_allowed (Background.hostname u) ->
      Background.protocol u <> $"https:" ->
      response = Background.Failure ($"Only HTTPS URLs are allowed") /\
      calls = []) /\
     (Background.hostname u = $"evil.com" -> calls = [])) /\
  (forall s f e,
     Spec.text (Background.url request) s ->
     Spec.text (Background.filename request) f ->
     newURL s = Throw e ->
     response = Background.Failure ($"Malformed URL") /\ calls = []).
Proof.
  intros H. split; [|split].
  - intros Hn.
    destruct (Background.validateDownloadRequest newURL request) as [|e]
      eqn:Hv.
    + exfalso. apply Hn. eapply (@validate_valid newURL), Hv.
    + rewrite (@handle_invalid newURL downloads_download now request tracked _ Hv) in H.
      injection H as <- <- <-. eauto.
  - intros s f u Hs Hf Hparse.
    assert (Hv : forall e,
               Background.validateDownloadRequest newURL request
               = Background.Invalid e ->
               response = Background.Failure e /\ calls = []).
    { intros e Hv. rewrite (@handle_invalid newURL downloads_download now request tracked _ Hv) in H.
      injection H as <- <- <-. auto. }
    pose proof (not_a_string_text Hs) as Hus.
    pose proof (not_a_string_text Hf) as Hfs.
    destruct Hs as [Hs _].
    assert (Hdom : Background.isAllowedDomain (Background.hostname u) = false
                   -> response
                      = Background.Failure
                          ($"Domain not allowed: " ++ Background.hostname u)
                      /\ calls = []).
    { intros Hd. apply Hv. unfold Background.validateDownloadRequest.
      rewrite Hus, Hfs, Hs. cbn [Background.string_of].
      rewrite Hparse, Hd. reflexivity. }
    split; [|split].
    + intros Hhost. apply Hdom.
      destruct (Background.isAllowedDomain (Background.hostname u)) eqn:Hd;
        [|reflexivity].
      exfalso. apply Hhost, isAllowedDomain_spec, Hd.
    + intros Hhost Hproto. apply Hv.
      unfold Background.validateDownloadRequest.
      rewrite Hus, Hfs, Hs. cbn [Background.string_of].
      rewrite Hparse. apply isAllowedDomain_spec in Hhost.
      rewrite Hhost. cbn [negb].
      destruct (str_eqb (Background.protocol u) ($"https:")) eqn:Hp;
        [|reflexivity].
      exfalso. apply Hproto, str_eqb_eq, Hp.
    + intros Hevil. apply Hdom. rewrite Hevil. reflexivity.
  - intros s f e Hs Hf Hparse.
    pose proof (not_a_string_text Hs) as Hus.
    pose proof (not_a_string_text Hf) as Hfs.
    destruct Hs as [Hs _].
    assert (Hv : Background.validateDownloadRequest newURL request
                 = Background.Invalid ($"Malformed URL")).
    { unfold Background.validateDownloadRequest.
      rewrite Hus, Hfs, Hs. cbn [Background.string_of].
      rewrite Hparse. reflexivity. }
    rewrite (@handle_invalid newURL downloads_download now request tracked _ Hv) in H.
    injection H as <- <- <-. auto.
Qed.

Lemma download_is_validated_witness :
  fst (fst (Background.handleDownloadRequest Example.newURL
              Example.download_ok 0 Example.evil_request []))
  = Background.Failure
      ($"Domain not allowed: "
       ++ Background.hostname
            {| Background.protocol := $"https:";
               Background.hostname := $"evil.com" |}) /\
  snd (fst (Background.handleDownloadRequest Example.newURL
              Example.download_ok 0 Example.evil_request [])) = [].
Proof.
  refine (proj1 (proj1 (proj2
    (@download_is_validated Example.newURL Example.download_ok 0
       Example.evil_request [] _ _ _ eq_refl))
    ($"https://evil.com/x.vsix") ($"x.vsix")
    {| Background.protocol := $"https:"; Background.hostname := $"evil.com" |}
    _ _ eq_refl) _).
  - split; [reflexivity | discriminate].
  - split; [reflexivity | discriminate].
  - intros H. apply isAllowedDomain_spec in H. discriminate H.
Defined.

(** The request for [evil.com], run. *)
Example evil_rejected :
  Background.handleDownloadRequest Example.newURL Example.download_ok 0
    Example.evil_request []
  = (Background.Failure ($"Domain not allowed: evil.com"), [], []).
Proof. reflexivity. Qed.

(** A request of the content script, run: the capability is called once,
    and the download is tracked. *)
Example vsix_request_served :
  Background.handleDownloadRequest Example.newURL Example.download_ok 7
    (Example.request_of Example.vsix_message) []
  = (Background.Success 1,
     [ {| Background.options_url := Content.url Example.vsix_message;
          Background.options_filename := $"ms-python.python-2024.0.0.vsix";
          Background.saveAs := false;
          Background.conflictAction := $"uniquify" |} ],
     [ (1%N,
        {| Background.tracked_url := Content.url Example.vsix_message;
           Background.tracked_filename := $"ms-python.python-2024.0.0.vsix";
           Background.startTime := 7;
           Background.status := $"in_progress" |}) ]).
Proof. reflexivity. Qed.

(** An allowed host over plain HTTP is refused by the protocol check. *)
Example http_rejected :
  Background.handleDownloadRequest Example.newURL Example.download_ok 0
    {| Background.url :=
         VString ($"http://marketplace.visualstudio.com/x.vsix");
       Background.filename := VString ($"x.vsix") |} []
  = (Background.Failure ($"Only HTTPS URLs are allowed"), [], []).
Proof. reflexivity. Qed.

(** C6 as stated fails on the kind of the error: a request whose URL does
    not parse is rejected, with no call of the capability, but with the
    malformed-URL error, which is neither the domain error nor the
    protocol error. *)
Lemma malformed_url_error :
  Example.newURL ($"not a url") = Throw TypeError /\
  Background.handleDownloadRequest Example.newURL Example.download_ok 0
    Example.malformed_request []
  = (Background.Failure ($"Malformed URL"), [], []) /\
  ~ Spec.domain_error ($"Malformed URL") /\
  ~ Spec.protocol_error ($"Malformed URL").
Proof.
  split; [reflexivity|]. split; [reflexivity|]. split.
  - intros [host H]. discriminate H.
  - intros H. discriminate H.
Qed.

(** ** The sanitizer of file names *)

(** C7 fails on the code, by a slip of the code.  The sanitizer replaces
    every [..] and only then appends the extension [.vsix], or puts the
    extension back after the truncation.  For the input [a.] it returns
    [a..vsix], which holds [..].  The same happens on a name the content
    script can send: for a publisher of 194 letters, the name [ext] and
    version 1.0.0 the cut falls right after the dot of the identifier, and
    the result ends in [a..vsix]. *)
Theorem sanitizeFilename_dotdot :
  Background.sanitizeFilename ($"a.") = $"a..vsix" /\
  Spec.has_dotdot (Background.sanitizeFilename ($"a.")) = true /\
  Content.filename_of
    (Content.downloadFile (repeat (code "a") 194) ($"ext") ($"1.0.0")
       ($"vsix"))
  = repeat (code "a") 194 ++ $".ext-1.0.0.vsix" /\
  Background.sanitizeFilename (repeat (code "a") 194 ++ $".ext-1.0.0.vsix")
  = repeat (code "a") 194 ++ $"..vsix" /\
  Spec.has_dotdot
    (Background.sanitizeFilename
       (repeat (code "a") 194 ++ $".ext-1.0.0.vsix")) = true.
Proof. repeat split; vm_compute; reflexivity. Qed.

(** The other parts of C7 do hold of every input. *)

Section Sanitizer.

Import Background.

Variable P : code_unit -> Prop.
Hypothesis P_underscore : P underscore.

Lemma replace_dotdot_Forall (n : nat) :
  forall s, (List.length s <= n)%nat ->
  Forall P s -> Forall P (replace_dotdot s).
Proof.
  induction n as [|n IH]; intros [|a [|b r]] Hlen Hs; cbn in Hlen;
    try lia; try exact Hs.
  inversion Hs as [|? ? Ha Ht]; subst.
  inversion Ht as [|? ? Hb Hr]; subst.
  change (Forall P (if N.eqb a (code ".") && N.eqb b (code ".")
                    then underscore :: replace_dotdot r
                    else a :: replace_dotdot (b :: r))).
  destruct (N.eqb a (code ".") && N.eqb b (code ".")).
  - constructor; [exact P_underscore|]. apply IH; [lia | exact Hr].
  - constructor; [exact Ha|]. apply IH; [cbn; lia | exact Ht].
Qed.

Lemma replace_leading_dot_Forall (s : jsstring) :
  Forall P s -> Forall P (replace_leading_dot s).
Proof.
  destruct s as [|c r]; unfold replace_leading_dot; auto. intros H.
  inversion H; subst.
  destruct (N.eqb c (code ".")); [constructor|]; assumption.
Qed.

Lemma replace_spaces_Forall (s : jsstring) :
  forall in_run, Forall P s -> Forall P (replace_spaces in_run s).
Proof.
  induction s as [|c r IH]; intros in_run H; cbn [replace_spaces]; auto.
  inversion H; subst.
  destruct (is_space c); [destruct in_run|]; try constructor; auto.
Qed.

Lemma drop_space_Forall (s : jsstring) :
  Forall P s -> Forall P (drop_space s).
Proof.
  induction s as [|c r IH]; cbn [drop_space]; auto. intros H.
  destruct (is_space c); [|exact H]. inversion H; subst; auto.
Qed.

Lemma trim_Forall (s : jsstring) : Forall P s -> Forall P (trim s).
Proof.
  intros H. unfold trim.
  apply Forall_rev, drop_space_Forall, Forall_rev, drop_space_Forall, H.
Qed.

Lemma firstn_Forall (n : nat) (s : jsstring) :
  Forall P s -> Forall P (firstn n s).
Proof.
  intros H. rewrite <- (firstn_skipn n s) in H.
  apply Forall_app in H. tauto.
Qed.

Lemma skipn_Forall (n : nat) (s : jsstring) :
  Forall P s -> Forall P (skipn n s).
Proof.
  intros H. rewrite <- (firstn_skipn n s) in H.
  apply Forall_app in H. tauto.
Qed.

Hypothesis P_extension : Forall P ($".vsix").

(** What holds of every character once the white space is replaced holds
    of every character of the result. *)
Lemma sanitizeFilename_Forall (s : jsstring) :
  Forall P (replace_spaces false
              (replace_leading_dot (replace_dotdot (replace_forbidden s)))) ->
  Forall P (sanitizeFilename s).
Proof.
  intros H. unfold sanitizeFilename.
  set (t := trim _).
  assert (Ht : Forall P t) by (apply trim_Forall, H).
  match goal with
  | |- context [if ?b then t ++ ?e else t] =>
      set (u := if b then t ++ e else t)
  end.
  assert (Hu : Forall P u).
  { subst u.
    match goal with |- context [if ?b then _ else _] => destruct b end;
      [|exact Ht].
    apply Forall_app. split; [exact Ht | exact P_extension]. }
  destruct (Nat.ltb 200 (List.length u)); [|exact Hu].
  apply Forall_app. split.
  - apply firstn_Forall, Hu.
  - destruct (lastIndexOf (code ".") u); [apply skipn_Forall|]; exact Hu.
Qed.

End Sanitizer.

Lemma replace_forbidden_clean (s : jsstring) :
  Forall (fun c => Background.is_forbidden c = false)
    (Background.replace_forbidden s).
Proof.
  unfold Background.replace_forbidden. apply Forall_map.
  induction s as [|c r IH]; constructor; [|exact IH].
  destruct (Background.is_forbidden c) eqn:H; [reflexivity | exact H].
Qed.

Lemma replace_spaces_clean (s : jsstring) :
  forall in_run,
  Forall (fun c => is_space c = false) (Background.replace_spaces in_run s).
Proof.
  induction s as [|c r IH]; intros in_run;
    cbn [Background.replace_spaces]; [constructor|].
  destruct (is_space c) eqn:Hc; [destruct in_run|]; auto;
    constructor; auto.
Qed.

(** No character that Windows forbids in a file name is left. *)
Lemma sanitizeFilename_no_forbidden (s : jsstring) :
  Forall (fun c => Background.is_forbidden c = false)
    (Background.sanitizeFilename s).
Proof.
  apply sanitizeFilename_Forall; [repeat constructor|].
  apply replace_spaces_Forall; [reflexivity|].
  apply replace_leading_dot_Forall; [reflexivity|].
  apply (@replace_dotdot_Forall
           (fun c => Background.is_forbidden c = false) eq_refl
           (List.length (Background.replace_forbidden s)));
    [lia | apply replace_forbidden_clean].
Qed.

(** No white space is left. *)
Lemma sanitizeFilename_no_space (s : jsstring) :
  Forall (fun c => is_space c = false) (Background.sanitizeFilename s).
Proof.
  apply sanitizeFilename_Forall;
    [repeat constructor | apply replace_spaces_clean].
Qed.

Lemma lastIndexOf_absent (c : code_unit) (s : jsstring) :
  ~ In c s -> lastIndexOf c s = None.
Proof.
  induction s as [|x r IH]; cbn; [reflexivity|].
  intros H. rewrite IH by tauto.
  destruct (N.eqb_spec x c); [subst; tauto | reflexivity].
Qed.

Lemma lastIndexOf_last (c : code_unit) (prefix suffix : jsstring) :
  ~ In c suffix ->
  lastIndexOf c (prefix ++ c :: suffix) = Some (List.length prefix).
Proof.
  intros H. induction prefix as [|x r IH]; cbn.
  - rewrite (lastIndexOf_absent _ _ H), N.eqb_refl. reflexivity.
  - rewrite IH. reflexivity.
Qed.

(** The truncation keeps the extension, and cuts to 200 characters. *)
Lemma truncation (prefix tail : jsstring) :
  ~ In (code ".") tail -> (List.length tail < 200)%nat ->
  let u := prefix ++ code "." :: tail in
  let ext :=
    match lastIndexOf (code ".") u with
    | Some i => substring_from i u
    | None => u
    end in
  (200 < List.length u)%nat ->
  exists prefix',
    substring 0 (200 - List.length ext) u ++ ext = prefix' ++ code "." :: tail /\
    List.length (substring 0 (200 - List.length ext) u ++ ext) = 200%nat.
Proof.
  intros Hdot Htail u ext Hlen. subst ext u.
  rewrite (@lastIndexOf_last (code ".") prefix tail Hdot).
  unfold substring_from, substring.
  rewrite skipn_app, skipn_all, Nat.sub_diag. cbn [skipn app].
  rewrite Nat.sub_0_r. eexists. split; [reflexivity|].
  rewrite length_app, length_firstn, length_app in *. cbn [List.length] in *.
  lia.
Qed.

(** The result ends in a valid extension and has at most 200
    characters. *)
Lemma sanitizeFilename_extension_length (s : jsstring) :
  (endsWith (Background.sanitizeFilename s) ($".vsix") = true \/
   endsWith (Background.sanitizeFilename s) ($".vsixpackage") = true) /\
  (List.length (Background.sanitizeFilename s) <= 200)%nat.
Proof.
  unfold Background.sanitizeFilename.
  set (t := trim _).
  match goal with
  | |- context [if ?b then t ++ ?e else t] =>
      set (u := if b then t ++ e else t)
  end.
  assert (Hu : (exists p, u = p ++ code "." :: $"vsix") \/
               (exists p, u = p ++ code "." :: $"vsixpackage")).
  { subst u.
    destruct (endsWith t ($".vsix")) eqn:E1; cbn [negb andb].
    - left. apply endsWith_spec in E1. exact E1.
    - destruct (endsWith t ($".vsixpackage")) eqn:E2; cbn [negb].
      + right. apply endsWith_spec in E2. exact E2.
      + left. exists t. reflexivity. }
  destruct (Nat.ltb 200 (List.length u)) eqn:Hlen.
  - apply Nat.ltb_lt in Hlen.
    destruct Hu as [[p Hp]|[p Hp]]; rewrite Hp in *.
    + destruct (@truncation p ($"vsix")) as (p' & E & L);
        [cbv; intuition discriminate | cbn; lia | exact Hlen |].
      rewrite L. split; [|lia]. left. apply endsWith_spec.
      exists p'. exact E.
    + destruct (@truncation p ($"vsixpackage")) as (p' & E & L);
        [cbv; intuition discriminate | cbn; lia | exact Hlen |].
      rewrite L. split; [|lia]. right. apply endsWith_spec.
      exists p'. exact E.
  - apply Nat.ltb_ge in Hlen. split; [|exact Hlen].
    destruct Hu as [Hp|Hp]; [left | right]; apply endsWith_spec; exact Hp.
Qed.

(** The empty name comes back as [.vsix], with a leading dot. *)
Example sanitizeFilename_empty :
  Background.sanitizeFilename [] = $".vsix".
Proof. reflexivity. Qed.

(** The instance the specification names is sanitized as it says. *)
Example sanitizeFilename_evil :
  Background.sanitizeFilename ($"../../evil:name?.vsix")
  = $"_/_/evil_name_.vsix" /\
  Spec.has_dotdot (Background.sanitizeFilename ($"../../evil:name?.vsix"))
  = false /\
  existsb Background.is_forbidden
    (Background.sanitizeFilename ($"../../evil:name?.vsix")) = false /\
  endsWith (Background.sanitizeFilename ($"../../evil:name?.vsix"))
    ($".vsix") = true.
Proof. repeat split; reflexivity. Qed.

(* ===================================================================== *)
(** * Further properties of the code *)
(* ===================================================================== *)

(** ** Sanitized text *)

Lemma drop_space_snoc (l : jsstring) (x : code_unit) :
  is_space x = false -> drop_space (l ++ [x]) = drop_space l ++ [x].
Proof.
  intros Hx. induction l as [|c r IH]; cbn [app drop_space].
  - rewrite Hx. reflexivity.
  - destruct (is_space c); [exact IH | reflexivity].
Qed.

Lemma drop_space_head (s : jsstring) (c : code_unit) (r : jsstring) :
  drop_space s = c :: r -> is_space c = false.
Proof.
  induction s as [|x t IH]; cbn [drop_space]; [discriminate|].
  destruct (is_space x) eqn:Hx; [exact IH|].
  intros [= <- _]. exact Hx.
Qed.

Lemma last_snoc (l : jsstring) (x d : code_unit) : last (l ++ [x]) d = x.
Proof. apply last_last. Qed.

(** What [trim] returns has no white space at either end. *)
Lemma trim_trimmed (s : jsstring) : Strings.trimmed (trim s) = true.
Proof.
  unfold trim.
  destruct (drop_space s) as [|c t] eqn:Hd; [reflexivity|].
  pose proof (drop_space_head _ Hd) as Hc.
  cbn [rev]. rewrite (@drop_space_snoc (rev t) c Hc), rev_app_distr.
  cbn [rev app].
  unfold Strings.trimmed. rewrite Hc. cbn [negb andb].
  destruct (drop_space (rev t)) as [|y u] eqn:Hu.
  - cbn. rewrite Hc. reflexivity.
  - pose proof (drop_space_head _ Hu) as Hy.
    cbn [rev]. rewrite app_comm_cons, last_snoc, Hy. reflexivity.
Qed.

(** [trim] leaves such a string as it is. *)
Lemma trim_of_trimmed (s : jsstring) : Strings.trimmed s = true -> trim s = s.
Proof.
  unfold Strings.trimmed, trim. destruct s as [|c r]; [reflexivity|].
  intros H. apply andb_true_iff in H. destruct H as [Hc Hl].
  apply negb_true_iff in Hc, Hl.
  cbn [drop_space]. rewrite Hc.
  destruct (rev (c :: r)) as [|y u] eqn:Hr.
  - apply (f_equal (@rev _)) in Hr. rewrite rev_involutive in Hr.
    discriminate.
  - assert (Hy : y = last (c :: r) 0%N).
    { apply (f_equal (@rev _)) in Hr. rewrite rev_involutive in Hr.
      rewrite Hr. cbn [rev]. rewrite last_snoc. reflexivity. }
    cbn [drop_space]. rewrite Hy, Hl, <- Hy, <- Hr.
    apply rev_involutive.
Qed.

(** X1.  The text [sanitizeText] returns holds none of the five markup
    characters and has no white space at either end, and sanitizing it
    again changes nothing. *)
Theorem sanitizeText_clean (s : jsstring) :
  Forall (fun c => Content.is_markup c = false) (Content.sanitizeText s) /\
  Strings.trimmed (Content.sanitizeText s) = true /\
  Content.sanitizeText (Content.sanitizeText s) = Content.sanitizeText s.
Proof.
  assert (Hm : Forall (fun c => Content.is_markup c = false)
                 (Content.sanitizeText s)).
  { unfold Content.sanitizeText. apply trim_Forall.
    apply Forall_forall. intros x Hx. apply filter_In in Hx.
    destruct Hx as [_ Hx]. apply negb_true_iff in Hx. exact Hx. }
  split; [exact Hm|]. split; [apply trim_trimmed|].
  unfold Content.sanitizeText at 1.
  rewrite forallb_filter_id.
  - apply trim_of_trimmed, trim_trimmed.
  - apply forallb_forall. intros x Hx.
    rewrite Forall_forall in Hm. rewrite (Hm x Hx). reflexivity.
Qed.

(** ** The version patterns *)

(** X2.  [isValidVersion] accepts exactly the strings that begin with three
    numbers separated by dots; what follows them is ignored, so a valid
    version stays valid with any qualifier appended, and a string with
    fewer than two dots is never valid. *)
Theorem isValidVersion_prefix (v : jsstring) :
  (Content.isValidVersion v = true <-> Spec.version_shaped v) /\
  (forall rest,
     Content.isValidVersion v = true ->
     Content.isValidVersion (v ++ rest) = true) /\
  (Content.isValidVersion v = true ->
   (2 <= count_occ N.eq_dec v (code "."))%nat).
Proof.
  split; [apply isValidVersion_shaped|]. split.
  - intros rest H. apply isValidVersion_shaped in H.
    apply isValidVersion_shaped.
    destruct H as (a & b & c & r & Na & Nb & Nc & ->).
    exists a, b, c, (r ++ rest). repeat (split; [assumption|]).
    app_norm. reflexivity.
  - intros H. apply isValidVersion_shaped in H.
    destruct H as (a & b & c & r & _ & _ & _ & ->).
    rewrite !count_occ_app. cbn [count_occ].
    destruct (N.eq_dec (code ".") (code ".")); [lia | contradiction].
Qed.

Lemma isValidVersion_prefix_witness :
  Content.isValidVersion ($"1.2.3" ++ $"-beta.1") = true.
Proof.
  apply (proj1 (proj2 (isValidVersion_prefix ($"1.2.3")))). reflexivity.
Defined.

Lemma number_last_digit (a : jsstring) :
  Spec.number a -> is_digit (last a 0%N) = true.
Proof.
  intros [Hne Ha]. induction Ha as [|c r Hc Hr IH]; [contradiction|].
  destruct r as [|c' r']; [exact Hc|].
  change (last (c :: c' :: r') 0%N) with (last (c' :: r') 0%N).
  apply IH. discriminate.
Qed.

Lemma last_app_number (l a : jsstring) :
  Spec.number a -> is_word (last (l ++ a) 0%N) = true.
Proof.
  intros Ha. pose proof (number_last_digit Ha) as Hd.
  destruct Ha as [Hne _].
  destruct (exists_last Hne) as (a' & x & ->).
  rewrite app_assoc, !last_snoc in *.
  unfold is_word. rewrite Hd. reflexivity.
Qed.

Lemma number_head_digit (a rest : jsstring) :
  Spec.number a -> Content.is_word_opt (hd_error (a ++ rest)) = true.
Proof.
  intros [Hne Ha]. destruct a as [|c a']; [contradiction|].
  inversion Ha as [|? ? Hc _]; subst. cbn. unfold is_word. rewrite Hc.
  reflexivity.
Qed.

(** What the version pattern matches at one position. *)
Lemma match_version_at_shape (prev : option code_unit) (s v : jsstring) :
  Content.match_version_at prev s = Some v ->
  exists post a b c,
    Spec.number a /\ Spec.number b /\ Spec.number c /\
    s = v ++ post /\
    (v = a ++ [code "."] ++ b ++ [code "."] ++ c \/
     exists d, Spec.number d /\
       v = a ++ [code "."] ++ b ++ [code "."] ++ c ++ [code "."] ++ d) /\
    Content.is_word_opt prev = false /\
    Content.is_word_opt (hd_error post) = false.
Proof.
  unfold Content.match_version_at.
  destruct (Content.word_boundary prev (hd_error s)) eqn:Hb0;
    cbn [negb]; [|discriminate].
  destruct (Content.three_numbers s) as [[m r]|] eqn:H3; [|discriminate].
  apply three_numbers_shape in H3.
  destruct H3 as (a & b & c & Na & Nb & Nc & Hm & Hs).
  assert (Hprev : Content.is_word_opt prev = false).
  { rewrite Hs, Hm in Hb0. unfold Content.word_boundary in Hb0.
    rewrite <- app_assoc, (number_head_digit _ Na) in Hb0.
    destruct (Content.is_word_opt prev); [discriminate | reflexivity]. }
  assert (Hlast : is_word (last m 0%N) = true).
  { rewrite Hm.
    replace (a ++ [code "."] ++ b ++ [code "."] ++ c)
      with ((a ++ [code "."] ++ b ++ [code "."]) ++ c)
      by (app_norm; reflexivity).
    apply last_app_number, Nc. }
  assert (Three : Content.word_boundary (Some (last m 0%N)) (hd_error r) = true ->
                  exists post a b c,
                    Spec.number a /\ Spec.number b /\ Spec.number c /\
                    s = m ++ post /\
                    (m = a ++ [code "."] ++ b ++ [code "."] ++ c \/
                     exists d, Spec.number d /\
                       m = a ++ [code "."] ++ b ++ [code "."] ++ c
                           ++ [code "."] ++ d) /\
                    Content.is_word_opt prev = false /\
                    Content.is_word_opt (hd_error post) = false).
  { intros Hb. exists r, a, b, c. repeat (split; [assumption|]).
    split; [left; exact Hm|]. split; [exact Hprev|].
    unfold Content.word_boundary in Hb. cbn [Content.is_word_opt] in Hb.
    rewrite Hlast in Hb.
    destruct (Content.is_word_opt (hd_error r)); [discriminate | reflexivity]. }
  cbv zeta.
  destruct (Content.expect (code ".") r) as [r'|] eqn:He.
  - destruct (Content.digits1 r') as [[d r'']|] eqn:Hd.
    + destruct (Content.word_boundary (Some (last d 0%N)) (hd_error r''))
        eqn:Hb2.
      * intros [= <-]. apply expect_cons in He. apply digits1_number in Hd.
        destruct Hd as [Nd Hr']. exists r'', a, b, c.
        repeat (split; [assumption|]).
        split; [rewrite Hs, He, Hr'; app_norm; reflexivity|].
        split; [right; exists d; split; [exact Nd|];
                rewrite Hm; app_norm; reflexivity|].
        split; [exact Hprev|].
        unfold Content.word_boundary in Hb2. cbn [Content.is_word_opt] in Hb2.
        pose proof (number_last_digit Nd) as Hld.
        unfold is_word in Hb2. rewrite Hld in Hb2. cbn [orb xorb] in Hb2.
        destruct (Content.is_word_opt (hd_error r''));
          [discriminate | reflexivity].
      * destruct (Content.word_boundary (Some (last m 0%N)) (hd_error r))
          eqn:Hb; [|discriminate].
        intros [= <-]. apply Three. reflexivity.
    + destruct (Content.word_boundary (Some (last m 0%N)) (hd_error r))
        eqn:Hb; [|discriminate].
      intros [= <-]. apply Three. reflexivity.
  - destruct (Content.word_boundary (Some (last m 0%N)) (hd_error r))
      eqn:Hb; [|discriminate].
    intros [= <-]. apply Three. reflexivity.
Qed.

Lemma search_version_shape (s : jsstring) :
  forall prev v,
  Content.search_version prev s = Some v ->
  exists pre post a b c,
    Spec.number a /\ Spec.number b /\ Spec.number c /\
    s = pre ++ v ++ post /\
    (v = a ++ [code "."] ++ b ++ [code "."] ++ c \/
     exists d, Spec.number d /\
       v = a ++ [code "."] ++ b ++ [code "."] ++ c ++ [code "."] ++ d) /\
    Content.is_word_opt
      (match Strings.last_of pre with Some x => Some x | None => prev end)
    = false /\
    Content.is_word_opt (hd_error post) = false.
Proof.
  induction s as [|x r IH]; intros prev v; cbn [Content.search_version];
    destruct (Content.match_version_at prev _) as [w|] eqn:Hm.
  - intros [= <-]. apply match_version_at_shape in Hm.
    destruct Hm as (post & a & b & c & Na & Nb & Nc & Hs & Hv & Hp & Hq).
    exists [], post, a, b, c. auto 10.
  - discriminate.
  - intros [= <-]. apply match_version_at_shape in Hm.
    destruct Hm as (post & a & b & c & Na & Nb & Nc & Hs & Hv & Hp & Hq).
    exists [], post, a, b, c. auto 10.
  - intros H. apply IH in H.
    destruct H as (pre & post & a & b & c & Na & Nb & Nc & Hs & Hv & Hp & Hq).
    exists (x :: pre), post, a, b, c.
    repeat (split; [assumption|]).
    split; [rewrite Hs; reflexivity|]. split; [exact Hv|].
    split; [|exact Hq].
    unfold Strings.last_of in *. cbn [rev].
    destruct (rev pre) as [|y u]; [exact Hp|]. exact Hp.
Qed.

(** X3.  The version the DOM strategy captures from a text is a piece of
    that text: three or four numbers separated by dots, with no word
    character right before or right after it; and it passes
    [isValidVersion]. *)
Theorem version_match_sound (text v : jsstring) :
  Content.version_match text = Some v ->
  Content.isValidVersion v = true /\
  exists pre post a b c,
    Spec.number a /\ Spec.number b /\ Spec.number c /\
    text = pre ++ v ++ post /\
    (v = a ++ [code "."] ++ b ++ [code "."] ++ c \/
     exists d, Spec.number d /\
       v = a ++ [code "."] ++ b ++ [code "."] ++ c ++ [code "."] ++ d) /\
    Content.is_word_opt (Strings.last_of pre) = false /\
    Content.is_word_opt (hd_error post) = false.
Proof.
  unfold Content.version_match. intros H.
  split; [eapply search_version_valid, H|].
  apply search_version_shape in H.
  destruct H as (pre & post & a & b & c & Na & Nb & Nc & Hs & Hv & Hp & Hq).
  exists pre, post, a, b, c. repeat (split; [assumption|]).
  split; [|exact Hq].
  destruct (Strings.last_of pre); [exact Hp | reflexivity].
Qed.

Lemma version_match_sound_witness :
  Content.isValidVersion ($"1.2.3") = true /\
  exists pre post a b c,
    Spec.number a /\ Spec.number b /\ Spec.number c /\
    $"Version 1.2.3.4a (preview)" = pre ++ $"1.2.3" ++ post /\
    ($"1.2.3" = a ++ [code "."] ++ b ++ [code "."] ++ c \/
     exists d, Spec.number d /\
       $"1.2.3" = a ++ [code "."] ++ b ++ [code "."] ++ c ++ [code "."] ++ d) /\
    Content.is_word_opt (Strings.last_of pre) = false /\
    Content.is_word_opt (hd_error post) = false.
Proof.
  apply (@version_match_sound ($"Version 1.2.3.4a (preview)") ($"1.2.3")).
  reflexivity.
Defined.

Lemma split_absent (c : code_unit) (s : jsstring) :
  ~ In c s -> split c s = [s].
Proof.
  induction s as [|x r IH]; cbn; [reflexivity|].
  intros H. destruct (N.eqb_spec x c) as [->|Hx]; [tauto|].
  rewrite IH by tauto. reflexivity.
Qed.

(** X4.  The URL strategy at its edges: when [itemName] is absent or
    empty the descriptor is left as it was; when it is non-empty and has
    no dot, only the identifier is assigned (the sanitized parameter) and
    publisher, name and version keep whatever they held. *)
Theorem extractFromURL_without_dot (page : Page)
  (d : Content.ExtensionData) :
  (get (search page) ($"itemName") = None \/
   get (search page) ($"itemName") = Some [] ->
   Content.extractFromURL page d = (Ok tt, d)) /\
  (forall itemName,
     get (search page) ($"itemName") = Some itemName ->
     itemName <> [] -> ~ In (code ".") itemName ->
     Content.extractFromURL page d
     = (Ok tt, Content.set_identifier (Content.sanitizeText itemName) d)).
Proof.
  split.
  - intros [H|H]; unfold Content.extractFromURL, Content.mtry; rewrite H;
      reflexivity.
  - intros itemName H Hne Hdot.
    unfold Content.extractFromURL, Content.mtry, Content.mbind,
      Content.modify, Content.ret.
    rewrite H. destruct itemName as [|c r]; [contradiction|].
    cbn [truthy negb]. rewrite (@split_absent _ _ Hdot). reflexivity.
Qed.

Lemma extractFromURL_without_dot_witness :
  Content.extractFromURL (Example.item_page ($"python")) Example.nameless
  = (Ok tt,
     {| Content.version := $"1.0.0"; Content.publisher := $"p";
        Content.identifier := $"python"; Content.name := [] |}).
Proof.
  apply (proj2 (extractFromURL_without_dot (Example.item_page ($"python"))
                  Example.nameless) ($"python")).
  - reflexivity.
  - discriminate.
  - vm_compute. intros H. repeat (destruct H as [H|H]; [discriminate|]).
    exact H.
Defined.

Section Settling.

Import Content Summary.

Lemma settles_none (m : M bool) :
  (forall d, m d = (Ok false, d)) -> settles m.
Proof.
  intros H. exists None. split; [exact H | discriminate].
Qed.

Lemma settles_some (m : M bool) (v : jsstring) :
  isValidVersion v = true ->
  (forall d, m d = (Ok true, set_version v d)) -> settles m.
Proof.
  intros Hv H. exists (Some v). split; [exact H|].
  intros ? [= <-]. exact Hv.
Qed.

(** A loop step: [if (first) return true; else rest]. *)
Lemma settles_or_else (first rest : M bool) :
  settles first -> settles rest ->
  settles (mbind first (fun returned : bool =>
                          if returned then ret true else rest)).
Proof.
  intros ([v|] & Hf & Hv) Hr.
  - exists (Some v). split; [|exact Hv].
    intros d. unfold mbind. rewrite (Hf d). reflexivity.
  - destruct Hr as (ov & Hr & Hv'). exists ov. split; [|exact Hv'].
    intros d. unfold mbind. rewrite (Hf d). apply Hr.
Qed.

Lemma accept_version_settles (v : value) : settles (accept_version v).
Proof.
  unfold accept_version.
  destruct v; try (apply settles_none; reflexivity).
  destruct (truthy s && isValidVersion s) eqn:H;
    [|apply settles_none; reflexivity].
  apply andb_true_iff in H. destruct H as [_ H].
  eapply settles_some; [exact H | reflexivity].
Qed.

Lemma settles_mtry (m : M bool) :
  settles m -> settles (mtry m (fun _ => ret false)).
Proof.
  intros (ov & Hm & Hv). exists ov. split; [|exact Hv].
  intros d. unfold mtry. rewrite (Hm d). reflexivity.
Qed.

Lemma script_settles (parsed : result value) :
  settles (mtry (mbind (lift parsed) (fun data =>
                   mbind (lift (structured_version data)) (fun v =>
                     accept_version v)))
                (fun _ => ret false)).
Proof.
  destruct parsed as [data|e]; [|apply settles_none; reflexivity].
  destruct (structured_version data) as [v|e] eqn:Hs.
  - destruct (accept_version_settles v) as (ov & Hm & Hv).
    exists ov. split; [|exact Hv].
    intros d. unfold mtry, mbind, lift. rewrite Hs, (Hm d). reflexivity.
  - apply settles_none. intros d. unfold mtry, mbind, lift. rewrite Hs.
    reflexivity.
Qed.

Lemma scan_scripts_settles (scripts : list (result value)) :
  settles (scan_scripts scripts).
Proof.
  induction scripts as [|parsed rest IH]; cbn [scan_scripts].
  - apply settles_none. reflexivity.
  - apply settles_or_else; [apply script_settles | exact IH].
Qed.

Lemma found_settles (found : option jsstring) :
  (forall v, found = Some v -> isValidVersion v = true) ->
  settles (match found with
           | Some v => mbind (modify (set_version v)) (fun _ => ret true)
           | None => ret false
           end).
Proof.
  intros H. destruct found as [v|].
  - eapply settles_some; [exact (H v eq_refl) | reflexivity].
  - apply settles_none. reflexivity.
Qed.

Lemma scan_selectors_settles (page : Page) (selectors : list jsstring) :
  settles (scan_selectors page selectors).
Proof.
  induction selectors as [|selector rest IH]; cbn [scan_selectors].
  - apply settles_none. reflexivity.
  - apply settles_or_else; [|exact IH].
    apply settles_mtry, found_settles.
    intros v. apply first_version_valid.
Qed.

Lemma extractVersionFromDOM_settles (page : Page) :
  settles (extractVersionFromDOM page).
Proof.
  apply settles_or_else; [apply scan_selectors_settles|].
  apply found_settles. intros v. apply first_labelled_version_valid.
Qed.

Lemma extractVersionFromPageData_settles (page : Page) :
  settles (extractVersionFromPageData page).
Proof.
  unfold extractVersionFromPageData.
  destruct (value_truthy (initial_state page));
    [|apply settles_none; reflexivity].
  destruct (state_version (initial_state page)) as [v|e] eqn:Hs.
  - destruct (accept_version_settles v) as (ov & Hm & Hv).
    exists ov. split; [|exact Hv].
    intros d. unfold mtry, mbind, lift. rewrite (Hm d). reflexivity.
  - apply settles_none. reflexivity.
Qed.

Lemma extractVersion_settles (page : Page) :
  exists ov : option jsstring,
    (forall v, ov = Some v -> isValidVersion v = true) /\
    forall d,
      extractVersion page d
      = (Ok tt, match ov with Some v => set_version v d | None => d end).
Proof.
  assert (H : settles
    (mbind (extractVersionFromStructuredData page) (fun returned : bool =>
       if returned then ret true else
       mbind (extractVersionFromDOM page) (fun returned : bool =>
         if returned then ret true else
           extractVersionFromPageData page)))).
  { apply settles_or_else;
      [apply settles_mtry, scan_scripts_settles|].
    apply settles_or_else;
      [apply extractVersionFromDOM_settles
      |apply extractVersionFromPageData_settles]. }
  destruct H as (ov & Hm & Hv). exists ov. split; [exact Hv|].
  intros d. specialize (Hm d). revert Hm.
  unfold extractVersion, mbind, ret.
  destruct (extractVersionFromStructuredData page d) as [[[|]|e] d1].
  - destruct ov; intros [= <-]; reflexivity || discriminate.
  - destruct (extractVersionFromDOM page d1) as [[[|]|e] d2].
    + destruct ov; intros [= <-]; reflexivity || discriminate.
    + destruct (extractVersionFromPageData page d2) as [[b|e] d3].
      * destruct ov; intros [= _ <-]; reflexivity.
      * discriminate.
    + discriminate.
  - discriminate.
Qed.

(** What [extractFromURL] does is a function of the page: it returns, and
    its effect on the descriptor is idempotent and independent of the
    version field. *)
Lemma extractFromURL_effect (page : Page) :
  exists f : ExtensionData -> ExtensionData,
    (forall d, extractFromURL page d = (Ok tt, f d)) /\
    (forall d, f (f d) = f d) /\
    (forall v d, f (set_version v d) = set_version v (f d)).
Proof.
  unfold extractFromURL, mtry, mbind, modify, ret.
  destruct (get (search page) ($"itemName")) as [itemName|].
  - destruct (negb (truthy itemName)).
    + exists (fun d => d). repeat split.
    + destruct (Nat.leb 2 (List.length (split (code ".") itemName))).
      * eexists (fun d => set_name _ (set_publisher _ (set_identifier _ d))).
        repeat split.
      * eexists (fun d => set_identifier _ d). repeat split.
  - exists (fun d => d). repeat split.
Qed.

End Settling.

(** X5.  Which version [extractVersion] stores is decided by the page
    alone: there is one optional version, valid whenever present, such that
    from every descriptor the call returns normally, having overwritten the
    version field with it, or, when there is none, having changed nothing.
    What the descriptor held before plays no part, and no other field is
    written. *)
Theorem extractVersion_depends_on_page (page : Page) :
  exists ov : option jsstring,
    (forall v, ov = Some v -> Content.isValidVersion v = true) /\
    forall d,
      Content.extractVersion page d
      = (Ok tt, match ov with
                | Some v => Content.set_version v d
                | None => d
                end).
Proof. apply extractVersion_settles. Qed.

(** X6.  Extraction is idempotent on an unchanged page: running
    [extractMetadata] again on the descriptor it produced returns the same
    descriptor, so a retry on a page that has not changed learns nothing
    new. *)
Theorem extractMetadata_idempotent (page : Page)
  (d : Content.ExtensionData) :
  Content.extractMetadata page (snd (Content.extractMetadata page d))
  = Content.extractMetadata page d.
Proof.
  destruct (extractFromURL_effect page) as (f & Hf & Hff & Hfv).
  destruct (extractVersion_settles page) as (ov & _ & Hv).
  assert (E : forall d0,
             Content.extractMetadata page d0
             = (Ok tt, match ov with
                       | Some v => Content.set_version v (f d0)
                       | None => f d0
                       end)).
  { intros d0. unfold Content.extractMetadata, Content.mbind, Content.ret.
    rewrite Hf, Hv. reflexivity. }
  rewrite !E. cbn [snd]. destruct ov as [v|].
  - rewrite Hfv, Hff. reflexivity.
  - rewrite Hff. reflexivity.
Qed.

(** ** Clicks *)

(** X7.  A click on a button sends a download message exactly when the
    descriptor has identifier, version, publisher and name all non-empty,
    the action is not [copy], and [downloadFile] returns for the
    descriptor's publisher, name and version; the message sent is the one
    [downloadFile] builds. *)
Theorem handleButtonClick_sends (d : Content.ExtensionData)
  (action : jsstring) (m : Content.Message) :
  Content.handleButtonClick d action = Ok (Content.MessageSent m) <->
  (truthy (Content.identifier d) = true /\
   truthy (Content.version d) = true /\
   truthy (Content.publisher d) = true /\
   truthy (Content.name d) = true) /\
  action <> $"copy" /\
  Content.downloadFile (Content.publisher d) (Content.name d)
    (Content.version d) action = Ok m.
Proof.
  unfold Content.handleButtonClick, Content.performAction,
    Content.hasValidData.
  destruct (truthy (Content.identifier d)), (truthy (Content.version d)),
    (truthy (Content.publisher d)), (truthy (Content.name d));
    cbn [andb orb negb];
    try (split; [discriminate | intros [(? & ? & ? & ?) _]; discriminate]).
  destruct (str_eqb action ($"copy")) eqn:Ha.
  - apply str_eqb_eq in Ha. split.
    + destruct (Content.copyUrls _ _ _); discriminate.
    + intros (_ & Hne & _). contradiction.
  - assert (Hne : action <> $"copy").
    { intros ->. rewrite str_eqb_refl in Ha. discriminate. }
    destruct (Content.downloadFile _ _ _ action) as [m'|e]; cbn [bind].
    + split.
      * intros [= <-]. auto.
      * intros (_ & _ & [= <-]). reflexivity.
    + split; [discriminate|]. intros (_ & _ & H). discriminate.
Qed.

(** X8.  The text [copyUrls] writes to the clipboard carries exactly the
    two URLs the resolver of [downloadFile] gives for the kinds [vsix] and
    [vsixpackage], under a heading that names the extension; [copyUrls]
    fails, before anything is written, exactly when the resolver throws. *)
Theorem copyUrls_resolves (publisher extension version : jsstring) :
  Content.copyUrls publisher extension version
  = (vsixUrl <- Content.resolveUrl publisher extension version ($"vsix") ;;
     packageUrl <- Content.resolveUrl publisher extension version
                     ($"vsixpackage") ;;
     Ok ($"VSIX Download URLs for " ++ publisher ++ $"." ++ extension
         ++ $" v" ++ version ++ Content.newline ++ Content.newline
         ++ $"VSIX URL:" ++ Content.newline ++ vsixUrl
         ++ Content.newline ++ Content.newline
         ++ $"VSIXPackage URL:" ++ Content.newline ++ packageUrl)).
Proof.
  unfold Content.copyUrls, Content.resolveUrl, Content.downloadFile.
  rewrite str_eqb_refl.
  replace (str_eqb ($"vsixpackage") ($"vsix")) with false by reflexivity.
  destruct (encodeURIComponent publisher) as [p|]; cbn [bind];
    [|reflexivity].
  destruct (encodeURIComponent extension) as [e|]; cbn [bind];
    [|reflexivity].
  destruct (encodeURIComponent version) as [v|]; cbn [bind];
    [|reflexivity].
  reflexivity.
Qed.

Lemma encodeURIComponent_unreserved (s : jsstring) :
  forallb uriUnescaped s = true -> encodeURIComponent s = Ok s.
Proof.
  induction s as [|c r IH]; cbn [forallb encodeURIComponent];
    [reflexivity|].
  intros H. apply andb_true_iff in H. destruct H as [Hc Hr].
  rewrite Hc, (IH Hr). reflexivity.
Qed.

(** X9.  For a publisher, a name and a version made of letters, digits
    and the marks [-_.!~*'()] only, nothing is escaped: [downloadFile]
    returns, and the URL it resolves is the template with the three values
    put in verbatim. *)
Theorem resolveUrl_unreserved (publisher extension version : jsstring) :
  forallb uriUnescaped publisher = true ->
  forallb uriUnescaped extension = true ->
  forallb uriUnescaped version = true ->
  Content.resolveUrl publisher extension version ($"vsix")
  = Ok (Spec.template_vsix publisher extension version) /\
  Content.resolveUrl publisher extension version ($"vsixpackage")
  = Ok (Spec.template_vsixpackage publisher extension version).
Proof.
  intros Hp He Hv.
  unfold Content.resolveUrl, Content.downloadFile.
  rewrite str_eqb_refl.
  replace (str_eqb ($"vsixpackage") ($"vsix")) with false by reflexivity.
  rewrite (encodeURIComponent_unreserved _ Hp),
    (encodeURIComponent_unreserved _ He),
    (encodeURIComponent_unreserved _ Hv).
  cbn [bind Content.url].
  rewrite template_vsix_literal, template_vsixpackage_literal.
  split; reflexivity.
Qed.

Lemma resolveUrl_unreserved_witness :
  Content.resolveUrl ($"ms-python") ($"python") ($"2024.0.0") ($"vsix")
  = Ok (Spec.template_vsix ($"ms-python") ($"python") ($"2024.0.0")) /\
  Content.resolveUrl ($"ms-python") ($"python") ($"2024.0.0")
    ($"vsixpackage")
  = Ok (Spec.template_vsixpackage ($"ms-python") ($"python")
          ($"2024.0.0")).
Proof.
  apply (@resolveUrl_unreserved ($"ms-python") ($"python") ($"2024.0.0"));
    reflexivity.
Defined.

(** ** The orchestrator on every page *)

Section Steps.

Import Content.

Lemma extractions_app (l : list event) (e : event) :
  extractions (l ++ [e])
  = (extractions l + match e with Extracted => 1 | _ => 0 end)%nat.
Proof.
  unfold extractions. rewrite filter_app, length_app.
  destruct e; reflexivity.
Qed.

Lemma delays_app (l : list event) (e : event) :
  delays (l ++ [e])
  = delays l ++ match e with TimerArmed ms => [ms] | _ => [] end.
Proof.
  induction l as [|x r IH]; cbn [app delays].
  - destruct e; reflexivity.
  - destruct x; cbn [app]; rewrite IH; reflexivity.
Qed.

Lemma doubling_S (k : nat) :
  Spec.doubling 1000 (S k) = Spec.doubling 1000 k ++ [backoff (S k)].
Proof.
  unfold Spec.doubling. rewrite seq_S, map_app. reflexivity.
Qed.

(** Injection leaves the retry counter and the trace alone. *)
Lemma injectDownloadButtons_quiet (page : Page) (st : State) :
  retryAttempts (injectDownloadButtons page st) = retryAttempts st /\
  log (injectDownloadButtons page st) = log st.
Proof.
  unfold injectDownloadButtons.
  destruct (isInjected st || container st); [split; reflexivity|].
  destruct (negb _); [split; reflexivity|].
  destruct (findInjectionTarget page); split; reflexivity.
Qed.

Lemma checkAutoInject_quiet (storage : result Settings) (page : Page)
  (st : State) :
  retryAttempts (checkAutoInject storage page st) = retryAttempts st /\
  extractions (log (checkAutoInject storage page st))
  = extractions (log st) /\
  delays (log (checkAutoInject storage page st)) = delays (log st).
Proof.
  unfold checkAutoInject.
  destruct (isInjected st); [repeat split|].
  destruct storage as [settings|e].
  - destruct (value_truthy (autoInject settings)); [|repeat split].
    destruct (injectDownloadButtons_quiet page st) as [-> ->].
    repeat split.
  - destruct (injectDownloadButtons_quiet page (emit ConsoleError st))
      as [-> ->].
    cbn [emit retryAttempts log].
    rewrite extractions_app, delays_app, Nat.add_0_r, app_nil_r.
    repeat split.
Qed.

Lemma setupDOMObserver_quiet (st : State) :
  retryAttempts (setupDOMObserver st) = retryAttempts st /\
  log (setupDOMObserver st) = log st.
Proof.
  unfold setupDOMObserver.
  destruct (observer st || negb _); split; reflexivity.
Qed.

(** One call of [startProcessing]: nothing while a cycle is active;
    otherwise one extraction, and either no timer, or, the budget
    allowing, the next timer of the schedule. *)
Lemma startProcessing_step (page : Page) (storage : result Settings)
  (st st' : State) (t : option N) :
  startProcessing page storage st = (st', t) ->
  (isProcessing st = true /\ st' = st /\ t = None) \/
  (isProcessing st = false /\
   extractions (log st') = S (extractions (log st)) /\
   ((t = None /\ retryAttempts st' = retryAttempts st /\
     delays (log st') = delays (log st)) \/
    ((retryAttempts st < maxRetries)%nat /\
     t = Some (backoff (S (retryAttempts st))) /\
     retryAttempts st' = S (retryAttempts st) /\
     delays (log st')
     = delays (log st) ++ [backoff (S (retryAttempts st))]))).
Proof.
  unfold startProcessing.
  destruct (isProcessing st) eqn:Hp.
  - intros [= <- <-]. left. auto.
  - intros H. right. split; [reflexivity|].
    destruct (extractMetadata_returns page (extensionData st)) as (d' & E).
    cbn [extensionData with_isProcessing] in *.
    rewrite E in *.
    cbn [extensionData with_data emit retryAttempts] in *.
    revert H.
    destruct (hasValidData d') eqn:Hv.
    + set (st1 := with_data d' (emit Extracted (with_isProcessing true st)))
        in *.
      destruct (checkAutoInject_quiet storage page st1) as (Hr & He & Hd).
      destruct (setupDOMObserver_quiet (checkAutoInject storage page st1))
        as (Hr' & Hl').
      destruct (Nat.leb maxRetries _ || hasValidData _);
        intros [= <- <-];
        cbn [with_isProcessing log retryAttempts];
        rewrite ?Hl', ?Hr', ?He, ?Hd, ?Hr; subst st1;
        cbn [with_data emit with_isProcessing log retryAttempts];
        rewrite extractions_app, delays_app, app_nil_r, Nat.add_1_r;
        auto.
    + cbn [extensionData with_retryAttempts emit retryAttempts
           with_isProcessing with_data observer isInjected container log].
      destruct (Nat.ltb (retryAttempts st) maxRetries) eqn:Hlt.
      * apply Nat.ltb_lt in Hlt.
        cbn [extensionData with_retryAttempts emit retryAttempts
             with_isProcessing with_data observer isInjected container log].
        destruct (Nat.leb maxRetries _ || hasValidData _);
          intros [= <- <-];
          cbn [with_isProcessing with_retryAttempts emit with_data log
               retryAttempts];
          rewrite extractions_app, extractions_app, !delays_app, app_nil_r,
            Nat.add_0_r, Nat.add_1_r;
          (split; [reflexivity|]); right; auto.
      * cbn [extensionData with_retryAttempts emit retryAttempts
             with_isProcessing with_data observer isInjected container log].
        destruct (Nat.leb maxRetries _ || hasValidData _);
          intros [= <- <-];
          cbn [with_isProcessing with_retryAttempts emit with_data log
               retryAttempts];
          rewrite extractions_app, delays_app, app_nil_r, Nat.add_1_r;
          auto.
Qed.

End Steps.

Section Schedule.

Import Content.

Variable pages : nat -> Page.
Variable storage : result Settings.

Lemma boot_on_schedule : Budget.on_schedule (boot pages storage).
Proof.
  unfold boot.
  destruct (startProcessing (pages 0%nat) storage initial) as [st t] eqn:E.
  apply startProcessing_step in E.
  destruct E as [(Hp & _)|(_ & He & [(-> & Hr & Hd)|(Hlt & -> & Hr & Hd)])];
    [discriminate| |];
    unfold Budget.on_schedule; cbn [state pending turn];
    rewrite Hr, Hd, He; cbn [initial retryAttempts log];
    repeat split; unfold maxRetries; lia.
Qed.

Lemma fire_on_schedule (c c' : Config) :
  Budget.on_schedule c -> fire pages storage c = Some c' ->
  Budget.on_schedule c' /\ turn c' = S (turn c).
Proof.
  intros (Hle & Hd & He & Hp). unfold fire.
  destruct (pending c) as [ms|]; [|discriminate].
  unfold retry.
  destruct (startProcessing _ _ _) as [st t] eqn:E.
  intros [= <-]. split; [|reflexivity].
  apply startProcessing_step in E.
  cbn [with_isProcessing isProcessing log retryAttempts] in E.
  destruct E as [(Hf & _)|(_ & He' & [(-> & Hr & Hd')|(Hlt & -> & Hr & Hd')])];
    [discriminate| |];
    unfold Budget.on_schedule; cbn [state pending turn];
    rewrite Hr, Hd', He'.
  - repeat split; auto; lia.
  - rewrite doubling_S, Hd. repeat split; auto; lia.
Qed.

Lemma run_on_schedule (fuel : nat) :
  forall c, Budget.on_schedule c ->
  Budget.on_schedule (run pages storage fuel c) /\
  (pending (run pages storage fuel c) = None \/
   turn (run pages storage fuel c) = (turn c + fuel)%nat).
Proof.
  induction fuel as [|n IH]; intros c Hc; cbn [run].
  - split; [exact Hc|]. right. lia.
  - destruct (fire pages storage c) as [c'|] eqn:Hf.
    + destruct (fire_on_schedule Hc Hf) as [Hc' Ht].
      destruct (IH c' Hc') as [Hs Hr]. split; [exact Hs|].
      destruct Hr as [Hr|Hr]; [left; exact Hr | right; lia].
    + split; [exact Hc|]. left.
      unfold fire in Hf. destruct (pending c); [|reflexivity].
      destruct (retry _ _ _); discriminate.
Qed.

End Schedule.

(** X10.  One page view, whatever the pages and the settings store: after
    the first run and at most five firings of the retry timer no timer is
    armed, so every longer run ends in the same state; at every moment the
    extractor has run at most six times, at most five timers were armed,
    and the timers armed are the first [retryAttempts] delays of the
    schedule 1000, 2000, 4000, 8000, 16000. *)
Theorem run_always_stops (pages : nat -> Page)
  (storage : result Content.Settings) :
  Content.pending (Content.run pages storage 5 (Content.boot pages storage))
  = None /\
  (forall fuel, (5 <= fuel)%nat ->
     Content.run pages storage fuel (Content.boot pages storage)
     = Content.run pages storage 5 (Content.boot pages storage)) /\
  (forall fuel,
     (Content.extractions
        (Content.log
           (Content.state
              (Content.run pages storage fuel
                 (Content.boot pages storage)))) <= 6)%nat /\
     (Content.retryAttempts
        (Content.state
           (Content.run pages storage fuel (Content.boot pages storage)))
      <= 5)%nat /\
     Content.delays
       (Content.log
          (Content.state
             (Content.run pages storage fuel (Content.boot pages storage))))
     = Spec.doubling 1000
         (Content.retryAttempts
            (Content.state
               (Content.run pages storage fuel
                  (Content.boot pages storage))))).
Proof.
  pose proof (boot_on_schedule pages storage) as Hb.
  assert (Hq : Content.pending
                 (Content.run pages storage 5 (Content.boot pages storage))
               = None).
  { destruct (@run_on_schedule pages storage 5 _ Hb) as [(Hle & _ & _ & Hp) [Hn|Ht]];
      [exact Hn|].
    destruct (Content.pending _); [|reflexivity].
    unfold Content.boot in Ht at 2.
    destruct (Content.startProcessing _ _ _) in Ht. cbn [Content.turn] in Ht.
    unfold Content.maxRetries in Hle. lia. }
  split; [exact Hq|]. split.
  - intros fuel Hfuel.
    replace fuel with (5 + (fuel - 5))%nat by lia.
    rewrite run_add. apply run_quiescent. exact Hq.
  - intros fuel.
    destruct (@run_on_schedule pages storage fuel _ Hb) as [(Hle & Hd & He & Hp) _].
    unfold Content.maxRetries in Hle.
    split; [|split; [exact Hle | exact Hd]].
    rewrite He. clear Hq. revert Hp.
    destruct (Content.pending _); lia.
Qed.

Section Calls.

Import Content Navigation.

Lemma startProcessing_within (page : Page) (storage : result Settings)
  (st : State) :
  Budget.within st -> Budget.within (fst (startProcessing page storage st)).
Proof.
  intros (Hle & older & Hd).
  destruct (startProcessing page storage st) as [st' t] eqn:E.
  apply startProcessing_step in E. cbn [fst].
  destruct E as [(_ & -> & _)|(_ & _ & [(_ & Hr & Hd')|(Hlt & _ & Hr & Hd')])].
  - split; [exact Hle | exists older; exact Hd].
  - unfold Budget.within. rewrite Hr, Hd'.
    split; [exact Hle | exists older; exact Hd].
  - unfold Budget.within. rewrite Hr, Hd', Hd, doubling_S.
    split; [lia | exists older; rewrite app_assoc; reflexivity].
Qed.

Lemma perform_within (st : State) (c : call) :
  Budget.within st -> Budget.within (perform st c).
Proof.
  intros H. destruct c as [page storage|page storage|page storage|href|];
    cbn [perform].
  - apply startProcessing_within, H.
  - unfold retry. apply startProcessing_within. exact H.
  - unfold mutationCallback. destruct (negb (container st)); [|exact H].
    destruct H as (Hle & older & Hd).
    destruct (checkAutoInject_quiet storage page st) as (Hr & _ & Hd').
    unfold Budget.within. rewrite Hr, Hd'.
    split; [exact Hle | exists older; exact Hd].
  - cbn [handleNavigation fst]. split; [cbn; lia|].
    exists (delays (log st)). cbn. rewrite app_nil_r. reflexivity.
  - exact H.
Qed.

(** A call of [startProcessing] on an object whose buttons were injected
    touches neither the flag nor the container. *)
Lemma startProcessing_injected (page : Page) (storage : result Settings)
  (st : State) :
  isInjected st = true ->
  isInjected (fst (startProcessing page storage st)) = true /\
  container (fst (startProcessing page storage st)) = container st.
Proof.
  intros Hi. unfold startProcessing.
  destruct (isProcessing st); [split; [exact Hi | reflexivity]|].
  destruct (extractMetadata_returns page (extensionData st)) as (d' & E).
  cbn [extensionData with_isProcessing] in *.
  rewrite E.
  cbn [extensionData with_data emit retryAttempts].
  destruct (hasValidData d') eqn:Hv.
  - unfold checkAutoInject.
    cbn [with_data emit with_isProcessing isInjected].
    rewrite Hi. unfold setupDOMObserver.
    destruct (observer _ || negb _);
      destruct (Nat.leb maxRetries _ || hasValidData _);
      cbn; split; (exact Hi || reflexivity).
  - cbn [extensionData with_retryAttempts emit retryAttempts
         with_isProcessing with_data observer isInjected container log].
    destruct (Nat.ltb (retryAttempts st) maxRetries);
      cbn [extensionData with_retryAttempts emit retryAttempts
           with_isProcessing with_data observer isInjected container log];
      destruct (Nat.leb maxRetries _ || hasValidData _);
      cbn; split; (exact Hi || reflexivity).
Qed.

Lemma perform_lost (st : State) (c : call) :
  (forall href, c <> Navigate href) ->
  isInjected st = true /\ container st = false ->
  isInjected (perform st c) = true /\ container (perform st c) = false.
Proof.
  intros Hn [Hi Hc].
  destruct c as [page storage|page storage|page storage|href|];
    cbn [perform].
  - destruct (startProcessing_injected page storage st Hi) as [H1 H2].
    rewrite H1, H2. auto.
  - unfold retry.
    destruct (@startProcessing_injected page storage
                (with_isProcessing false st) Hi) as [H1 H2].
    rewrite H1, H2. auto.
  - unfold mutationCallback, checkAutoInject. rewrite Hc, Hi. auto.
  - exfalso. exact (Hn href eq_refl).
  - auto.
Qed.

End Calls.

(** X11.  However the calls that reach the object interleave
    ([startProcessing] from any handler, retry callbacks, also stale ones
    that a navigation did not cancel, observer callbacks, navigations, the
    page dropping the container): the retry counter never exceeds
    [maxRetries], and the timers armed since the counter was last reset
    are exactly the first [retryAttempts] delays of the doubling
    schedule. *)
Theorem history_within_budget (calls : list Navigation.call) :
  (Content.retryAttempts (Navigation.history calls)
   <= Content.maxRetries)%nat /\
  exists older,
    Content.delays (Content.log (Navigation.history calls))
    = older ++ Spec.doubling 1000
                 (Content.retryAttempts (Navigation.history calls)).
Proof.
  unfold Navigation.history.
  assert (H : Budget.within Content.initial).
  { split; [cbn; lia | exists []; reflexivity]. }
  revert H. generalize Content.initial.
  induction calls as [|c rest IH]; intros st H; cbn [fold_left];
    [exact H|].
  apply IH, perform_within, H.
Qed.

(** X12.  Once the buttons were injected and the page has dropped them,
    nothing but a navigation brings them back: after any sequence of
    [startProcessing] calls, retry callbacks and observer callbacks the
    container is still missing, because [checkAutoInject] finds
    [isInjected] still set and returns. *)
Theorem buttons_not_restored (st : Content.State)
  (calls : list Navigation.call) :
  Content.isInjected st = true ->
  Content.container st = false ->
  Budget.navigates calls = false ->
  Content.isInjected (fold_left Navigation.perform calls st) = true /\
  Content.container (fold_left Navigation.perform calls st) = false.
Proof.
  intros Hi Hc. assert (H : Content.isInjected st = true /\
                            Content.container st = false) by auto.
  clear Hi Hc. revert st H.
  induction calls as [|c rest IH]; intros st H Hn; cbn [fold_left];
    [exact H|].
  apply IH.
  - apply perform_lost; [|exact H].
    intros href ->. discriminate.
  - destruct c; cbn [Budget.navigates] in Hn; (exact Hn || discriminate).
Qed.

Lemma buttons_not_restored_witness :
  Content.isInjected
    (fold_left Navigation.perform
       [ Navigation.Mutation Example.page_with_bar
           (Ok {| Content.autoInject := VBool true |});
         Navigation.Start Example.page_with_bar
           (Ok {| Content.autoInject := VBool true |}) ]
       (Navigation.with_container false
          (Content.injectDownloadButtons Example.page_with_bar
             Example.extracted))) = true /\
  Content.container
    (fold_left Navigation.perform
       [ Navigation.Mutation Example.page_with_bar
           (Ok {| Content.autoInject := VBool true |});
         Navigation.Start Example.page_with_bar
           (Ok {| Content.autoInject := VBool true |}) ]
       (Navigation.with_container false
          (Content.injectDownloadButtons Example.page_with_bar
             Example.extracted))) = false.
Proof.
  apply (@buttons_not_restored
           (Navigation.with_container false
              (Content.injectDownloadButtons Example.page_with_bar
                 Example.extracted))
           [ Navigation.Mutation Example.page_with_bar
               (Ok {| Content.autoInject := VBool true |});
             Navigation.Start Example.page_with_bar
               (Ok {| Content.autoInject := VBool true |}) ]);
    reflexivity.
Defined.

(** ** The popup *)

Lemma startsWith_spec (s prefix : jsstring) :
  Strings.startsWith s prefix = true <-> exists rest, s = prefix ++ rest.
Proof.
  revert s; induction prefix as [|p r IH]; intros s.
  - destruct s; cbn; (split; [intros _; eexists; reflexivity | reflexivity]).
  - destruct s as [|c s']; cbn; [split; [discriminate|intros [? [=]]]|].
    rewrite andb_true_iff, N.eqb_eq, IH. split.
    + intros [-> [rest ->]]. exists rest. reflexivity.
    + intros [rest [= -> ->]]. split; [reflexivity | exists rest; reflexivity].
Qed.

(** [includes]: the needle occurs somewhere. *)
Lemma includes_spec (s needle : jsstring) :
  Strings.includes s needle = true <->
  exists before rest, s = before ++ needle ++ rest.
Proof.
  induction s as [|c r IH]; cbn [Strings.includes];
    rewrite orb_true_iff, startsWith_spec.
  - split.
    + intros [[rest H]|H]; [|discriminate].
      exists [], rest. exact H.
    + intros (before & rest & H). left.
      destruct before; [exists rest; exact H | discriminate].
  - rewrite IH. split.
    + intros [[rest H]|(before & rest & H)].
      * exists [], rest. exact H.
      * exists (c :: before), rest. rewrite H. reflexivity.
    + intros (before & rest & H). destruct before as [|b before'].
      * left. exists rest. exact H.
      * right. injection H as _ H. exists before', rest. exact H.
Qed.

Lemma extension_pages_agree (url : jsstring) :
  Tab.isExtensionPage url = Navigation.isValidPage url /\
  (Tab.isExtensionPage url = true -> Tab.isMarketplacePage url = true).
Proof.
  split; [reflexivity|].
  unfold Tab.isExtensionPage, Tab.isMarketplacePage.
  rewrite andb_true_iff, !includes_spec.
  intros [(a & b & H) _]. exists a, ($"/items" ++ b).
  rewrite H. reflexivity.
Qed.

(** X13.  The popup and the content script serve the same pages: the
    popup's [isExtensionPage] is the content script's [isValidPage], both
    true exactly when the address holds the text
    [marketplace.visualstudio.com/items] somewhere and the text [itemName=]
    somewhere (wherever, in either order); and every such address passes
    the popup's [isMarketplacePage]. *)
Theorem extension_pages (url : jsstring) :
  Tab.isExtensionPage url = Navigation.isValidPage url /\
  (Tab.isExtensionPage url = true <->
   (exists a b, url = a ++ $"marketplace.visualstudio.com/items" ++ b) /\
   (exists a b, url = a ++ $"itemName=" ++ b)) /\
  (Tab.isExtensionPage url = true -> Tab.isMarketplacePage url = true).
Proof.
  split; [reflexivity|]. split.
  - unfold Tab.isExtensionPage.
    rewrite andb_true_iff, !includes_spec. reflexivity.
  - unfold Tab.isExtensionPage, Tab.isMarketplacePage.
    rewrite andb_true_iff, !includes_spec.
    intros [(a & b & H) _]. exists a, ($"/items" ++ b).
    rewrite H. reflexivity.
Qed.

(** X14.  The popup starts a download only for a descriptor whose version
    is non-empty and whose identifier holds a dot; it then cuts the
    identifier at its first dot, into a dot-free publisher and the rest,
    which put together again give the identifier; the URL is the one the
    content script's resolver gives for these parts, the file name is
    identifier, hyphen, version and the extension of the kind, and the
    browser is asked to save without a dialog, with a unique name. *)
Theorem popup_download (d : Content.ExtensionData) (kind : jsstring)
  (o : Popup.DownloadOptions) :
  Popup.handleDownload (Some d) kind = Popup.Download o ->
  Content.version d <> [] /\
  In (code ".") (Content.identifier d) /\
  exists publisher extension,
    Content.identifier d = publisher ++ $"." ++ extension /\
    ~ In (code ".") publisher /\
    Content.resolveUrl publisher extension (Content.version d) kind
    = Ok (Popup.url o) /\
    Popup.filename o
    = Content.identifier d ++ $"-" ++ Content.version d
      ++ (if str_eqb kind ($"vsix") then $".vsix" else $".vsixpackage") /\
    Popup.saveAs o = false /\
    Popup.conflictAction o = $"uniquify".
Proof.
  intros H. pose proof (popup_resolves_alike _ _ H) as Hu.
  revert H Hu. unfold Popup.handleDownload.
  destruct (truthy (Content.identifier d)) eqn:Hi; [|discriminate].
  destruct (truthy (Content.version d)) eqn:Hv; [|discriminate].
  cbn [negb orb].
  destruct (Nat.ltb _ 2) eqn:Hlen; [discriminate|].
  apply Nat.ltb_ge in Hlen.
  assert (Hdot : In (code ".") (Content.identifier d)).
  { destruct (in_dec N.eq_dec (code ".") (Content.identifier d)) as [Y|N];
      [exact Y|].
    rewrite (@split_absent _ _ N) in Hlen. cbn in Hlen. lia. }
  rewrite (@split_first _ _ Hdot) in *.
  cbn [nth slice1 skipn].
  change ($".") with [code "."].
  rewrite join_split.
  intros H Hu.
  split; [destruct (Content.version d); [discriminate | discriminate]|].
  split; [exact Hdot|].
  exists (Spec.before_first (code ".") (Content.identifier d)),
         (Spec.after_first (code ".") (Content.identifier d)).
  split; [apply before_after_first, Hdot|].
  split; [apply before_first_free|].
  split; [exact Hu|].
  revert H. destruct (str_eqb kind ($"vsix")).
  - destruct (encodeURIComponent _) as [p|]; cbn [bind]; [|discriminate].
    destruct (encodeURIComponent (Spec.after_first _ _)) as [e|];
      cbn [bind]; [|discriminate].
    destruct (encodeURIComponent (Content.version d)) as [v|];
      cbn [bind]; [|discriminate].
    intros [= <-]. cbn. auto.
  - destruct (encodeURIComponent _) as [p|]; cbn [bind]; [|discriminate].
    destruct (encodeURIComponent (Spec.after_first _ _)) as [e|];
      cbn [bind]; [|discriminate].
    destruct (encodeURIComponent (Content.version d)) as [v|];
      cbn [bind]; [|discriminate].
    intros [= <-]. cbn. auto.
Qed.

Lemma popup_download_witness :
  Content.version Example.nameless <> [] /\
  In (code ".") (Content.identifier Example.nameless) /\
  exists publisher extension,
    Content.identifier Example.nameless = publisher ++ $"." ++ extension /\
    ~ In (code ".") publisher /\
    Content.resolveUrl publisher extension (Content.version Example.nameless)
      ($"vsix")
    = Ok ($"https://p.gallery.vsassets.io/_apis/public/gallery/publisher/p/extension//1.0.0/assetbyname/Microsoft.VisualStudio.Services.VSIXPackage") /\
    $"p.-1.0.0.vsix"
    = Content.identifier Example.nameless ++ $"-"
      ++ Content.version Example.nameless
      ++ (if str_eqb ($"vsix") ($"vsix") then $".vsix"
          else $".vsixpackage") /\
    false = false /\
    $"uniquify" = $"uniquify".
Proof.
  apply (@popup_download Example.nameless ($"vsix")
           {| Popup.url := $"https://p.gallery.vsassets.io/_apis/public/gallery/publisher/p/extension//1.0.0/assetbyname/Microsoft.VisualStudio.Services.VSIXPackage";
              Popup.filename := $"p.-1.0.0.vsix";
              Popup.saveAs := false;
              Popup.conflictAction := $"uniquify" |}).
  reflexivity.
Defined.

Lemma plain_parts (s : jsstring) :
  In (code ".") s -> Spec.plain s = true ->
  Spec.plain (Spec.before_first (code ".") s) = true /\
  Spec.plain (Spec.after_first (code ".") s) = true.
Proof.
  intros Hdot Hp. rewrite (@before_after_first _ _ Hdot) in Hp.
  rewrite !plain_app in Hp.
  apply andb_true_iff in Hp. destruct Hp as [Hb Hp].
  apply andb_true_iff in Hp. destruct Hp as [_ Ha]. auto.
Qed.

(** What the extractor stores for a plain [itemName] with a dot. *)
Lemma extractMetadata_plain_item (page : Page)
  (d0 : Content.ExtensionData) (itemName : jsstring) :
  get (search page) ($"itemName") = Some itemName ->
  Spec.plain itemName = true ->
  In (code ".") itemName ->
  Content.identifier (snd (Content.extractMetadata page d0)) = itemName /\
  Content.publisher (snd (Content.extractMetadata page d0))
  = Spec.before_first (code ".") itemName /\
  Content.name (snd (Content.extractMetadata page d0))
  = Spec.after_first (code ".") itemName.
Proof.
  intros Hget Hp Hdot.
  destruct (plain_parts _ Hdot Hp) as [Hb Ha].
  destruct (extractVersion_settles page) as (ov & _ & Hv).
  assert (E : Content.extractFromURL page d0
              = (Ok tt,
                 Content.set_name (Spec.after_first (code ".") itemName)
                   (Content.set_publisher
                      (Spec.before_first (code ".") itemName)
                      (Content.set_identifier itemName d0)))).
  { unfold Content.extractFromURL, Content.mtry, Content.mbind,
      Content.modify, Content.ret.
    rewrite Hget.
    destruct itemName as [|c r]; [contradiction|].
    cbn [truthy negb]. rewrite (@split_first _ _ Hdot).
    cbn [List.length Nat.leb nth slice1 skipn].
    pose proof (split_nonempty (code ".")
                  (Spec.after_first (code ".") (c :: r))) as Hne.
    destruct (split (code ".") (Spec.after_first (code ".") (c :: r)))
      as [|q qs] eqn:Hs; [contradiction|].
    cbn [List.length Nat.leb]. rewrite <- Hs.
    change ($".") with [code "."]. rewrite join_split.
    rewrite !sanitizeText_plain by assumption. reflexivity. }
  unfold Content.extractMetadata, Content.mbind, Content.ret.
  rewrite E, Hv. destruct ov; cbn; auto.
Qed.

(** X15.  For a page whose [itemName] holds a dot and neither white space
    nor a markup character, the two ways to download agree: whenever a
    button of the content script sends a download message for the
    descriptor it extracted and the popup starts a download for the same
    descriptor and kind, both name the same URL and the same file. *)
Theorem components_agree (page : Page) (d0 : Content.ExtensionData)
  (itemName kind : jsstring) (m : Content.Message)
  (o : Popup.DownloadOptions) :
  get (search page) ($"itemName") = Some itemName ->
  Spec.plain itemName = true ->
  In (code ".") itemName ->
  Content.handleButtonClick (snd (Content.extractMetadata page d0)) kind
  = Ok (Content.MessageSent m) ->
  Popup.handleDownload (Some (snd (Content.extractMetadata page d0))) kind
  = Popup.Download o ->
  Content.url m = Popup.url o /\ Content.filename m = Popup.filename o.
Proof.
  intros Hget Hp Hdot Hc Ho.
  destruct (@extractMetadata_plain_item page d0 _ Hget Hp Hdot)
    as (Hi & Hpub & Hn).
  set (d := snd (Content.extractMetadata page d0)) in *.
  pose proof (popup_resolves_alike _ _ Ho) as Hu.
  rewrite Hi, (@split_first _ _ Hdot) in Hu.
  cbn [nth slice1 skipn] in Hu.
  change ($".") with [code "."] in Hu. rewrite join_split in Hu.
  revert Hc. unfold Content.handleButtonClick, Content.performAction.
  destruct (negb (Content.hasValidData d)); [discriminate|].
  destruct (negb _ || negb _ || negb _); [discriminate|].
  destruct (str_eqb kind ($"copy"));
    [destruct (Content.copyUrls _ _ _); discriminate|].
  rewrite Hpub, Hn.
  unfold Content.resolveUrl in Hu.
  destruct (Content.downloadFile _ _ _ kind) as [m'|e] eqn:Hd;
    [|discriminate].
  cbn [bind] in *. intros [= <-]. injection Hu as Hu.
  split; [exact Hu|].
  revert Ho Hd. unfold Popup.handleDownload, Content.downloadFile.
  destruct (negb _ || negb _); [discriminate|].
  destruct (Nat.ltb _ 2); [discriminate|].
  rewrite Hi, (@split_first _ _ Hdot).
  cbn [nth slice1 skipn].
  change ($".") with [code "."]. rewrite join_split.
  pose proof (@before_after_first _ _ Hdot) as Hsplit.
  remember (Spec.before_first (code ".") itemName) as bf eqn:Ebf.
  remember (Spec.after_first (code ".") itemName) as af eqn:Eaf.
  destruct (str_eqb kind ($"vsix"));
    (destruct (encodeURIComponent bf); cbn [bind]; [|discriminate]);
    (destruct (encodeURIComponent af); cbn [bind]; [|discriminate]);
    (destruct (encodeURIComponent (Content.version d)); cbn [bind];
       [|discriminate]);
    intros [= <-] [= <-]; cbn [Content.filename Popup.filename];
    rewrite Hsplit; app_norm; reflexivity.
Qed.

Lemma components_agree_witness :
  Content.url Example.vsix_message
  = Popup.url
      {| Popup.url := Content.url Example.vsix_message;
         Popup.filename := $"ms-python.python-2024.0.0.vsix";
         Popup.saveAs := false;
         Popup.conflictAction := $"uniquify" |} /\
  Content.filename Example.vsix_message
  = Popup.filename
      {| Popup.url := Content.url Example.vsix_message;
         Popup.filename := $"ms-python.python-2024.0.0.vsix";
         Popup.saveAs := false;
         Popup.conflictAction := $"uniquify" |}.
Proof.
  apply (@components_agree
           (Example.versioned_page ($"ms-python.python") ($"2024.0.0"))
           Content.empty_data ($"ms-python.python") ($"vsix")).
  - reflexivity.
  - reflexivity.
  - vm_compute. do 9 right. left. reflexivity.
  - reflexivity.
  - reflexivity.
Defined.

(** X16.  The first answer wins: when the content script answers the
    [k]-th message ([k] from 1 to 3) and not an earlier one, the bridge
    resolves with that answer after exactly [k] messages, having waited
    the first [k - 1] delays of 300, 600 in between; whether later
    messages would have been answered plays no part. *)
Theorem bridge_first_answer (R : Type) (answers : nat -> option R)
  (k : nat) (r : R) :
  (1 <= k <= Popup.maxRetries)%nat ->
  (forall j, (1 <= j < k)%nat -> answers j = None) ->
  answers k = Some r ->
  fst (Popup.sendMessageWithRetry answers 1) = Popup.Resolved r /\
  Popup.sends (snd (Popup.sendMessageWithRetry answers 1)) = k /\
  Popup.timers (snd (Popup.sendMessageWithRetry answers 1))
  = Spec.doubling 300 (k - 1).
Proof.
  unfold Popup.maxRetries. intros Hk Hnone Hk'.
  destruct k as [|[|[|[|k]]]]; try lia.
  - rewrite (@send_answered R answers 1 r Hk'). repeat split.
  - rewrite (@send_retried R answers 1) by
      (try apply Hnone; unfold Popup.maxRetries; lia).
    cbn [Nat.add].
    rewrite (@send_answered R answers 2 r Hk'). repeat split.
  - rewrite (@send_retried R answers 1) by
      (try apply Hnone; unfold Popup.maxRetries; lia).
    cbn [Nat.add].
    rewrite (@send_retried R answers 2) by
      (try apply Hnone; unfold Popup.maxRetries; lia).
    cbn [Nat.add].
    rewrite (@send_answered R answers 3 r Hk'). repeat split.
Qed.

Lemma bridge_first_answer_witness :
  fst (Popup.sendMessageWithRetry
         (fun j => if Nat.eqb j 2 then Some tt else None) 1)
  = Popup.Resolved tt /\
  Popup.sends
    (snd (Popup.sendMessageWithRetry
            (fun j => if Nat.eqb j 2 then Some tt else None) 1)) = 2%nat /\
  Popup.timers
    (snd (Popup.sendMessageWithRetry
            (fun j => if Nat.eqb j 2 then Some tt else None) 1))
  = Spec.doubling 300 (2 - 1).
Proof.
  apply (@bridge_first_answer unit
           (fun j => if Nat.eqb j 2 then Some tt else None) 2 tt).
  - unfold Popup.maxRetries. lia.
  - intros j Hj. assert (j = 1)%nat as -> by lia. reflexivity.
  - reflexivity.
Defined.

Lemma send_resolved (R : Type) (answers : nat -> option R) (r : R) :
  fst (Popup.sendMessageWithRetry answers 1) = Popup.Resolved r ->
  exists k, answers k = Some r.
Proof.
  destruct (send_cases answers)
    as [(r' & H1 & E)|[(r' & _ & H2 & E)|[(r' & _ & _ & H3 & E)|(_ & _ & _ & E)]]];
    rewrite E; cbn [fst]; try discriminate; intros [= <-]; eauto.
Qed.

(** X17.  The popup keeps a descriptor only from a response whose
    [success] flag is set.  As the listener of the content script sets
    that flag to [hasValidData()], every descriptor the popup shows as
    detected has identifier, version and publisher non-empty, and a click
    on a download button of the popup never ends in [Missing Data]. *)
Theorem fetched_data_is_valid
  (answers : nat -> option (option Tab.Response))
  (old : option Content.ExtensionData) (d : Content.ExtensionData) :
  (forall k response,
     answers k = Some (Some response) ->
     exists held,
       Tab.onMessage ($"getExtensionData") held = Some response) ->
  Tab.fetchExtensionData answers false old
  = (Some d, Some Tab.ExtensionDetected) ->
  Content.hasValidData d = true /\
  forall kind, Popup.handleDownload (Some d) kind <> Popup.MissingData.
Proof.
  intros Hlistener. unfold Tab.fetchExtensionData.
  destruct (fst (Popup.sendMessageWithRetry answers 1)) as [[response|]|e]
    eqn:E; try discriminate.
  destruct (Tab.success response) eqn:Hs; [|discriminate].
  intros [= <-].
  apply send_resolved in E. destruct E as [k Hk].
  destruct (Hlistener k response Hk) as [held Hh].
  unfold Tab.onMessage in Hh. rewrite str_eqb_refl in Hh.
  injection Hh as <-. cbn [Tab.success Tab.data] in *.
  split; [exact Hs|].
  intros kind. unfold Popup.handleDownload.
  unfold Content.hasValidData in Hs.
  apply andb_true_iff in Hs. destruct Hs as [Hs _].
  apply andb_true_iff in Hs. destruct Hs as [Hi Hv].
  rewrite Hi, Hv. cbn [negb orb].
  destruct (Nat.ltb _ 2); [discriminate|].
  destruct (if str_eqb kind ($"vsix") then _ else _) as [[u f]|e];
    discriminate.
Qed.

Lemma fetched_data_is_valid_witness :
  Content.hasValidData Example.nameless = true /\
  forall kind,
    Popup.handleDownload (Some Example.nameless) kind <> Popup.MissingData.
Proof.
  apply (@fetched_data_is_valid
           (fun k => if Nat.eqb k 2
                     then Some (Tab.onMessage ($"getExtensionData")
                                  Example.nameless)
                     else None)
           None Example.nameless).
  - intros k response. destruct (Nat.eqb k 2); [|discriminate].
    intros H. exists Example.nameless. congruence.
  - reflexivity.
Defined.

(** ** The worker's file names *)

(** X18.  Whatever the name, [sanitizeFilename] returns a name with none
    of the characters [<>:|?*] or the double quote, with no white space,
    ending in [.vsix] or [.vsixpackage], and of at most 200 characters. *)
Theorem sanitizeFilename_safe (filename : jsstring) :
  Forall (fun c => Background.is_forbidden c = false /\ is_space c = false)
    (Background.sanitizeFilename filename) /\
  (endsWith (Background.sanitizeFilename filename) ($".vsix") = true \/
   endsWith (Background.sanitizeFilename filename) ($".vsixpackage") = true) /\
  (List.length (Background.sanitizeFilename filename) <= 200)%nat.
Proof.
  split; [|apply sanitizeFilename_extension_length].
  pose proof (sanitizeFilename_no_forbidden filename) as Hf.
  pose proof (sanitizeFilename_no_space filename) as Hs.
  rewrite Forall_forall in *. intros c Hc. split; auto.
Qed.

Lemma replace_dotdot_tidy (n : nat) :
  forall s, (List.length s <= n)%nat -> Spec.has_dotdot s = false ->
  Background.replace_dotdot s = s.
Proof.
  induction n as [|n IH]; intros [|a [|b r]] Hlen H; cbn in Hlen;
    try lia; try reflexivity.
  change (Background.replace_dotdot (a :: b :: r))
    with (if N.eqb a (code ".") && N.eqb b (code ".")
          then Background.underscore :: Background.replace_dotdot r
          else a :: Background.replace_dotdot (b :: r)).
  change (Spec.has_dotdot (a :: b :: r))
    with ((N.eqb a (code ".") && N.eqb b (code "."))
          || Spec.has_dotdot (b :: r)) in H.
  apply orb_false_iff in H. destruct H as [Hab Hr].
  rewrite Hab. f_equal. apply IH; [cbn; lia | exact Hr].
Qed.

Lemma replace_spaces_tidy (s : jsstring) :
  forallb (fun c => negb (is_space c)) s = true ->
  Background.replace_spaces false s = s.
Proof.
  induction s as [|c r IH]; cbn [forallb Background.replace_spaces];
    [reflexivity|].
  intros H. apply andb_true_iff in H. destruct H as [Hc Hr].
  apply negb_true_iff in Hc. rewrite Hc, (IH Hr). reflexivity.
Qed.

(** X19.  A name that is already tidy (no forbidden character, no white
    space, no two dots in a row, no leading dot, one of the two
    extensions, at most 200 characters) is returned as it is. *)
Theorem sanitizeFilename_tidy (filename : jsstring) :
  Names.tidy filename = true ->
  Background.sanitizeFilename filename = filename.
Proof.
  unfold Names.tidy. intros H.
  apply andb_true_iff in H. destruct H as [H Hlen].
  apply andb_true_iff in H. destruct H as [H Hext].
  apply andb_true_iff in H. destruct H as [H Hlead].
  apply andb_true_iff in H. destruct H as [Hchars Hdd].
  apply negb_true_iff in Hdd, Hlead. apply Nat.leb_le in Hlen.
  assert (Hforb : Background.replace_forbidden filename = filename).
  { unfold Background.replace_forbidden.
    rewrite <- (map_id filename) at 2. apply map_ext_in.
    intros c Hc. rewrite forallb_forall in Hchars.
    specialize (Hchars c Hc). apply andb_true_iff in Hchars.
    destruct Hchars as [Hf _]. apply negb_true_iff in Hf.
    rewrite Hf. reflexivity. }
  assert (Hsp : forallb (fun c => negb (is_space c)) filename = true).
  { rewrite forallb_forall in *. intros c Hc.
    specialize (Hchars c Hc). apply andb_true_iff in Hchars. tauto. }
  unfold Background.sanitizeFilename.
  rewrite Hforb, (@replace_dotdot_tidy (List.length filename)) by auto.
  assert (Hld : Background.replace_leading_dot filename = filename).
  { destruct filename as [|c r]; [reflexivity|].
    cbn in Hlead |- *. destruct (N.eqb c 46); [|reflexivity].
    destruct r; discriminate. }
  rewrite Hld, (replace_spaces_tidy _ Hsp), (trim_plain _ Hsp).
  apply orb_true_iff in Hext.
  assert (Hno : negb (endsWith filename ($".vsix"))
                && negb (endsWith filename ($".vsixpackage")) = false).
  { destruct Hext as [-> | ->]; [reflexivity | apply andb_false_r]. }
  rewrite Hno.
  destruct (Nat.ltb 200 (List.length filename)) eqn:Hl; [|reflexivity].
  apply Nat.ltb_lt in Hl. lia.
Qed.

Lemma sanitizeFilename_tidy_witness :
  Background.sanitizeFilename ($"ms-python.python-2024.0.0.vsix")
  = $"ms-python.python-2024.0.0.vsix".
Proof.
  apply (@sanitizeFilename_tidy ($"ms-python.python-2024.0.0.vsix")).
  reflexivity.
Defined.

(** ** The worker's messages *)

Section ServiceFacts.

Import Background Service.

Variable newURL : jsstring -> result URL.
Variable downloads_download : DownloadOptions -> result N.
Variable now : N.
Variable storage_set : value -> result unit.


Lemma downloadFile_message (publisher extension version kind : jsstring)
  (m : Content.Message) :
  Content.downloadFile publisher extension version kind = Ok m ->
  Content.action m = $"download" /\
  truthy (Content.url m) = true /\
  truthy (Content.filename m) = true.
Proof.
  unfold Content.downloadFile.
  destruct (str_eqb kind ($"vsix"));
    (destruct (encodeURIComponent publisher); cbn [bind]; [|discriminate]);
    (destruct (encodeURIComponent extension); cbn [bind]; [|discriminate]);
    (destruct (encodeURIComponent version); cbn [bind]; [|discriminate]);
    intros [= <-]; cbn [Content.action Content.url Content.filename];
    (split; [reflexivity|]); (split; [reflexivity|]);
    destruct publisher; reflexivity.
Qed.

End ServiceFacts.

(** X20.  A message that is neither a download request nor a settings
    update leaves the worker as it was: no download is started, nothing is
    written to the settings store, the state is unchanged and the channel
    is closed at once.  The reply is [Invalid message format] when the
    message is not an object with a string [action], the current settings
    for [getSettings], and [Unknown action] for every other action. *)
Theorem other_messages_change_nothing
  (newURL : jsstring -> result Background.URL)
  (downloads_download : Background.DownloadOptions -> result N) (now : N)
  (storage_set : value -> result unit)
  (request : value) (st : Service.State) :
  Service.action_of request <> Some ($"download") ->
  Service.action_of request <> Some ($"updateSettings") ->
  Service.handleMessage newURL downloads_download now storage_set request st
  = {| Service.reply :=
         match Service.action_of request with
         | None => Service.Failed ($"Invalid message format")
         | Some action =>
             if str_eqb action ($"getSettings")
             then Service.Current (Service.settings st)
             else Service.Failed ($"Unknown action")
         end;
       Service.keep_open := false;
       Service.calls := [];
       Service.writes := [];
       Service.after := st |}.
Proof.
  intros Hd Hu. unfold Service.handleMessage.
  destruct (Service.action_of request) as [action|]; [|reflexivity].
  destruct (str_eqb action ($"download")) eqn:E1.
  { apply str_eqb_eq in E1. subst. contradiction. }
  destruct (str_eqb action ($"getSettings")); [reflexivity|].
  destruct (str_eqb action ($"updateSettings")) eqn:E2; [|reflexivity].
  apply str_eqb_eq in E2. subst. contradiction.
Qed.

Lemma other_messages_change_nothing_witness :
  Service.handleMessage Example.newURL Example.download_ok 0
    (fun _ => Ok tt)
    (VObject [($"action", VString ($"getSettings"))]) Service.initial
  = {| Service.reply := Service.Current Service.defaults;
       Service.keep_open := false;
       Service.calls := [];
       Service.writes := [];
       Service.after := Service.initial |}.
Proof.
  apply (@other_messages_change_nothing Example.newURL Example.download_ok
           0%N (fun _ => Ok tt)
           (VObject [($"action", VString ($"getSettings"))])
           Service.initial);
    discriminate.
Defined.



(** ** The worker's download events *)

Section Events.

Import Background Service.

Lemma find_replace_other (id other : N) (e : Entry)
  (l : list (N * Entry)) :
  other <> id -> find other (replace_entry id e l) = find other l.
Proof.
  intros Hne. induction l as [|[k x] r IH]; cbn [replace_entry find];
    [reflexivity|].
  destruct (N.eqb_spec k id) as [->|Hk]; cbn [find].
  - destruct (N.eqb_spec id other); [congruence | reflexivity].
  - rewrite IH. reflexivity.
Qed.

Lemma find_replace_same (id : N) (e x : Entry) (l : list (N * Entry)) :
  find id l = Some x -> find id (replace_entry id e l) = Some e.
Proof.
  induction l as [|[k y] r IH]; cbn [replace_entry find]; [discriminate|].
  destruct (N.eqb k id) eqn:Hk; cbn [find]; rewrite Hk;
    [reflexivity | exact IH].
Qed.

Lemma find_cleanup (id : N) (st : State) :
  find id (downloads (cleanup id st)) = None.
Proof.
  unfold cleanup. cbn [downloads].
  induction (downloads st) as [|[k x] r IH]; cbn [filter fst find];
    [reflexivity|].
  destruct (N.eqb k id) eqn:Hk; cbn [negb find]; [exact IH|].
  rewrite Hk. exact IH.
Qed.

End Events.

(** X22.  Download events.  An event for a download the worker does not
    track (one it did not start, or one already cleaned up) changes
    nothing and has no effect.  For a tracked download, the worker only
    ever acts when the state changes to [complete] or [interrupted]: it
    then arms one clean-up timer for that download (60000 for complete,
    5000 for interrupted) and creates a notification only if
    [showNotifications] is on; the settings and the entries of the other
    downloads stay as they were. *)
Theorem download_events (delta : Service.Delta) (st : Service.State) :
  (Service.find (Service.id delta) (Service.downloads st) = None ->
   Service.handleDownloadChanged delta st = (st, [])) /\
  Service.handleDownloadChanged delta
    (Service.cleanup (Service.id delta) st)
  = (Service.cleanup (Service.id delta) st, []) /\
  Service.settings (fst (Service.handleDownloadChanged delta st))
  = Service.settings st /\
  (forall other, other <> Service.id delta ->
     Service.find other
       (Service.downloads (fst (Service.handleDownloadChanged delta st)))
     = Service.find other (Service.downloads st)) /\
  (forall e, In e (snd (Service.handleDownloadChanged delta st)) ->
     Service.find (Service.id delta) (Service.downloads st) <> None /\
     match e with
     | Service.Notification _ _ _ _ =>
         Service.showNotifications st = true /\
         (Service.state_current delta = Some ($"complete") \/
          Service.state_current delta = Some ($"interrupted"))
     | Service.Timer i ms =>
         i = Service.id delta /\
         ((Service.state_current delta = Some ($"complete") /\
           ms = 60000%N) \/
          (Service.state_current delta = Some ($"interrupted") /\
           ms = 5000%N))
     end) /\
  (Service.find (Service.id delta) (Service.downloads st) <> None ->
   (Service.state_current delta = Some ($"complete") ->
    In (Service.Timer (Service.id delta) 60000)
       (snd (Service.handleDownloadChanged delta st))) /\
   (Service.state_current delta = Some ($"interrupted") ->
    In (Service.Timer (Service.id delta) 5000)
       (snd (Service.handleDownloadChanged delta st)))).
Proof.
  split.
  { intros H. unfold Service.handleDownloadChanged. rewrite H.
    reflexivity. }
  split.
  { unfold Service.handleDownloadChanged.
    rewrite find_cleanup. reflexivity. }
  unfold Service.handleDownloadChanged.
  destruct (Service.find (Service.id delta) (Service.downloads st))
    as [download|] eqn:Hf.
  2:{ cbn [fst snd]. split; [reflexivity|]. split; [reflexivity|].
      split; [intros e []|]. intros H. contradiction. }
  destruct (Service.state_current delta) as [current|] eqn:Hs.
  2:{ cbn [fst snd Service.settings Service.downloads].
      split; [reflexivity|].
      split; [intros other Hne; apply find_replace_other; exact Hne|].
      split; [intros e []|].
      intros _. split; discriminate. }
  cbn [fst snd Service.settings Service.downloads].
  split; [reflexivity|].
  split; [intros other Hne; apply find_replace_other; exact Hne|].
  destruct (str_eqb current ($"complete")) eqn:Hc.
  - apply str_eqb_eq in Hc. subst current. split.
    + intros e He. split; [discriminate|].
      unfold Service.handleDownloadComplete in He.
      apply in_app_or in He. destruct He as [He|[<-|[]]].
      * destruct (Service.showNotifications st) eqn:Hn; [|contradiction].
        unfold Service.showNotification in He. rewrite Hn in He.
        destruct He as [<-|[]]. auto.
      * auto.
    + intros _. split; [|discriminate]. intros _.
      unfold Service.handleDownloadComplete. apply in_or_app. right.
      left. reflexivity.
  - destruct (str_eqb current ($"interrupted")) eqn:Hi.
    + apply str_eqb_eq in Hi. subst current. split.
      * intros e He. split; [discriminate|].
        unfold Service.handleDownloadInterrupted in He.
        apply in_app_or in He. destruct He as [He|[<-|[]]].
        -- destruct (Service.showNotifications st) eqn:Hn; [|contradiction].
           unfold Service.showNotification in He. rewrite Hn in He.
           destruct He as [<-|[]]. auto.
        -- auto.
      * intros _. split; [discriminate|]. intros _.
        unfold Service.handleDownloadInterrupted. apply in_or_app. right.
        left. reflexivity.
    + split; [intros e []|].
      intros _. split; intros [= ->]; discriminate.
Qed.

(** ** From the click to the download *)

(** X23.  A click that sends a download message is served by the worker
    whenever the URL of the message parses to an HTTPS address on an
    allowed host: the download capability is called exactly once, with
    the URL of the message, the sanitized file name, no dialog and a
    unique name on conflict.  If the capability returns an id the reply
    carries it and the download is tracked under it, with the URL and the
    file name as the click sent them; if it fails the reply is the
    failure, [Download failed: ] and its message, and nothing is
    tracked. *)
Theorem click_reaches_download
  (newURL : jsstring -> result Background.URL)
  (downloads_download : Background.DownloadOptions -> result N) (now : N)
  (storage_set : value -> result unit)
  (d : Content.ExtensionData) (kind : jsstring) (m : Content.Message)
  (u : Background.URL) (st : Service.State) :
  Content.handleButtonClick d kind = Ok (Content.MessageSent m) ->
  newURL (Content.url m) = Ok u ->
  Background.protocol u = $"https:" ->
  Background.isAllowedDomain (Background.hostname u) = true ->
  let o :=
    Service.handleMessage newURL downloads_download now storage_set
      (Service.delivered m) st in
  let options :=
    {| Background.options_url := Content.url m;
       Background.options_filename :=
         Background.sanitizeFilename (Content.filename m);
       Background.saveAs := false;
       Background.conflictAction := $"uniquify" |} in
  Service.calls o = [options] /\
  Service.writes o = [] /\
  Service.settings (Service.after o) = Service.settings st /\
  match downloads_download options with
  | Ok downloadId =>
      Service.reply o = Service.Downloaded downloadId /\
      Service.downloads (Service.after o)
      = (downloadId,
         Service.fresh
           {| Background.tracked_url := Content.url m;
              Background.tracked_filename := Content.filename m;
              Background.startTime := now;
              Background.status := $"in_progress" |})
        :: Service.downloads st
  | Throw e =>
      Service.reply o
      = Service.Failed ($"Download failed: " ++ Background.message e) /\
      Service.downloads (Service.after o) = Service.downloads st
  end.
Proof.
  intros Hclick Hparse Hproto Hhost.
  assert (Hm : Content.action m = $"download" /\
               truthy (Content.url m) = true /\
               truthy (Content.filename m) = true).
  { revert Hclick.
    unfold Content.handleButtonClick, Content.performAction.
    destruct (negb (Content.hasValidData d)); [discriminate|].
    destruct (negb _ || negb _ || negb _); [discriminate|].
    destruct (str_eqb kind ($"copy"));
      [destruct (Content.copyUrls _ _ _); discriminate|].
    destruct (Content.downloadFile _ _ _ kind) as [m'|e] eqn:Hd;
      [|discriminate].
    cbn [bind]. intros [= <-]. exact (downloadFile_message _ _ _ _ Hd). }
  destruct Hm as (Ha & Hu & Hf).
  cbv zeta.
  unfold Service.handleMessage, Service.delivered, Service.action_of.
  cbn [lookup str_eqb]. rewrite str_eqb_refl.
  replace (str_eqb ($"url") ($"action")) with false by reflexivity.
  replace (str_eqb ($"filename") ($"action")) with false by reflexivity.
  rewrite Ha, str_eqb_refl.
  unfold Service.field. cbn [lookup].
  replace (str_eqb ($"action") ($"url")) with false by reflexivity.
  replace (str_eqb ($"action") ($"filename")) with false by reflexivity.
  replace (str_eqb ($"url") ($"filename")) with false by reflexivity.
  rewrite !str_eqb_refl.
  unfold Background.handleDownloadRequest,
    Background.validateDownloadRequest, Background.not_a_string.
  cbn [Background.url Background.filename value_truthy
       Background.string_of].
  rewrite Hu, Hf. cbn [negb orb].
  rewrite Hparse, Hhost, Hproto, str_eqb_refl. cbn [negb].
  unfold Background.initiateDownload.
  cbn [Background.sanitizeFilename_value].
  destruct (downloads_download _) as [downloadId|e]; cbn [try_catch].
  - cbn [Service.calls Service.writes Service.after Service.settings
         Service.reply Service.downloads List.map fst snd app].
    repeat split.
  - cbn [Background.message].
    replace (truthy ($"Download failed: " ++ Background.message e))
      with true by reflexivity.
    cbn [Service.calls Service.writes Service.after Service.settings
         Service.reply Service.downloads List.map fst snd app].
    repeat split.
Qed.

Lemma click_reaches_download_witness :
  let o :=
    Service.handleMessage Example.newURL Example.download_ok 7
      (fun _ => Ok tt) (Service.delivered Example.vsix_message)
      Service.initial in
  let options :=
    {| Background.options_url := Content.url Example.vsix_message;
       Background.options_filename :=
         Background.sanitizeFilename
           (Content.filename Example.vsix_message);
       Background.saveAs := false;
       Background.conflictAction := $"uniquify" |} in
  Service.calls o = [options] /\
  Service.writes o = [] /\
  Service.settings (Service.after o) = Service.settings Service.initial /\
  match Example.download_ok options with
  | Ok downloadId =>
      Service.reply o = Service.Downloaded downloadId /\
      Service.downloads (Service.after o)
      = (downloadId,
         Service.fresh
           {| Background.tracked_url := Content.url Example.vsix_message;
              Background.tracked_filename :=
                Content.filename Example.vsix_message;
              Background.startTime := 7;
              Background.status := $"in_progress" |})
        :: Service.downloads Service.initial
  | Throw e =>
      Service.reply o
      = Service.Failed ($"Download failed: " ++ Background.message e) /\
      Service.downloads (Service.after o)
      = Service.downloads Service.initial
  end.
Proof.
  apply (@click_reaches_download Example.newURL Example.download_ok 7%N
           (fun _ => Ok tt)
           (Content.extensionData Example.extracted) ($"vsix")
           Example.vsix_message
           {| Background.protocol := $"https:";
              Background.hostname := $"ms-python.gallery.vsassets.io" |}
           Service.initial);
    reflexivity.
Defined.

(** ** Debouncing *)

Section DebounceFacts.

Import Debounce.

Variable C : Type.

Lemma get_delete_other (k k' : jsstring) (m : list (jsstring * nat)) :
  k <> k' -> get k' (delete k m) = get k' m.
Proof.
  intros Hne. induction m as [|[k0 id] r IH]; cbn [delete filter get fst];
    [reflexivity|].
  fold (delete k r).
  destruct (str_eqb k0 k) eqn:E; cbn [negb get].
  - rewrite IH. apply str_eqb_eq in E. subst k0.
    destruct (str_eqb k k') eqn:E'; [|reflexivity].
    apply str_eqb_eq in E'. contradiction.
  - rewrite IH. reflexivity.
Qed.

Lemma get_delete_same (k : jsstring) (m : list (jsstring * nat)) :
  get k (delete k m) = None.
Proof.
  induction m as [|[k0 id] r IH]; cbn [delete filter get fst];
    [reflexivity|].
  fold (delete k r).
  destruct (str_eqb k0 k) eqn:E; cbn [negb get]; [exact IH|].
  rewrite E. exact IH.
Qed.

Lemma get_delete_some (k k' : jsstring) (id : nat)
  (m : list (jsstring * nat)) :
  get k' (delete k m) = Some id -> k <> k' /\ get k' m = Some id.
Proof.
  intros H. assert (Hne : k <> k').
  { intros ->. rewrite get_delete_same in H. discriminate. }
  split; [exact Hne|]. rewrite get_delete_other in H; assumption.
Qed.

Lemma get_set (k k' : jsstring) (id : nat) (m : list (jsstring * nat)) :
  get k' (set k id m) = if str_eqb k k' then Some id else get k' (delete k m).
Proof. reflexivity. Qed.

Lemma In_clearTimeout (id i : nat) (a : Armed C)
  (l : list (nat * Armed C)) :
  In (i, a) (clearTimeout id l) <-> In (i, a) l /\ i <> id.
Proof.
  unfold clearTimeout. rewrite filter_In. cbn [fst].
  rewrite negb_true_iff, Nat.eqb_neq. reflexivity.
Qed.

Lemma sound_empty : sound (empty C).
Proof.
  repeat split; cbn; try contradiction; discriminate.
Qed.

(** The timers that stay armed when [debounce] has cleared the one of its
    key: none of them has that key. *)
Lemma still_others (k : jsstring) (t : Timers C) (i : nat) (a : Armed C) :
  sound t ->
  In (i, a) (match get k (debounceTimers t) with
             | Some id => clearTimeout id (armed t)
             | None => armed t
             end) ->
  In (i, a) (armed t) /\ key a <> k.
Proof.
  intros (Hm & _ & _) Hin.
  destruct (get k (debounceTimers t)) as [id|] eqn:Hk.
  - apply In_clearTimeout in Hin. destruct Hin as [Hin Hne].
    split; [exact Hin|]. intros E. specialize (Hm i a Hin).
    rewrite E, Hk in Hm. congruence.
  - split; [exact Hin|]. intros E. specialize (Hm i a Hin).
    rewrite E, Hk in Hm. discriminate.
Qed.

Lemma sound_debounce (k : jsstring) (cb : C) (ms : N) (t : Timers C) :
  sound t -> sound (debounce k cb ms t).
Proof.
  intros Hs. pose proof Hs as (Hm & Hb & Hinj).
  unfold debounce, sound. cbn [armed next debounceTimers].
  split; [|split].
  - intros i a Hin. apply in_app_or in Hin. destruct Hin as [Hin|Hin].
    + destruct (@still_others k t i a Hs Hin) as [Hin' Hne].
      rewrite get_set.
      destruct (str_eqb k (key a)) eqn:E.
      * apply str_eqb_eq in E. congruence.
      * rewrite get_delete_other by congruence. apply Hm, Hin'.
    + destruct Hin as [[= <- <-]|[]]. cbn [key].
      rewrite get_set, str_eqb_refl. reflexivity.
  - intros k' id. rewrite get_set.
    destruct (str_eqb k k'); [intros [= <-]; lia|].
    intros H. apply get_delete_some in H. destruct H as [_ H].
    apply Hb in H. lia.
  - intros k1 k2 id. rewrite !get_set.
    destruct (str_eqb k k1) eqn:E1, (str_eqb k k2) eqn:E2.
    + intros _ _. apply str_eqb_eq in E1, E2. congruence.
    + intros [= <-] H. apply get_delete_some in H. destruct H as [_ H].
      apply Hb in H. lia.
    + intros H [= <-]. apply get_delete_some in H. destruct H as [_ H].
      apply Hb in H. lia.
    + intros H1 H2. apply get_delete_some in H1, H2.
      destruct H1 as [_ H1], H2 as [_ H2]. exact (Hinj _ _ _ H1 H2).
Qed.

Lemma sound_fire (id : nat) (cb : C) (t t' : Timers C) :
  sound t -> fire id t = Some (cb, t') -> sound t'.
Proof.
  intros (Hm & Hb & Hinj). unfold fire.
  destruct (List.find _ (armed t)) as [[i0 a0]|] eqn:Hf; [|discriminate].
  apply find_some in Hf. cbn [fst] in Hf. destruct Hf as [Hin0 Hi0].
  apply Nat.eqb_eq in Hi0. subst i0.
  intros [= _ <-]. unfold sound. cbn [armed next debounceTimers].
  split; [|split].
  - intros i a Hin. apply In_clearTimeout in Hin. destruct Hin as [Hin Hne].
    rewrite get_delete_other; [apply Hm, Hin|].
    intros E. pose proof (Hm _ _ Hin0) as H0. pose proof (Hm _ _ Hin) as H1.
    rewrite E in H0. congruence.
  - intros k i H. apply get_delete_some in H. destruct H as [_ H].
    exact (Hb _ _ H).
  - intros k1 k2 i H1 H2. apply get_delete_some in H1, H2.
    destruct H1 as [_ H1], H2 as [_ H2]. exact (Hinj _ _ _ H1 H2).
Qed.

Lemma sound_step (t : Timers C) (o : op C) : sound t -> sound (step t o).
Proof.
  intros Hs. destruct o as [k cb ms|id]; cbn [step].
  - apply sound_debounce, Hs.
  - destruct (fire id t) as [[cb t']|] eqn:Hf; [|exact Hs].
    exact (@sound_fire id cb t t' Hs Hf).
Qed.

Lemma sound_run (ops : list (op C)) : sound (run ops).
Proof.
  unfold run. generalize (sound_empty). generalize (empty C).
  induction ops as [|o rest IH]; intros t Hs; cbn [fold_left];
    [exact Hs|].
  apply IH, sound_step, Hs.
Qed.

Lemma filter_none (A : Type) (f : A -> bool) (l : list A) :
  (forall x, In x l -> f x = false) -> filter f l = [].
Proof.
  induction l as [|x r IH]; intros H; cbn [filter]; [reflexivity|].
  rewrite (H x (or_introl eq_refl)). apply IH.
  intros y Hy. apply H. right. exact Hy.
Qed.

Lemma filter_absorb (A : Type) (f g : A -> bool) (l : list A) :
  (forall x, In x l -> f x = true -> g x = true) ->
  filter f (filter g l) = filter f l.
Proof.
  induction l as [|x r IH]; intros H; cbn [filter]; [reflexivity|].
  assert (Hr : forall y, In y r -> f y = true -> g y = true)
    by (intros y Hy; apply H; right; exact Hy).
  destruct (g x) eqn:Eg; cbn [filter].
  - destruct (f x); rewrite (IH Hr); reflexivity.
  - destruct (f x) eqn:Ef; [|apply IH, Hr].
    rewrite (H x (or_introl eq_refl) Ef) in Eg. discriminate.
Qed.

Lemma find_last (A : Type) (f : A -> bool) (l : list A) (x : A) :
  (forall y, In y l -> f y = false) -> f x = true ->
  List.find f (l ++ [x]) = Some x.
Proof.
  induction l as [|y r IH]; intros H Hx; cbn [app List.find].
  - rewrite Hx. reflexivity.
  - rewrite (H y (or_introl eq_refl)). apply IH; [|exact Hx].
    intros z Hz. apply H. right. exact Hz.
Qed.

End DebounceFacts.

(** X24.  Debouncing.  Whatever calls of [debounce] and firings of its
    timers came before, a call [debounce(key, callback, delay)] leaves
    exactly one timer armed under that key, the new one, with this
    callback and this delay: an earlier timer of the key that has not
    fired is cleared and never runs its callback.  The timers of the other
    keys are not touched.  When the new timer fires it calls this callback,
    and no timer is left under the key. *)
Theorem debounce_keeps_last (C : Type) (ops : list (Debounce.op C))
  (k : jsstring) (cb : C) (ms : N) :
  let before := Debounce.run ops in
  let t := Debounce.debounce k cb ms before in
  Debounce.timers_of k t
  = [ (Debounce.next before,
       {| Debounce.key := k; Debounce.callback := cb;
          Debounce.delay := ms |}) ] /\
  (forall k', k' <> k ->
     Debounce.timers_of k' t = Debounce.timers_of k' before) /\
  exists t',
    Debounce.fire (Debounce.next before) t = Some (cb, t') /\
    Debounce.timers_of k t' = [].
Proof.
  intros before t. pose proof (sound_run ops) as Hs.
  fold before in Hs. pose proof Hs as (Hm & Hb & Hinj).
  set (still := match Debounce.get k (Debounce.debounceTimers before) with
                | Some id => Debounce.clearTimeout id (Debounce.armed before)
                | None => Debounce.armed before
                end).
  assert (Hstill : forall x, In x still ->
                     str_eqb (Debounce.key (snd x)) k = false).
  { intros [i a] Hin. destruct (@still_others C k before i a Hs Hin)
      as [_ Hne]. cbn [snd].
    destruct (str_eqb (Debounce.key a) k) eqn:E; [|reflexivity].
    apply str_eqb_eq in E. contradiction. }
  assert (Hid : forall x, In x still ->
                  Nat.eqb (fst x) (Debounce.next before) = false).
  { intros [i a] Hin. destruct (@still_others C k before i a Hs Hin)
      as [Hin' _]. cbn [fst]. apply Nat.eqb_neq.
    pose proof (Hb _ _ (Hm _ _ Hin')). lia. }
  split; [|split].
  - unfold Debounce.timers_of, t, Debounce.debounce.
    cbn [Debounce.armed]. fold still.
    rewrite filter_app, (filter_none _ _ Hstill).
    cbn [filter snd Debounce.key app]. rewrite str_eqb_refl. reflexivity.
  - intros k' Hne.
    unfold Debounce.timers_of, t, Debounce.debounce.
    cbn [Debounce.armed]. fold still.
    rewrite filter_app. cbn [filter snd Debounce.key].
    destruct (str_eqb k k') eqn:E.
    { apply str_eqb_eq in E. congruence. }
    rewrite app_nil_r. unfold still.
    destruct (Debounce.get k (Debounce.debounceTimers before)) as [id|]
      eqn:Hk; [|reflexivity].
    unfold Debounce.clearTimeout. apply filter_absorb.
    intros [i a] Hin Ek. cbn [fst snd] in *.
    apply str_eqb_eq in Ek. apply negb_true_iff, Nat.eqb_neq. intros ->.
    apply Hne. rewrite <- Ek.
    apply (Hinj (Debounce.key a) k id); [apply Hm, Hin | exact Hk].
  - unfold Debounce.fire, t, Debounce.debounce.
    cbn [Debounce.armed Debounce.next Debounce.debounceTimers].
    fold still.
    rewrite (find_last _ _ _ Hid) by (cbn [fst]; apply Nat.eqb_refl).
    eexists. split; [reflexivity|].
    unfold Debounce.timers_of. cbn [Debounce.armed].
    apply filter_none. intros [i a] Hin.
    apply In_clearTimeout in Hin. destruct Hin as [Hin Hne].
    apply in_app_or in Hin. destruct Hin as [Hin|[[= <- <-]|[]]].
    + exact (Hstill _ Hin).
    + contradiction.
Qed.

(** ** The enhanced stand-alone script *)

(** X25.  [ExtensionManager.extractMetadata] of the enhanced script
    returns only validated data: whenever it returns, version, publisher
    and identifier are non-empty.  It throws [Metadata table not found]
    exactly when neither [.ux-table-metadata] nor [.metadata-table] is in
    the page, whatever the address says; every other failure is the error
    of the validation, which names the missing fields. *)
Theorem enhanced_extractMetadata_validated (page : Legacy.Page)
  (d : Legacy.Data) :
  (forall d', Legacy.extractMetadata page d = Ok d' ->
     truthy (Legacy.version d') = true /\
     truthy (Legacy.publisher d') = true /\
     truthy (Legacy.identifier d') = true) /\
  (Legacy.extractMetadata page d
   = Throw (Error ($"Metadata table not found")) <->
   Legacy.findElement page [$".ux-table-metadata"; $".metadata-table"]
   = None) /\
  (forall e, Legacy.extractMetadata page d = Throw e ->
     Legacy.findElement page [$".ux-table-metadata"; $".metadata-table"]
     <> None ->
     exists missing,
       e = Error ($"Missing required fields: " ++ join ($", ") missing) /\
       missing <> [] /\
       forall field, In field missing ->
         field = $"version" \/ field = $"publisher" \/
         field = $"identifier").
Proof.
  unfold Legacy.extractMetadata.
  destruct (Legacy.findElement page _) as [rows|].
  2:{ split; [discriminate|]. split; [tauto|]. intros e _ H.
      contradiction. }
  set (d1 := fold_left Legacy.read_row rows d).
  set (d2 := if truthy (Legacy.identifier d1) then d1 else _).
  unfold Legacy.validateExtensionData.
  set (missing := (if truthy (Legacy.version d2) then [] else _) ++ _).
  assert (Hall : forall field, In field missing ->
                   field = $"version" \/ field = $"publisher" \/
                   field = $"identifier").
  { subst missing.
    destruct (truthy (Legacy.version d2)), (truthy (Legacy.publisher d2)),
      (truthy (Legacy.identifier d2));
      intros field Hin; cbn [app In] in Hin; intuition (subst; auto). }
  assert (Hnil : missing = [] ->
                 truthy (Legacy.version d2) = true /\
                 truthy (Legacy.publisher d2) = true /\
                 truthy (Legacy.identifier d2) = true).
  { subst missing.
    destruct (truthy (Legacy.version d2)), (truthy (Legacy.publisher d2)),
      (truthy (Legacy.identifier d2));
      cbn [app]; intros H; try discriminate H; auto. }
  destruct missing as [|m ms]; cbn [bind].
  - split; [intros d' [= <-]; apply Hnil; reflexivity|].
    split; [split; discriminate|]. discriminate.
  - split; [discriminate|].
    split; [split; [intros [= H]; discriminate H | discriminate]|].
    intros e [= <-] _. exists (m :: ms).
    split; [reflexivity|]. split; [discriminate | exact Hall].
Qed.

(** ** The processing flag *)

Section LockFacts.

Import Content.

Variable pages : nat -> Page.
Variable storage : result Settings.

Lemma checkAutoInject_data (st_storage : result Settings) (page : Page)
  (st : State) :
  extensionData (checkAutoInject st_storage page st) = extensionData st.
Proof.
  assert (H : forall s, extensionData (injectDownloadButtons page s)
                        = extensionData s).
  { intros s. unfold injectDownloadButtons.
    destruct (isInjected s || container s); [reflexivity|].
    destruct (negb _); [reflexivity|].
    destruct (findInjectionTarget page); reflexivity. }
  unfold checkAutoInject.
  destruct (isInjected st); [reflexivity|].
  destruct st_storage as [settings|e].
  - destruct (value_truthy (autoInject settings)); [apply H | reflexivity].
  - rewrite H. reflexivity.
Qed.

Lemma setupDOMObserver_data (st : State) :
  extensionData (setupDOMObserver st) = extensionData st.
Proof.
  unfold setupDOMObserver. destruct (observer st || negb _); reflexivity.
Qed.

(** The flag after one run of [startProcessing] that found it clear. *)
Lemma startProcessing_lock (page : Page) (st st' : State) (t : option N) :
  isProcessing st = false ->
  startProcessing page storage st = (st', t) ->
  isProcessing st'
  = match t with
    | Some _ => Nat.ltb (retryAttempts st') maxRetries
    | None => false
    end.
Proof.
  intros Hp. unfold startProcessing. rewrite Hp.
  destruct (extractMetadata_returns page (extensionData st)) as (d' & E).
  cbn [extensionData with_isProcessing] in *.
  rewrite E.
  cbn [extensionData with_data emit retryAttempts].
  destruct (hasValidData d') eqn:Hv.
  - rewrite setupDOMObserver_data, checkAutoInject_data.
    cbn [extensionData with_data]. rewrite Hv, orb_true_r.
    intros [= <- <-]. reflexivity.
  - cbn [extensionData with_retryAttempts emit retryAttempts
         with_isProcessing with_data observer isInjected container log].
    destruct (Nat.ltb (retryAttempts st) maxRetries) eqn:Hlt.
    + cbn [extensionData with_retryAttempts emit retryAttempts
           with_isProcessing with_data observer isInjected container log].
      rewrite Hv, orb_false_r.
      destruct (Nat.leb maxRetries (S (retryAttempts st))) eqn:Hle;
        intros [= <- <-];
        cbn [isProcessing retryAttempts with_isProcessing emit
             with_retryAttempts with_data];
        symmetry.
      * apply Nat.ltb_ge. apply Nat.leb_le in Hle. exact Hle.
      * apply Nat.ltb_lt. apply Nat.leb_gt in Hle. exact Hle.
    + cbn [extensionData with_retryAttempts emit retryAttempts
           with_isProcessing with_data observer isInjected container log].
      rewrite Hv, orb_false_r.
      apply Nat.ltb_ge in Hlt. apply Nat.leb_le in Hlt. rewrite Hlt.
      intros [= <- <-]. reflexivity.
Qed.

Lemma boot_held : Lock.held (boot pages storage).
Proof.
  unfold boot, Lock.held.
  destruct (startProcessing (pages 0%nat) storage initial) as [st t] eqn:E.
  cbn [state pending].
  exact (@startProcessing_lock (pages 0%nat) initial st t eq_refl E).
Qed.

Lemma run_held (fuel : nat) :
  forall c, Lock.held c -> Lock.held (run pages storage fuel c).
Proof.
  induction fuel as [|n IH]; intros c Hc; cbn [run]; [exact Hc|].
  destruct (fire pages storage c) as [c'|] eqn:Hf; [|exact Hc].
  apply IH. unfold fire in Hf.
  destruct (pending c); [|discriminate].
  unfold retry in Hf.
  destruct (startProcessing _ _ _) as [st t] eqn:E.
  injection Hf as <-. unfold Lock.held. cbn [state pending].
  exact (@startProcessing_lock (pages (turn c))
           (with_isProcessing false (state c)) st t eq_refl E).
Qed.

End LockFacts.

(** X26.  The processing flag over one page view.  At every moment,
    [isProcessing] is set exactly when a retry timer is armed and fewer
    than [maxRetries] retries were scheduled: it is clear whenever nothing
    is armed, and it is already clear while the fifth, last timer is
    waiting, so that a [startProcessing] from another handler is not held
    back during that wait. *)
Theorem processing_flag (pages : nat -> Page)
  (storage : result Content.Settings) (fuel : nat) :
  Content.isProcessing
    (Content.state
       (Content.run pages storage fuel (Content.boot pages storage)))
  = match Content.pending
            (Content.run pages storage fuel (Content.boot pages storage))
    with
    | Some _ =>
        Nat.ltb
          (Content.retryAttempts
             (Content.state
                (Content.run pages storage fuel
                   (Content.boot pages storage))))
          Content.maxRetries
    | None => false
    end.
Proof.
  exact (@run_held pages storage fuel _ (boot_held pages storage)).
Qed.

(** ** The first look *)



(** ** The popup's card *)

(** X28.  The popup copies exactly the URLs it would download: a text is
    handed to the clipboard only when [handleDownload] would start a
    download for both kinds, and it then carries the URL of each, under a
    heading with identifier and version; [Missing Data] is shown for the
    copy exactly when it is shown for a download. *)
Theorem popup_copies_download_urls (writeText : jsstring -> result unit)
  (data : option Content.ExtensionData) :
  snd (Card.handleCopyUrl writeText data)
  = match Popup.handleDownload data ($"vsix"),
          Popup.handleDownload data ($"vsixpackage"), data with
    | Popup.Download o1, Popup.Download o2, Some d =>
        [ Card.copy_text (Content.identifier d) (Content.version d)
            (Popup.url o1) (Popup.url o2) ]
    | _, _, _ => []
    end /\
  (fst (Card.handleCopyUrl writeText data) = Card.MissingData <->
   Popup.handleDownload data ($"vsix") = Popup.MissingData).
Proof.
  unfold Card.handleCopyUrl, Popup.handleDownload.
  destruct data as [d|]; [|split; [reflexivity | tauto]].
  destruct (negb (truthy (Content.identifier d))
            || negb (truthy (Content.version d)));
    [split; [reflexivity | tauto]|].
  destruct (Nat.ltb _ 2); [split; [reflexivity | split; discriminate]|].
  rewrite str_eqb_refl.
  replace (str_eqb ($"vsixpackage") ($"vsix")) with false by reflexivity.
  destruct (encodeURIComponent (nth 0 _ _)) as [p|]; cbn [bind];
    [|split; [reflexivity | split; discriminate]].
  destruct (encodeURIComponent (join _ _)) as [e|]; cbn [bind];
    [|split; [reflexivity | split; discriminate]].
  destruct (encodeURIComponent (Content.version d)) as [v|]; cbn [bind];
    [|split; [reflexivity | split; discriminate]].
  cbn [Popup.url].
  destruct (writeText _); cbn [fst snd];
    (split; [reflexivity | split; discriminate]).
Qed.

(** X29.  The popup asks a tab for its descriptor exactly when the tab
    has a readable, non-empty address on which the content script installs
    its message listener; the status [Not on Extension Page] is shown only
    for a marketplace address that is not such a page. *)
Theorem popup_fetches_where_content_listens
  (query : result (option (option jsstring))) :
  (Card.checkCurrentTab query = Card.Fetch <->
   exists url, query = Ok (Some (Some url)) /\ url <> [] /\
               Card.listens url = true) /\
  (Card.checkCurrentTab query = Card.Shown Card.NotOnExtensionPage ->
   exists url, query = Ok (Some (Some url)) /\
               Tab.isMarketplacePage url = true /\
               Card.listens url = false).
Proof.
  unfold Card.checkCurrentTab, Card.listens.
  change Navigation.isValidPage with Tab.isExtensionPage.
  destruct query as [[[url|]|]|e]; try (split; [split|]; try discriminate;
    intros (u & H & _); discriminate).
  destruct (extension_pages_agree url) as (_ & Himp).
  destruct url as [|c r]; cbn [truthy negb].
  - split; [split; [discriminate|]|discriminate].
    intros (u & [= <-] & Hne & _). contradiction.
  - destruct (Tab.isMarketplacePage (c :: r)) eqn:Hm; cbn [negb].
    + destruct (Tab.isExtensionPage (c :: r)) eqn:He; cbn [negb].
      * split; [split; [intros _|reflexivity]|discriminate].
        exists (c :: r). repeat split; [discriminate | exact He].
      * split; [split; [discriminate|]|].
        -- intros (u & [= <-] & _ & H). congruence.
        -- intros _. exists (c :: r). auto.
    + split; [split; [discriminate|]|discriminate].
      intros (u & [= <-] & _ & H). specialize (Himp H). discriminate.
Qed.

(** ** The URL of the stand-alone scripts *)

Section Replace.

Import Standalone.

Lemma expand_literal (matched before after replacement : jsstring) :
  literal replacement = true ->
  expand matched before after replacement = replacement.
Proof.
  induction replacement as [|c r IH]; cbn [literal forallb expand];
    [reflexivity|].
  intros H. apply andb_true_iff in H. destruct H as [Hc Hr].
  apply negb_true_iff in Hc. rewrite Hc. f_equal. apply IH, Hr.
Qed.

(** With a literal replacement the text before the match plays no part. *)
Lemma replace_from_before (pat replacement : jsstring) (s : jsstring) :
  literal replacement = true ->
  forall skip before,
    replace_from pat replacement skip before s
    = replace_from pat replacement skip [] s.
Proof.
  intros Hrep. induction s as [|c r IH]; intros skip before;
    cbn [replace_from]; [reflexivity|].
  destruct skip as [|k].
  - destruct (Strings.startsWith (c :: r) pat).
    + rewrite !(expand_literal _ _ _ replacement Hrep).
      rewrite (IH _ (c :: before)), (IH _ [c]). reflexivity.
    + rewrite (IH _ (c :: before)), (IH _ [c]). reflexivity.
  - rewrite (IH _ (c :: before)), (IH _ [c]). reflexivity.
Qed.

Variables pat' replacement : jsstring.
Hypothesis replacement_literal : literal replacement = true.

(** A stretch of text without a dollar holds no match. *)
Lemma replace_all_skip (a s : jsstring) :
  literal a = true ->
  replace_all (dollar :: pat') replacement (a ++ s)
  = a ++ replace_all (dollar :: pat') replacement s.
Proof.
  unfold replace_all. induction a as [|c r IH];
    cbn [literal forallb app replace_from]; [reflexivity|].
  intros H. apply andb_true_iff in H. destruct H as [Hc Hr].
  apply negb_true_iff in Hc. cbn [Strings.startsWith]. rewrite Hc.
  cbn [andb]. rewrite replace_from_before by exact replacement_literal.
  f_equal. apply IH, Hr.
Qed.

Lemma replace_from_passes (x s : jsstring) :
  forall before,
  replace_from (dollar :: pat') replacement (List.length x) before (x ++ s)
  = replace_from (dollar :: pat') replacement 0 [] s.
Proof.
  induction x as [|c r IH]; intros before; cbn [List.length app].
  - apply replace_from_before, replacement_literal.
  - cbn [replace_from]. apply IH.
Qed.

(** At a match the replacement is put in. *)
Lemma replace_all_hit (s : jsstring) :
  replace_all (dollar :: pat') replacement ((dollar :: pat') ++ s)
  = replacement ++ replace_all (dollar :: pat') replacement s.
Proof.
  unfold replace_all. cbn [app replace_from].
  assert (Hs : Strings.startsWith (dollar :: pat' ++ s) (dollar :: pat')
               = true).
  { apply startsWith_spec. exists s. reflexivity. }
  rewrite Hs, (expand_literal _ _ _ replacement replacement_literal).
  cbn [List.length Nat.sub]. rewrite Nat.sub_0_r.
  rewrite replace_from_passes. reflexivity.
Qed.

(** Another placeholder is left as it is. *)
Lemma replace_all_miss (other' s : jsstring) :
  literal other' = true ->
  Strings.startsWith (dollar :: other' ++ s) (dollar :: pat') = false ->
  replace_all (dollar :: pat') replacement ((dollar :: other') ++ s)
  = (dollar :: other') ++ replace_all (dollar :: pat') replacement s.
Proof.
  intros Ho Hmiss. unfold replace_all at 1. cbn [app replace_from].
  rewrite Hmiss. rewrite replace_from_before by exact replacement_literal.
  f_equal. apply (replace_all_skip other' s Ho).
Qed.

End Replace.

Lemma split_at_separator (c : code_unit) (a s : jsstring) :
  ~ In c a -> split c (a ++ c :: s) = a :: split c s.
Proof.
  induction a as [|x r IH]; cbn [app split].
  - intros _. rewrite N.eqb_refl. reflexivity.
  - intros H. destruct (N.eqb_spec x c) as [->|Hx]; [cbn in H; tauto|].
    rewrite IH by (cbn in H; tauto). reflexivity.
Qed.

Lemma part_literal (s : jsstring) :
  Standalone.part s = true ->
  Standalone.literal s = true /\ ~ In (code ".") s.
Proof.
  unfold Standalone.part, Standalone.literal.
  induction s as [|c r IH]; cbn [forallb In]; [auto|].
  intros H. apply andb_true_iff in H. destruct H as [Hc Hr].
  apply andb_true_iff in Hc. destruct Hc as [Hd Hdot].
  destruct (IH Hr) as [Hl Hn]. rewrite Hd, Hl. split; [reflexivity|].
  intros [E|E]; [|exact (Hn E)].
  subst c. discriminate.
Qed.

(** The three substitutions of [getDownloadUrl], into either template. *)
Ltac fill :=
  repeat first
    [ rewrite replace_all_skip by (reflexivity || assumption)
    | rewrite replace_all_hit by assumption
    | rewrite replace_all_miss by (reflexivity || assumption) ].

Lemma fill_vsix (p e v : jsstring) :
  Standalone.literal p = true -> Standalone.literal e = true ->
  Standalone.literal v = true ->
  Standalone.replace_all ($"${version}") v
    (Standalone.replace_all ($"${extension}") e
       (Standalone.replace_all ($"${publisher}") p Standalone.urls_vsix))
  = Spec.template_vsix p e v.
Proof.
  intros Hp He Hv.
  change Standalone.urls_vsix
    with ($"https://" ++ (Standalone.dollar :: $"{publisher}")
          ++ $".gallery.vsassets.io/_apis/public/gallery/publisher/"
          ++ (Standalone.dollar :: $"{publisher}")
          ++ $"/extension/" ++ (Standalone.dollar :: $"{extension}")
          ++ $"/" ++ (Standalone.dollar :: $"{version}")
          ++ $"/assetbyname/Microsoft.VisualStudio.Services.VSIXPackage"
          ++ []).
  change ($"${publisher}") with (Standalone.dollar :: $"{publisher}").
  change ($"${extension}") with (Standalone.dollar :: $"{extension}").
  change ($"${version}") with (Standalone.dollar :: $"{version}").
  fill.
  change (Standalone.replace_all (Standalone.dollar :: $"{publisher}") p [])
    with (@nil code_unit).
  fill.
  change (Standalone.replace_all (Standalone.dollar :: $"{extension}") e [])
    with (@nil code_unit).
  fill.
  change (Standalone.replace_all (Standalone.dollar :: $"{version}") v [])
    with (@nil code_unit).
  rewrite app_nil_r. apply template_vsix_literal.
Qed.

Lemma fill_vsixPackage (p e v : jsstring) :
  Standalone.literal p = true -> Standalone.literal e = true ->
  Standalone.literal v = true ->
  Standalone.replace_all ($"${version}") v
    (Standalone.replace_all ($"${extension}") e
       (Standalone.replace_all ($"${publisher}") p
          Standalone.urls_vsixPackage))
  = Spec.template_vsixpackage p e v.
Proof.
  intros Hp He Hv.
  change Standalone.urls_vsixPackage
    with ($"https://marketplace.visualstudio.com/_apis/public/gallery/publishers/"
          ++ (Standalone.dollar :: $"{publisher}")
          ++ $"/vsextensions/" ++ (Standalone.dollar :: $"{extension}")
          ++ $"/" ++ (Standalone.dollar :: $"{version}")
          ++ $"/vspackage" ++ []).
  change ($"${publisher}") with (Standalone.dollar :: $"{publisher}").
  change ($"${extension}") with (Standalone.dollar :: $"{extension}").
  change ($"${version}") with (Standalone.dollar :: $"{version}").
  fill.
  change (Standalone.replace_all (Standalone.dollar :: $"{publisher}") p [])
    with (@nil code_unit).
  fill.
  change (Standalone.replace_all (Standalone.dollar :: $"{extension}") e [])
    with (@nil code_unit).
  fill.
  change (Standalone.replace_all (Standalone.dollar :: $"{version}") v [])
    with (@nil code_unit).
  rewrite app_nil_r. apply template_vsixpackage_literal.
Qed.

(** X30.  The stand-alone scripts build their URL by textual
    substitution into the same two templates, without escaping anything:
    for an identifier [publisher.extension] whose two parts hold neither a
    dot nor a dollar, and a version without a dollar, [getDownloadUrl]
    returns the CDN template for the type [vsix] and the marketplace
    template for the type [vsixPackage], with the three values put in as
    they are.  Only the first two parts of the identifier are used:
    whatever follows a second dot is dropped. *)
Theorem standalone_getDownloadUrl (p e v : jsstring) :
  Standalone.part p = true ->
  Standalone.part e = true ->
  Standalone.literal v = true ->
  Standalone.getDownloadUrl (p ++ $"." ++ e) v ($"vsix")
  = Spec.template_vsix p e v /\
  Standalone.getDownloadUrl (p ++ $"." ++ e) v ($"vsixPackage")
  = Spec.template_vsixpackage p e v /\
  (forall rest type,
     Standalone.getDownloadUrl (p ++ $"." ++ e ++ $"." ++ rest) v type
     = Standalone.getDownloadUrl (p ++ $"." ++ e) v type).
Proof.
  intros Hp He Hv.
  destruct (part_literal _ Hp) as [Lp Dp].
  destruct (part_literal _ He) as [Le De].
  assert (S2 : split (code ".") (p ++ $"." ++ e) = [p; e]).
  { change (p ++ $"." ++ e) with (p ++ code "." :: e).
    rewrite (@split_at_separator _ _ _ Dp), (@split_absent _ _ De).
    reflexivity. }
  assert (S3 : forall rest,
             split (code ".") (p ++ $"." ++ e ++ $"." ++ rest)
             = p :: e :: split (code ".") rest).
  { intros rest.
    change (p ++ $"." ++ e ++ $"." ++ rest)
      with (p ++ code "." :: (e ++ code "." :: rest)).
    rewrite (@split_at_separator _ _ _ Dp), (@split_at_separator _ _ _ De).
    reflexivity. }
  unfold Standalone.getDownloadUrl.
  split; [|split].
  - rewrite S2. cbn [Standalone.element nth].
    replace (str_eqb ($"vsix") ($"vsixPackage")) with false by reflexivity.
    apply fill_vsix; assumption.
  - rewrite S2. cbn [Standalone.element nth].
    rewrite str_eqb_refl. apply fill_vsixPackage; assumption.
  - intros rest type. rewrite S2, S3. reflexivity.
Qed.

Lemma standalone_getDownloadUrl_witness :
  Standalone.getDownloadUrl ($"ms-python" ++ $"." ++ $"python")
    ($"2024.0.0") ($"vsix")
  = Spec.template_vsix ($"ms-python") ($"python") ($"2024.0.0") /\
  Standalone.getDownloadUrl ($"ms-python" ++ $"." ++ $"python")
    ($"2024.0.0") ($"vsixPackage")
  = Spec.template_vsixpackage ($"ms-python") ($"python") ($"2024.0.0") /\
  (forall rest type,
     Standalone.getDownloadUrl
       ($"ms-python" ++ $"." ++ $"python" ++ $"." ++ rest) ($"2024.0.0")
       type
     = Standalone.getDownloadUrl ($"ms-python" ++ $"." ++ $"python")
         ($"2024.0.0") type).
Proof.
  apply (@standalone_getDownloadUrl ($"ms-python") ($"python")
           ($"2024.0.0"));
    reflexivity.
Defined.
